(** * qwen-utcp knowledge-base pipeline: extraction, relationship
      generation, lexical index and query service.

    A shallow embedding of the Python sources under [tools/] and the
    properties of the design document that concern them.

    Source files and the modules that embed them:
    - [utcp_kb_extractor.py]: [Extractor];
    - [basic_utcp_extractor.py]: [BasicExtractor];
    - [utcp_kb_processor.py]: [Processor];
    - [basic_utcp_processor.py]: [BasicProcessor];
    - [basic_utcp_ai_optimizer.py]: [Optimizer];
    - [utcp_kb_api.py]: [Api].

    Conventions of the embedding.
    - A Python [str] is a [string]; the case maps and the whitespace
      class are Python's on the ASCII range (characters above 127 are
      left alone by the case maps and are not whitespace).
    - A Python [list] is a [list]; a [dict] with a fixed set of keys is a
      record; a [dict] used as a map (the inverted index, the file
      system) is a [gmap]; a [dict] whose order of keys matters is an
      association list.
    - A [float] is a binary64 value.
    - [datetime.now().isoformat()] reads a clock: the functions that
      stamp records are written in a state monad over the number of
      readings taken so far.
    - An exception is a value of [exn]; code that can raise returns
      [result], and [try]/[except] is a [match] on it.
    - [re.findall] and the iteration order of [set] belong to the Python
      run time: they are the type classes [Regex] and [SetOrder].
    - Writing a JSON document to the knowledge-base directory succeeds,
      and reading it back gives the value written. *)

From Stdlib Require Import String Ascii List ZArith Lia Bool Arith PrimFloat.
From Stdlib Require Import Sorted.
From stdpp Require Import base option list gmap strings pretty.

Set Warnings "-register-all,-abstract-large-number".

Import ListNotations.
Local Open Scope string_scope.
Local Open Scope list_scope.

(** ** Python string operations *)

Module PyStr.

(** [str.isspace] on one ASCII character: TAB, LF, VT, FF, CR, the four
    separators FS GS RS US, and SPACE. *)
Definition isspace (c : ascii) : bool :=
  let n := nat_of_ascii c in
  (((9 <=? n) && (n <=? 13)) || ((28 <=? n) && (n <=? 32)))%nat.

Definition isupper (c : ascii) : bool :=
  let n := nat_of_ascii c in ((65 <=? n) && (n <=? 90))%nat.

Definition islower (c : ascii) : bool :=
  let n := nat_of_ascii c in ((97 <=? n) && (n <=? 122))%nat.

Definition isdigit (c : ascii) : bool :=
  let n := nat_of_ascii c in ((48 <=? n) && (n <=? 57))%nat.

Definition lower_char (c : ascii) : ascii :=
  if isupper c then ascii_of_nat (nat_of_ascii c + 32) else c.

Definition upper_char (c : ascii) : ascii :=
  if islower c then ascii_of_nat (nat_of_ascii c - 32) else c.

(** [s.lower()] *)
Fixpoint lower (s : string) : string :=
  match s with
  | EmptyString => EmptyString
  | String c s' => String (lower_char c) (lower s')
  end.

(** [len(s)] *)
Definition len (s : string) : nat := String.length s.

(** [s.startswith(p)] *)
Definition startswith (p s : string) : bool := String.prefix p s.

(** [s[n:]] for [n >= 0] *)
Fixpoint drop (n : nat) (s : string) : string :=
  match n, s with
  | O, _ => s
  | S _, EmptyString => EmptyString
  | S n', String _ s' => drop n' s'
  end.

(** [s[:n]] for [n >= 0] *)
Fixpoint take (n : nat) (s : string) : string :=
  match n, s with
  | O, _ => EmptyString
  | S _, EmptyString => EmptyString
  | S n', String c s' => String c (take n' s')
  end.

(** [s.lstrip(chars)], [s.rstrip(chars)], [s.strip(chars)], with the set
    of characters to remove given as a predicate. *)
Fixpoint lstrip_by (p : ascii -> bool) (s : string) : string :=
  match s with
  | EmptyString => EmptyString
  | String c s' => if p c then lstrip_by p s' else s
  end.

Fixpoint rstrip_by (p : ascii -> bool) (s : string) : string :=
  match s with
  | EmptyString => EmptyString
  | String c s' =>
      match rstrip_by p s' with
      | EmptyString => if p c then EmptyString else String c EmptyString
      | r => String c r
      end
  end.

Definition strip_by (p : ascii -> bool) (s : string) : string :=
  rstrip_by p (lstrip_by p s).

(** [s.strip()] *)
Definition strip (s : string) : string := strip_by isspace s.

Fixpoint mem_char (c : ascii) (cs : string) : bool :=
  match cs with
  | EmptyString => false
  | String d cs' => Ascii.eqb c d || mem_char c cs'
  end.

(** [s.strip(chars)] *)
Definition strip_chars (chars s : string) : string :=
  strip_by (fun c => mem_char c chars) s.

(** [s.split(sep)] for a one-character separator: never empty, keeps
    empty fields. *)
Fixpoint split_on (sep : ascii) (s : string) : list string :=
  match s with
  | EmptyString => [EmptyString]
  | String c s' =>
      if Ascii.eqb c sep then EmptyString :: split_on sep s'
      else match split_on sep s' with
           | [] => [String c EmptyString]
           | w :: ws => String c w :: ws
           end
  end.

(** [s.split()]: fields between runs of whitespace, no empty field. *)
Fixpoint split_ws (s : string) : list string :=
  match s with
  | EmptyString => []
  | String c s' =>
      if isspace c then split_ws s'
      else match s' with
           | EmptyString => [String c EmptyString]
           | String d _ =>
               if isspace d then String c EmptyString :: split_ws s'
               else match split_ws s' with
                    | [] => [String c EmptyString]
                    | w :: ws => String c w :: ws
                    end
           end
  end.

(** [s.replace(a, b)] for one-character [a] and [b]. *)
Fixpoint replace_char (a b : ascii) (s : string) : string :=
  match s with
  | EmptyString => EmptyString
  | String c s' =>
      String (if Ascii.eqb c a then b else c) (replace_char a b s')
  end.

(** [s.title()]: a cased character is upper-cased when the previous
    character is not cased and lower-cased when it is. *)
Fixpoint title_from (previous_is_cased : bool) (s : string) : string :=
  match s with
  | EmptyString => EmptyString
  | String c s' =>
      if islower c then
        String (if previous_is_cased then c else upper_char c)
               (title_from true s')
      else if isupper c then
        String (if previous_is_cased then lower_char c else c)
               (title_from true s')
      else String c (title_from false s')
  end.

Definition title (s : string) : string := title_from false s.

(** [sub in s] *)
Fixpoint contains (sub s : string) : bool :=
  String.prefix sub s ||
  match s with
  | EmptyString => false
  | String _ s' => contains sub s'
  end.

End PyStr.

(** ** The wall clock *)

Module Clock.

(** The state of the clock: what each reading returns (already formatted
    by [isoformat]) and how many readings were taken. *)
Record t := { readings : nat -> string; taken : nat }.

Definition M (A : Type) : Type := t -> A * t.

Definition ret {A} (a : A) : M A := fun c => (a, c).

Definition bind {A B} (m : M A) (k : A -> M B) : M B :=
  fun c => let (a, c') := m c in k a c'.

(** [datetime.now().isoformat()] *)
Definition now : M string :=
  fun c => (readings c (taken c),
            {| readings := readings c; taken := S (taken c) |}).

Definition run {A} (m : M A) (c : t) : A := fst (m c).

End Clock.

Notation "x <- m ;; k" := (Clock.bind m (fun x => k))
  (at level 100, m at next level, right associativity).

(** A [for] loop whose body appends to one result list. *)
Fixpoint for_each {A B} (xs : list A) (body : A -> Clock.M (list B))
  : Clock.M (list B) :=
  match xs with
  | [] => Clock.ret []
  | x :: xs' =>
      ys <- body x ;;
      zs <- for_each xs' body ;;
      Clock.ret (ys ++ zs)
  end.

(** [enumerate(xs)] *)
Fixpoint enumerate_from {A} (i : nat) (xs : list A) : list (nat * A) :=
  match xs with
  | [] => []
  | x :: xs' => (i, x) :: enumerate_from (S i) xs'
  end.

Definition enumerate {A} (xs : list A) : list (nat * A) :=
  enumerate_from 0 xs.

(** ** The data model *)

Inductive content_type :=
  | code | documentation | specification | test | configuration | other.

Definition content_type_str (t : content_type) : string :=
  match t with
  | code => "code"
  | documentation => "documentation"
  | specification => "specification"
  | test => "test"
  | configuration => "configuration"
  | other => "other"
  end.

Module Concept.
Record t := {
  name : string;
  type : string;
  source_repo : string;
  source_file : string;
  context : string;
  description : string;
  tags : list string;
  timestamp : string
}.
End Concept.

Inductive relationship_type := co_occurrence | same_file | contains.

Module Relationship.
Record t := {
  source : string;
  target : string;
  type : relationship_type;
  strength : float;
  source_repo : string;
  source_file : string;
  context : string;
  timestamp : string
}.
End Relationship.

(** The three strengths as written in the source: [0.5] and [1.0] are
    binary64 values, [0.8] denotes the nearest one. *)
Definition strength_co_occurrence : float := 0x1p-1%float.
Definition strength_contains : float := 0x1.999999999999ap-1%float.
Definition strength_same_file : float := 0x1p+0%float.

(** The threshold [0.7] of the insights, as the binary64 value the
    literal denotes. *)
Definition insight_threshold : float := 0x1.6666666666666p-1%float.

Definition relationship_type_str (t : relationship_type) : string :=
  match t with
  | co_occurrence => "co_occurrence"
  | same_file => "same_file"
  | contains => "contains"
  end.

Module Principle.
Record t := {
  name : string;
  description : string;
  source_repo : string;
  source_file : string;
  context : string;
  timestamp : string
}.
End Principle.

(** The principle record of the basic pipeline has other keys. *)
Module BasicPrinciple.
Record t := {
  name : string;
  description : string;
  source_repositories : list string;
  timestamp : string
}.
End BasicPrinciple.

Module Insight.
Record t := {
  name : string;
  description : string;
  type : relationship_type;
  strength : float;
  source_repo : string;
  source_file : string;
  timestamp : string
}.
End Insight.

(** [extracted_info] of the full extractor. The keys set for every file
    are fields; the keys that depend on the content type are optional
    and read with [.get(key, [])]. *)
Module Info.
Record t := {
  title : string;
  summary : string;
  key_terms : list string;
  relationships : list string;
  concepts : list string;
  functions : option (list string);
  classes : option (list string);
  imports : option (list string);
  comments : option (list string);
  sections : option (list string);
  examples : option (list string);
  spec_elements : option (list string);
  requirements : option (list string)
}.
End Info.

(** [d.get(key, [])] on an optional key. *)
Definition get_list (o : option (list string)) : list string :=
  match o with Some l => l | None => [] end.

(** One entry of [extraction_data['extractions']]: either the facts of a
    file or the error marker, told apart by ['error' in extraction].
    The full extractor nests the facts under [extracted_info]; the basic
    extractor stores title, summary and key terms at the top level. *)
Module Facts.
Record t := {
  file_path : string;
  content_type_ : content_type;
  content : string;
  line_count : nat;
  word_count : nat;
  extracted_info : Info.t;
  timestamp : string
}.
End Facts.

Module BasicFacts.
Record t := {
  file_path : string;
  content_type_ : content_type;
  content : string;
  line_count : nat;
  word_count : nat;
  title : string;
  summary : string;
  key_terms : list string;
  timestamp : string
}.
End BasicFacts.

Module ErrorMarker.
Record t := {
  file_path : string;
  error : string;
  timestamp : string
}.
End ErrorMarker.

Inductive extraction (F : Type) :=
  | ExtractedFacts (f : F)
  | ExtractionError (e : ErrorMarker.t).
Arguments ExtractedFacts {F} f.
Arguments ExtractionError {F} e.

(** ['error' in extraction] *)
Definition has_error {F} (x : extraction F) : bool :=
  match x with ExtractionError _ => true | ExtractedFacts _ => false end.

(** [extraction_data]: the keys the processors read. *)
Record extraction_data (F : Type) := {
  repository : string;
  extractions : list (extraction F)
}.
Arguments repository {F} e.
Arguments extractions {F} e.

(** [s.endswith(suffixes)] for a tuple of suffixes. *)
Definition endswith_any (suffixes : list string) (s : string) : bool :=
  existsb (fun x =>
             (PyStr.len x <=? PyStr.len s)%nat &&
             String.eqb (PyStr.drop (PyStr.len s - PyStr.len x) s) x)
          suffixes.

(** [x in l] for a list of strings. *)
Definition in_list (x : string) (l : list string) : bool :=
  existsb (String.eqb x) l.

(** ** Exceptions, sets and regular expressions *)

Inductive exn_class :=
  | OSError | IndexError | KeyError | TypeError | ValueError
  | JSONDecodeError.

(** An exception: its class and [str(e)]. *)
Record exn := Exn { exn_type : exn_class; exn_str : string }.

(** [isinstance(e, ValueError)]: [json.JSONDecodeError] derives from
    [ValueError]. *)
Definition is_ValueError (e : exn) : bool :=
  match exn_type e with
  | ValueError | JSONDecodeError => true
  | _ => false
  end.

Inductive result (A : Type) :=
  | Ok (a : A)
  | Raise (e : exn).
Arguments Ok {A} a.
Arguments Raise {A} e.

Definition rbind {A B} (r : result A) (k : A -> result B) : result B :=
  match r with
  | Ok a => k a
  | Raise e => Raise e
  end.

Notation "x <~ r ;; k" := (rbind r (fun x => k))
  (at level 100, r at next level, right associativity).

(** The iteration order of a Python [set] is not specified:
    [list(set(l))] is some arrangement of the distinct elements of
    [l]. *)
Class SetOrder := {
  list_of_set : list string -> list string;
  list_of_set_perm : forall l, list_of_set l ≡ₚ remove_dups l
}.

Inductive re_flag := IGNORECASE | MULTILINE | DOTALL.

(** [re.findall(pattern, string, flags)] for patterns with at most one
    group, hence a list of strings. *)
Class Regex := {
  findall : string -> list re_flag -> string -> list string
}.

(** ** JSON values and the knowledge-base directory *)

(** A value as [json.load] returns it. [JNull] is Python's [None]; the
    items of a [JObj] are those of the [dict], keys distinct, in
    insertion order. *)
Inductive json :=
  | JNull
  | JBool (b : bool)
  | JInt (z : Z)
  | JFloat (f : float)
  | JStr (s : string)
  | JArr (items : list json)
  | JObj (members : list (string * json)).

(** [x is None] *)
Definition is_None (x : json) : bool :=
  match x with JNull => true | _ => false end.

Module Store.

(** What a path of the knowledge-base directory holds: a directory, a
    file with a JSON document (identified with the value [json.load]
    gives for it), or a file with text that [json.load] rejects. *)
Inductive node :=
  | Dir
  | JsonFile (doc : json)
  | TextFile (raw : string).

Definition path_exists (fs : gmap string node) (path : string) : bool :=
  match fs !! path with Some _ => true | None => false end.

(** [with open(path, 'r') as f: return json.load(f)] *)
Definition json_load (fs : gmap string node) (path : string) : result json :=
  match fs !! path with
  | Some (JsonFile doc) => Ok doc
  | Some (TextFile raw) =>
      Raise (Exn JSONDecodeError "Expecting value: line 1 column 1 (char 0)")
  | Some Dir =>
      Raise (Exn OSError ("[Errno 21] Is a directory: '" ++ path ++ "'"))
  | None =>
      Raise (Exn OSError
               ("[Errno 2] No such file or directory: '" ++ path ++ "'"))
  end.

(** [with open(path, 'w') as f: json.dump(doc, f)], the directory of
    [path] being there. *)
Definition json_dump (doc : json) (path : string) (fs : gmap string node)
  : gmap string node :=
  <[path := JsonFile doc]> fs.

End Store.

(** ** Counters and the documents of the collections *)

(** [collections.Counter]: the number of occurrences of each key, the
    keys in the order of their first occurrence. *)
Fixpoint counter_add (key : string) (counts : list (string * nat))
  : list (string * nat) :=
  match counts with
  | [] => [(key, 1)]
  | (k, n) :: counts' =>
      if String.eqb k key then (k, S n) :: counts'
      else (k, n) :: counter_add key counts'
  end.

Definition Counter (keys : list string) : list (string * nat) :=
  fold_left (fun counts key => counter_add key counts) keys [].

(** Where [sorted(..., key=count, reverse=True)] puts an item among
    items already in that order: behind those that count as much. *)
Fixpoint insert_by_count (item : string * nat) (sorted : list (string * nat))
  : list (string * nat) :=
  match sorted with
  | [] => [item]
  | first :: sorted' =>
      if (snd first <? snd item)%nat then item :: first :: sorted'
      else first :: insert_by_count item sorted'
  end.

Definition sorted_by_count (items : list (string * nat))
  : list (string * nat) :=
  fold_left (fun sorted item => insert_by_count item sorted) items [].

(** [counter.most_common(n)] *)
Definition most_common (n : nat) (counts : list (string * nat))
  : list (string * nat) :=
  take n (sorted_by_count counts).

(** [dict(counter)] as a JSON object. *)
Definition counts_json (counts : list (string * nat)) : json :=
  JObj (map (fun '(k, n) => (k, JInt (Z.of_nat n))) counts).

Definition strings_json (l : list string) : json := JArr (map JStr l).

(** The documents [json.dump] writes for a concept and for a
    relationship. *)
Definition concept_json (c : Concept.t) : json :=
  JObj [("name", JStr (Concept.name c));
        ("type", JStr (Concept.type c));
        ("source_repo", JStr (Concept.source_repo c));
        ("source_file", JStr (Concept.source_file c));
        ("context", JStr (Concept.context c));
        ("description", JStr (Concept.description c));
        ("tags", strings_json (Concept.tags c));
        ("timestamp", JStr (Concept.timestamp c))].

Definition relationship_json (r : Relationship.t) : json :=
  JObj [("source", JStr (Relationship.source r));
        ("target", JStr (Relationship.target r));
        ("type", JStr (relationship_type_str (Relationship.type r)));
        ("strength", JFloat (Relationship.strength r));
        ("source_repo", JStr (Relationship.source_repo r));
        ("source_file", JStr (Relationship.source_file r));
        ("context", JStr (Relationship.context r));
        ("timestamp", JStr (Relationship.timestamp r))].

(** One entry of [all_repositories.json]. *)
Module Repository.
Record t := {
  name : string;
  commit_hash : string;
  commit_date : json;
  file_count : nat;
  extraction_date : string
}.
End Repository.

(** One raw extraction file as [process_raw_extractions] reads it: the
    keys read by [process_extraction] and those copied to the
    repository record. *)
Module RawExtraction.
Record t := {
  data : extraction_data Facts.t;
  commit_hash : string;
  commit_date : json;
  file_count : nat;
  timestamp : string
}.
End RawExtraction.

(** ** tools/utcp_kb_processor.py *)

Module Processor.

(** The spaCy pipeline, when loaded: the entities [(ent.text,
    ent.label_)] of a text. [self.nlp] is [None] when the model is not
    installed. *)
Definition nlp_model : Type := string -> list (string * string).

Section WithProcessor.
Context (nlp : option nlp_model).

Definition extract_concepts_from_extraction
    (repo_name file_path : string) (content_type : content_type)
    (content : string) (extracted_info : Info.t)
  : Clock.M (list Concept.t) :=
  let concept_of (name type : string) (tags : list string) :=
    now <- Clock.now ;;
    Clock.ret [ {| Concept.name := name;
                   Concept.type := type;
                   Concept.source_repo := repo_name;
                   Concept.source_file := file_path;
                   Concept.context := Info.title extracted_info;
                   Concept.description := Info.summary extracted_info;
                   Concept.tags := tags;
                   Concept.timestamp := now |} ] in
  by_type <-
    (match content_type with
     | code =>
         fs <- for_each (get_list (Info.functions extracted_info))
                 (fun func => concept_of func "function" ["code"; "function"]) ;;
         cs <- for_each (get_list (Info.classes extracted_info))
                 (fun cls => concept_of cls "class" ["code"; "class"]) ;;
         Clock.ret (fs ++ cs)
     | documentation | specification =>
         for_each (get_list (Info.sections extracted_info))
           (fun section =>
              concept_of section "section" ["documentation"; "section"])
     | _ => Clock.ret []
     end) ;;
  terms <- for_each (Info.key_terms extracted_info)
             (fun term => concept_of term "term" ["term"]) ;;
  entities <-
    (match nlp with
     | Some model =>
         for_each (model (PyStr.take 10000 content))
           (fun ent =>
              let (text, label_) := (ent : string * string) in
              if (2 <? PyStr.len (PyStr.strip text))%nat then
                now <- Clock.now ;;
                Clock.ret [ {| Concept.name := text;
                               Concept.type := label_;
                               Concept.source_repo := repo_name;
                               Concept.source_file := file_path;
                               Concept.context := Info.title extracted_info;
                               Concept.description := text;
                               Concept.tags := ["nlp"; "entity"];
                               Concept.timestamp := now |} ]
              else Clock.ret [])
     | None => Clock.ret []
     end) ;;
  Clock.ret (by_type ++ terms ++ entities).

Definition extract_relationships_from_extraction
    (repo_name file_path : string) (content_type : content_type)
    (content : string) (extracted_info : Info.t)
  : Clock.M (list Relationship.t) :=
  by_code <-
    (match content_type with
     | code =>
         let functions := get_list (Info.functions extracted_info) in
         let classes := get_list (Info.classes extracted_info) in
         same <-
           for_each (enumerate functions) (fun '(i, func1) =>
             for_each (drop (i + 1) functions) (fun func2 =>
               if negb (String.eqb func1 func2) then
                 now <- Clock.now ;;
                 Clock.ret [ {| Relationship.source := func1;
                                Relationship.target := func2;
                                Relationship.type := same_file;
                                Relationship.strength := strength_same_file;
                                Relationship.source_repo := repo_name;
                                Relationship.source_file := file_path;
                                Relationship.context :=
                                  "Both functions appear in " ++ file_path;
                                Relationship.timestamp := now |} ]
               else Clock.ret [])) ;;
         cross <-
           for_each classes (fun cls =>
             for_each functions (fun func =>
               now <- Clock.now ;;
               Clock.ret [ {| Relationship.source := cls;
                              Relationship.target := func;
                              Relationship.type := contains;
                              Relationship.strength := strength_contains;
                              Relationship.source_repo := repo_name;
                              Relationship.source_file := file_path;
                              Relationship.context :=
                                "Class " ++ cls ++
                                " may contain or use function " ++ func;
                              Relationship.timestamp := now |} ])) ;;
         Clock.ret (same ++ cross)
     | _ => Clock.ret []
     end) ;;
  let key_terms := Info.key_terms extracted_info in
  by_terms <-
    for_each (enumerate key_terms) (fun '(i, term1) =>
      for_each (drop (i + 1) key_terms) (fun term2 =>
        if negb (String.eqb term1 term2) then
          now <- Clock.now ;;
          Clock.ret [ {| Relationship.source := term1;
                         Relationship.target := term2;
                         Relationship.type := co_occurrence;
                         Relationship.strength := strength_co_occurrence;
                         Relationship.source_repo := repo_name;
                         Relationship.source_file := file_path;
                         Relationship.context :=
                           "Terms '" ++ term1 ++ "' and '" ++ term2 ++
                           "' appear in the same document";
                         Relationship.timestamp := now |} ]
        else Clock.ret [])) ;;
  Clock.ret (by_code ++ by_terms).

(** The loop of [process_extraction] over
    [extraction_data['extractions']]. *)
Fixpoint process_extractions (repo_name : string)
    (xs : list (extraction Facts.t))
  : Clock.M (list Concept.t * list Relationship.t) :=
  match xs with
  | [] => Clock.ret ([], [])
  | x :: xs' =>
      if has_error x then process_extractions repo_name xs'
      else
        match x with
        | ExtractionError _ => process_extractions repo_name xs'
        | ExtractedFacts extraction =>
            let file_path := Facts.file_path extraction in
            let content_type := Facts.content_type_ extraction in
            let content := Facts.content extraction in
            let extracted_info := Facts.extracted_info extraction in
            file_concepts <-
              extract_concepts_from_extraction
                repo_name file_path content_type content extracted_info ;;
            file_relationships <-
              extract_relationships_from_extraction
                repo_name file_path content_type content extracted_info ;;
            rest <- process_extractions repo_name xs' ;;
            Clock.ret (file_concepts ++ fst rest,
                       file_relationships ++ snd rest)
        end
  end.

Definition process_extraction (data : extraction_data Facts.t)
  : Clock.M (list Concept.t * list Relationship.t) :=
  let repo_name := repository data in
  process_extractions repo_name (extractions data).

(** [any(indicator in s for indicator in indicators)] *)
Definition any_in (indicators : list string) (s : string) : bool :=
  existsb (fun indicator => PyStr.contains indicator s) indicators.

Definition principle_indicators : list string :=
  ["principle"; "pattern"; "design"; "architecture"; "protocol";
   "standard"; "specification"; "rule"; "guideline"].

Definition wisdom_of (name_ : string) (concept : Concept.t)
  : Clock.M (list Principle.t) :=
  now <- Clock.now ;;
  Clock.ret [ {| Principle.name := name_;
                 Principle.description := Concept.description concept;
                 Principle.source_repo := Concept.source_repo concept;
                 Principle.source_file := Concept.source_file concept;
                 Principle.context := Concept.context concept;
                 Principle.timestamp := now |} ].

(** The two known UTCP principles, stamped at [t1] and [t2]. *)
Definition utcp_principles (t1 t2 : string) : list Principle.t :=
  [ {| Principle.name := "Universal Tool Calling";
       Principle.description :=
         "A protocol that lets AI agents call any native endpoint, over any channel - directly and without wrappers";
       Principle.source_repo := "utcp-specification";
       Principle.source_file := "specification";
       Principle.context := "Core UTCP principle";
       Principle.timestamp := t1 |};
    {| Principle.name := "Direct Tool Access";
       Principle.description :=
         "AI agents can call tools directly without extra middleware";
       Principle.source_repo := "utcp-specification";
       Principle.source_file := "specification";
       Principle.context := "Core UTCP principle";
       Principle.timestamp := t2 |} ].

Definition extract_principles (concepts : list Concept.t)
    (relationships : list Relationship.t) : Clock.M (list Principle.t) :=
  principles <-
    for_each concepts (fun concept =>
      let concept_name := PyStr.lower (Concept.name concept) in
      if any_in principle_indicators concept_name
      then wisdom_of (Concept.name concept) concept
      else Clock.ret []) ;;
  t1 <- Clock.now ;;
  t2 <- Clock.now ;;
  Clock.ret (principles ++ utcp_principles t1 t2).

Definition pattern_indicators : list string :=
  ["pattern"; "architecture"; "design"; "model"; "approach";
   "method"; "strategy"; "technique"; "implementation"].

Definition extract_patterns (concepts : list Concept.t)
    (relationships : list Relationship.t) : Clock.M (list Principle.t) :=
  for_each concepts (fun concept =>
    let concept_name := PyStr.lower (Concept.name concept) in
    if any_in pattern_indicators concept_name
    then wisdom_of (Concept.name concept) concept
    else Clock.ret []).

Definition practice_indicators : list string :=
  ["best practice"; "recommendation"; "guideline"; "should"; "must";
   "advice"; "tip"; "approach"; "method"; "procedure"].

Definition extract_best_practices (concepts : list Concept.t)
    (relationships : list Relationship.t) : Clock.M (list Principle.t) :=
  for_each concepts (fun concept =>
    if in_list (Concept.type concept) ["comment"; "documentation"; "section"]
    then
      let content := PyStr.lower (Concept.description concept) in
      if any_in practice_indicators content
      then wisdom_of ("Best Practice: " ++ Concept.name concept) concept
      else Clock.ret []
    else Clock.ret []).

Definition extract_insights (concepts : list Concept.t)
    (relationships : list Relationship.t) : Clock.M (list Insight.t) :=
  for_each relationships (fun relationship =>
    if PrimFloat.ltb insight_threshold (Relationship.strength relationship)
    then
      now <- Clock.now ;;
      Clock.ret [ {| Insight.name :=
                       "Relationship: " ++ Relationship.source relationship
                       ++ " -> " ++ Relationship.target relationship;
                     Insight.description := Relationship.context relationship;
                     Insight.type := Relationship.type relationship;
                     Insight.strength := Relationship.strength relationship;
                     Insight.source_repo :=
                       Relationship.source_repo relationship;
                     Insight.source_file :=
                       Relationship.source_file relationship;
                     Insight.timestamp := now |} ]
    else Clock.ret []).

(** The documents [json.dump] writes for the wisdom records. *)
Definition principle_json (p : Principle.t) : json :=
  JObj [("name", JStr (Principle.name p));
        ("description", JStr (Principle.description p));
        ("source_repo", JStr (Principle.source_repo p));
        ("source_file", JStr (Principle.source_file p));
        ("context", JStr (Principle.context p));
        ("timestamp", JStr (Principle.timestamp p))].

Definition insight_json (i : Insight.t) : json :=
  JObj [("name", JStr (Insight.name i));
        ("description", JStr (Insight.description i));
        ("type", JStr (relationship_type_str (Insight.type i)));
        ("strength", JFloat (Insight.strength i));
        ("source_repo", JStr (Insight.source_repo i));
        ("source_file", JStr (Insight.source_file i));
        ("timestamp", JStr (Insight.timestamp i))].

Definition save_wisdom (principles patterns best_practices : list Principle.t)
    (insights : list Insight.t) (fs : gmap string Store.node)
  : Clock.M (gmap string Store.node) :=
  let fs :=
    Store.json_dump (JArr (map principle_json principles))
      ".utcp-kb/wisdom/principles/all_principles.json" fs in
  let fs :=
    Store.json_dump (JArr (map principle_json patterns))
      ".utcp-kb/wisdom/patterns/all_patterns.json" fs in
  let fs :=
    Store.json_dump (JArr (map principle_json best_practices))
      ".utcp-kb/wisdom/best_practices/all_best_practices.json" fs in
  let fs :=
    Store.json_dump (JArr (map insight_json insights))
      ".utcp-kb/wisdom/insights/all_insights.json" fs in
  now <- Clock.now ;;
  let wisdom_summary :=
    JObj [("total_principles", JInt (Z.of_nat (length principles)));
          ("total_patterns", JInt (Z.of_nat (length patterns)));
          ("total_best_practices", JInt (Z.of_nat (length best_practices)));
          ("total_insights", JInt (Z.of_nat (length insights)));
          ("timestamp", JStr now)] in
  Clock.ret (Store.json_dump wisdom_summary ".utcp-kb/wisdom/summary.json" fs).

Definition extract_wisdom (concepts : list Concept.t)
    (relationships : list Relationship.t) (fs : gmap string Store.node)
  : Clock.M (gmap string Store.node) :=
  principles <- extract_principles concepts relationships ;;
  patterns <- extract_patterns concepts relationships ;;
  best_practices <- extract_best_practices concepts relationships ;;
  insights <- extract_insights concepts relationships ;;
  save_wisdom principles patterns best_practices insights fs.

End WithProcessor.

Section Saving.
Context (nlp : option nlp_model) `{SetOrder}.

Definition repository_json (r : Repository.t) : json :=
  JObj [("name", JStr (Repository.name r));
        ("commit_hash", JStr (Repository.commit_hash r));
        ("commit_date", Repository.commit_date r);
        ("file_count", JInt (Z.of_nat (Repository.file_count r)));
        ("extraction_date", JStr (Repository.extraction_date r))].

Definition create_summaries (concepts : list Concept.t)
    (relationships : list Relationship.t) (repositories : list Repository.t)
    (fs : gmap string Store.node) : Clock.M (gmap string Store.node) :=
  let concept_types := Counter (map Concept.type concepts) in
  now <- Clock.now ;;
  let concept_summary :=
    JObj [("total_concepts", JInt (Z.of_nat (length concepts)));
          ("concept_types", counts_json concept_types);
          ("repositories",
           strings_json (list_of_set (map Concept.source_repo concepts)));
          ("timestamp", JStr now)] in
  let fs :=
    Store.json_dump concept_summary
      ".utcp-kb/processed-knowledge/concepts/summary.json" fs in
  let relationship_types :=
    Counter (map (fun r => relationship_type_str (Relationship.type r))
                 relationships) in
  now <- Clock.now ;;
  let relationship_summary :=
    JObj [("total_relationships", JInt (Z.of_nat (length relationships)));
          ("relationship_types", counts_json relationship_types);
          ("timestamp", JStr now)] in
  let fs :=
    Store.json_dump relationship_summary
      ".utcp-kb/processed-knowledge/relationships/summary.json" fs in
  now <- Clock.now ;;
  let repo_summary :=
    JObj [("total_repositories", JInt (Z.of_nat (length repositories)));
          ("repositories", strings_json (map Repository.name repositories));
          ("timestamp", JStr now)] in
  Clock.ret
    (Store.json_dump repo_summary
       ".utcp-kb/processed-knowledge/repositories/summary.json" fs).

Definition save_processed_knowledge (concepts : list Concept.t)
    (relationships : list Relationship.t) (repositories : list Repository.t)
    (evolution : list json) (fs : gmap string Store.node)
  : Clock.M (gmap string Store.node) :=
  let fs :=
    Store.json_dump (JArr (map concept_json concepts))
      ".utcp-kb/processed-knowledge/concepts/all_concepts.json" fs in
  let fs :=
    Store.json_dump (JArr (map relationship_json relationships))
      ".utcp-kb/processed-knowledge/relationships/all_relationships.json"
      fs in
  let fs :=
    Store.json_dump (JArr (map repository_json repositories))
      ".utcp-kb/processed-knowledge/repositories/all_repositories.json" fs in
  let fs :=
    Store.json_dump (JArr evolution)
      ".utcp-kb/processed-knowledge/evolution/all_evolution.json" fs in
  create_summaries concepts relationships repositories fs.

(** The loop of [process_raw_extractions] over the extraction files, in
    the order the directories list them. *)
Fixpoint process_all (raw : list RawExtraction.t)
  : Clock.M (list Concept.t * list Relationship.t * list Repository.t) :=
  match raw with
  | [] => Clock.ret ([], [], [])
  | extraction_data :: raw' =>
      processed <- process_extraction nlp (RawExtraction.data extraction_data) ;;
      let repo_concepts := fst processed in
      let repo_relationships := snd processed in
      let repo :=
        {| Repository.name := repository (RawExtraction.data extraction_data);
           Repository.commit_hash := RawExtraction.commit_hash extraction_data;
           Repository.commit_date := RawExtraction.commit_date extraction_data;
           Repository.file_count := RawExtraction.file_count extraction_data;
           Repository.extraction_date :=
             RawExtraction.timestamp extraction_data |} in
      rest <- process_all raw' ;;
      Clock.ret (repo_concepts ++ fst (fst rest),
                 repo_relationships ++ snd (fst rest),
                 repo :: snd rest)
  end.

(** [process_raw_extractions] on the extraction files read from the
    raw-extractions directory. *)
Definition process_raw_extractions (raw : list RawExtraction.t)
    (fs : gmap string Store.node) : Clock.M (gmap string Store.node) :=
  all <- process_all raw ;;
  let all_concepts := fst (fst all) in
  let all_relationships := snd (fst all) in
  let all_repositories := snd all in
  let all_evolution := [] in
  fs <- save_processed_knowledge all_concepts all_relationships
          all_repositories all_evolution fs ;;
  extract_wisdom all_concepts all_relationships fs.

End Saving.

End Processor.

(** ** pathlib *)

Module PurePath.

Definition slash : ascii := "/"%char.

(** [Path(p).parts] on a POSIX path: the root if any, then the
    components that are neither empty nor [.]. *)
Definition parts (p : string) : list string :=
  let comps :=
    filter (fun c => negb (String.eqb c "") && negb (String.eqb c "."))
           (PyStr.split_on slash p) in
  if PyStr.startswith "//" p && negb (PyStr.startswith "///" p)
  then "//" :: comps
  else if PyStr.startswith "/" p then "/" :: comps
  else comps.

(** [Path(p).name] *)
Definition name (p : string) : string :=
  match rev (parts p) with
  | [] => ""
  | last :: rest =>
      match rest with
      | [] => if PyStr.startswith "/" p then "" else last
      | _ => last
      end
  end.

(** Position of the last [.] of [s], if any. *)
Fixpoint rfind_dot (s : string) : option nat :=
  match s with
  | EmptyString => None
  | String c s' =>
      match rfind_dot s' with
      | Some i => Some (S i)
      | None => if Ascii.eqb c "."%char then Some 0 else None
      end
  end.

(** [Path(p).suffix]: from the last dot of the name, unless that dot is
    its first or last character. *)
Definition suffix (p : string) : string :=
  let n := name p in
  match rfind_dot n with
  | Some i =>
      if (0 <? i)%nat && (i <? PyStr.len n - 1)%nat
      then PyStr.drop i n else ""
  | None => ""
  end.

(** [Path(a) / b] for a relative [b], both already normalised. *)
Definition join (a b : string) : string := a ++ "/" ++ b.

End PurePath.

(** The source tree read by the extractors: what [open(path).read()]
    gives for each path. A path absent from the map does not exist. *)
Definition source_tree : Type := gmap string (result string).

Definition read_text (tree : source_tree) (file_path : string)
  : result string :=
  match tree !! file_path with
  | Some r => r
  | None =>
      Raise (Exn OSError
               ("[Errno 2] No such file or directory: '" ++ file_path ++ "'"))
  end.

Definition newline : ascii := "010"%char.
Definition double_quote : ascii := "034"%char.
Definition single_quote : ascii := "039"%char.

(** The argument of the second [strip] of a title: the double and the
    single quote. *)
Definition quote_chars : string :=
  String double_quote (String single_quote EmptyString).

(** [s[:n] + "..." if len(s) > n else s] *)
Definition truncate (n : nat) (s : string) : string :=
  if (n <? PyStr.len s)%nat then PyStr.take n s ++ "..." else s.

(** The body of the title loop, shared by both extractors: [Some title]
    when the line makes the loop return. *)
Definition title_of_line (line : string) : option string :=
  if PyStr.startswith "# " (PyStr.strip line) then
    Some (PyStr.strip (PyStr.drop 2 (PyStr.strip line)))
  else if PyStr.startswith "title:" (PyStr.strip line) then
    Some (PyStr.strip_chars quote_chars
            (PyStr.strip (PyStr.drop 6 (PyStr.strip line))))
  else None.

(** [for line in lines: ... return ...]: the first line that returns. *)
Fixpoint first_title (lines : list string) : option string :=
  match lines with
  | [] => None
  | line :: lines' =>
      match title_of_line line with
      | Some t => Some t
      | None => first_title lines'
      end
  end.

(** The summary loop: collect lines accepted by [keep] until [limit] of
    them were collected. *)
Fixpoint summary_lines (keep : string -> bool) (limit : nat)
    (collected : list string) (lines : list string) : list string :=
  match lines with
  | [] => collected
  | line :: lines' =>
      if keep line then
        let collected' := collected ++ [line] in
        if (limit <=? length collected')%nat then collected'
        else summary_lines keep limit collected' lines'
      else summary_lines keep limit collected lines'
  end.

(** [[line.strip() for line in content.split('\n') if line.strip()]] *)
Definition stripped_lines (content : string) : list string :=
  map PyStr.strip
      (List.filter (fun line => negb (String.eqb (PyStr.strip line) ""))
                   (PyStr.split_on newline content)).

(** ** tools/utcp_kb_extractor.py *)

Module Extractor.

Section WithLibraries.
Context `{SetOrder} `{Regex}.

Definition identify_content_type (file_path content : string)
  : content_type :=
  let suffix := PyStr.lower (PurePath.suffix file_path) in
  if PyStr.contains "specification" (PyStr.lower file_path)
     || PyStr.contains "spec" (PyStr.lower content) then specification
  else if PyStr.contains "readme" (PyStr.lower file_path) then documentation
  else if PyStr.contains "test" (PyStr.lower file_path)
          || PyStr.contains "spec" (PyStr.lower file_path) then test
  else if in_list suffix [".py"; ".ts"; ".js"; ".go"; ".rs"; ".ex"] then code
  else if in_list suffix [".md"; ".rst"] then documentation
  else if in_list suffix [".json"; ".yaml"; ".yml"] then configuration
  else other.

Definition extract_title (content : string) : string :=
  let lines := PyStr.split_on newline content in
  match first_title (take 10 lines) with
  | Some t => t
  | None => "No Title Found"
  end.

Definition extract_summary (content : string) : string :=
  let lines := stripped_lines content in
  let summary_lines :=
    summary_lines
      (fun line => negb (PyStr.startswith "#" line)
                   && negb (PyStr.startswith "```" line))
      3 [] lines in
  let summary := String.concat " " summary_lines in
  truncate 200 summary.

Definition extract_key_terms (content : string) : list string :=
  let pattern :=
    "\b[A-Z][a-z]{2,}\b|\b\w+-(?:protocol|api|interface|function|class|method)\b" in
  let matches := findall pattern [IGNORECASE] content in
  take 20 (list_of_set matches).

(** [for pattern in patterns: out.extend(re.findall(pattern, ...))] *)
Definition findall_each (patterns : list string) (flags : list re_flag)
    (content : string) : list string :=
  flat_map (fun pattern => findall pattern flags content) patterns.

Definition extract_functions (content : string) : list string :=
  let patterns :=
    ["def\s+([a-zA-Z_][a-zA-Z0-9_]*)\s*\(";
     "function\s+([a-zA-Z_][a-zA-Z0-9_]*)\s*\(";
     "([a-zA-Z_][a-zA-Z0-9_]*)\s*:\s*fn\s*\(";
     "func\s+([a-zA-Z_][a-zA-Z0-9_]*)\s*\("] in
  list_of_set (findall_each patterns [] content).

Definition extract_classes (content : string) : list string :=
  let patterns :=
    ["class\s+([a-zA-Z_][a-zA-Z0-9_]*)";
     "interface\s+([a-zA-Z_][a-zA-Z0-9_]*)"] in
  list_of_set (findall_each patterns [] content).

Definition extract_imports (content : string) : list string :=
  let patterns :=
    ["import\s+([a-zA-Z0-9_.]+)";
     "from\s+([a-zA-Z0-9_.]+)\s+import";
     ("require\([\'" ++ String double_quote "]([a-zA-Z0-9_/.-]+)[\'"
        ++ String double_quote "]\)")%string;
     "use\s+([a-zA-Z0-9_::]+)"] in
  list_of_set (findall_each patterns [] content).

Definition extract_comments (content : string) : list string :=
  let triple := String double_quote
                  (String double_quote (String double_quote "")) in
  let patterns :=
    ["//\s*(.+)";
     "#\s*(.+)";
     "/\*\*?\s*(.*?)\s*\*/";
     (triple ++ "\s*(.*?)\s*" ++ triple)%string;
     "'''\s*(.*?)\s*'''"] in
  let comments :=
    flat_map (fun pattern =>
                map PyStr.strip
                    (List.filter (fun m => negb (String.eqb m ""))
                       (findall pattern [MULTILINE; DOTALL] content)))
             patterns in
  List.filter (fun c => (10 <? PyStr.len c)%nat) comments.

Definition extract_sections (content : string) : list string :=
  findall "^#+\s+(.+)$" [MULTILINE] content.

Definition extract_examples (content : string) : list string :=
  let matches := findall "```(?:\w+\n)?(.*?)```" [DOTALL] content in
  map PyStr.strip
      (List.filter (fun example => (10 <? PyStr.len (PyStr.strip example))%nat)
                   matches).

(** [matches[0]] raises [IndexError] when a pattern has no match. *)
Fixpoint spec_elements_loop (patterns : list string) (content : string)
  : result (list string) :=
  match patterns with
  | [] => Ok []
  | pattern :: patterns' =>
      match findall pattern [DOTALL; IGNORECASE] content with
      | [] => Raise (Exn IndexError "list index out of range")
      | matches =>
          rest <~ spec_elements_loop patterns' content ;;
          Ok (matches ++ rest)
      end
  end.

Definition extract_spec_elements (content : string) : result (list string) :=
  spec_elements_loop
    ["(?:MUST|MUST NOT|SHOULD|SHOULD NOT|MAY)\s+[^.!?]*[.!?]";
     "(?:REQUIREMENT|SPECIFICATION|DEFINITION):\s*([^\n]+)";
     "```(?:json|yaml)?\s*\{.*?\}(?:\s*```)?"]
    content.

Definition extract_requirements (content : string) : list string :=
  findall
    "(?:MUST|MUST NOT|SHOULD|SHOULD NOT|MAY|REQUIRED|RECOMMENDED)\s+[^.!?]*[.!?]"
    [IGNORECASE] content.

Definition extract_by_content_type (file_path content : string)
    (content_type : content_type) : result Info.t :=
  let extracted :=
    {| Info.title := extract_title content;
       Info.summary := extract_summary content;
       Info.key_terms := extract_key_terms content;
       Info.relationships := [];
       Info.concepts := [];
       Info.functions := None; Info.classes := None;
       Info.imports := None; Info.comments := None;
       Info.sections := None; Info.examples := None;
       Info.spec_elements := None; Info.requirements := None |} in
  match content_type with
  | code =>
      Ok {| Info.title := Info.title extracted;
            Info.summary := Info.summary extracted;
            Info.key_terms := Info.key_terms extracted;
            Info.relationships := []; Info.concepts := [];
            Info.functions := Some (extract_functions content);
            Info.classes := Some (extract_classes content);
            Info.imports := Some (extract_imports content);
            Info.comments := Some (extract_comments content);
            Info.sections := None; Info.examples := None;
            Info.spec_elements := None; Info.requirements := None |}
  | documentation =>
      Ok {| Info.title := Info.title extracted;
            Info.summary := Info.summary extracted;
            Info.key_terms := Info.key_terms extracted;
            Info.relationships := []; Info.concepts := [];
            Info.functions := None; Info.classes := None;
            Info.imports := None; Info.comments := None;
            Info.sections := Some (extract_sections content);
            Info.examples := Some (extract_examples content);
            Info.spec_elements := None; Info.requirements := None |}
  | specification =>
      spec_elements <~ extract_spec_elements content ;;
      Ok {| Info.title := Info.title extracted;
            Info.summary := Info.summary extracted;
            Info.key_terms := Info.key_terms extracted;
            Info.relationships := []; Info.concepts := [];
            Info.functions := None; Info.classes := None;
            Info.imports := None; Info.comments := None;
            Info.sections := None; Info.examples := None;
            Info.spec_elements := Some spec_elements;
            Info.requirements := Some (extract_requirements content) |}
  | _ => Ok extracted
  end.

(** The [try] block of [extract_content], up to the record it returns
    (stamped by the caller). *)
Definition extract_content_try (tree : source_tree) (file_path : string)
  : result (string -> Facts.t) :=
  content <~ read_text tree file_path ;;
  let lines := PyStr.split_on newline content in
  let line_count := length lines in
  let word_count := length (PyStr.split_ws content) in
  let content_type := identify_content_type file_path content in
  extracted_info <~ extract_by_content_type file_path content content_type ;;
  Ok (fun now =>
        {| Facts.file_path := file_path;
           Facts.content_type_ := content_type;
           Facts.content := content;
           Facts.line_count := line_count;
           Facts.word_count := word_count;
           Facts.extracted_info := extracted_info;
           Facts.timestamp := now |}).

Definition extract_content (tree : source_tree) (file_path : string)
  : Clock.M (extraction Facts.t) :=
  match extract_content_try tree file_path with
  | Ok facts =>
      now <- Clock.now ;;
      Clock.ret (ExtractedFacts (facts now))
  | Raise e =>
      now <- Clock.now ;;
      Clock.ret (ExtractionError
                   {| ErrorMarker.file_path := file_path;
                      ErrorMarker.error := exn_str e;
                      ErrorMarker.timestamp := now |})
  end.

End WithLibraries.

End Extractor.

(** ** tools/basic_utcp_extractor.py *)

Module BasicExtractor.

Section WithLibraries.
Context `{SetOrder} `{Regex}.

Definition extract_title_basic (content filename : string) : string :=
  let lines := PyStr.split_on newline content in
  match first_title (take 5 lines) with
  | Some t => t
  | None =>
      PyStr.title
        (PyStr.replace_char "-"%char " "%char
           (PyStr.replace_char "_"%char " "%char filename))
  end.

Definition extract_summary_basic (content : string) : string :=
  let lines := stripped_lines content in
  let summary_lines :=
    summary_lines
      (fun line => negb (PyStr.startswith "#" line)
                   && negb (PyStr.startswith "```" line)
                   && (10 <? PyStr.len line)%nat)
      2 [] lines in
  let summary := String.concat " " summary_lines in
  truncate 200 summary.

Definition extract_key_terms_basic (content : string) : list string :=
  let patterns :=
    ["\b[A-Z][a-z]{2,}[A-Z][a-z]+\b";
     "\b[A-Z]{2,}\b";
     "\b\w+-[a-z]+\b";
     "UTCP|API|protocol|function|class|method|interface"] in
  let terms :=
    flat_map (fun pattern => findall pattern [IGNORECASE] content) patterns in
  let unique_terms := list_of_set terms in
  take 20 unique_terms.



End WithLibraries.

End BasicExtractor.

(** ** Directories *)

(** [Path(dir) / name] for one component [name]. *)
Definition path_child (dir name : string) : string :=
  if String.eqb dir "." then name
  else if endswith_any ["/"] dir then dir ++ name
  else dir ++ "/" ++ name.

Fixpoint chain_from (dir : string) (names : list string) : list string :=
  match names with
  | [] => []
  | name :: names' =>
      let d := path_child dir name in d :: chain_from d names'
  end.

(** The directories on the way to [path], outermost first and [path]
    last; the root and the working directory are always there and are
    left out. *)
Definition dir_chain (path : string) : list string :=
  match PurePath.parts path with
  | [] => []
  | first :: more =>
      if PyStr.startswith "/" first then chain_from first more
      else chain_from "." (first :: more)
  end.

(** [Path(path).parent] *)
Definition path_parent (path : string) : string :=
  match PurePath.parts path with
  | [] => "."
  | [only] => if PyStr.startswith "/" only then only else "."
  | first :: more =>
      fold_left path_child (removelast more) first
  end.

(** [Path(path).mkdir(parents=True, exist_ok=True)]: the missing
    directories of the chain are made; a file on the way is an error. *)
Fixpoint mkdir_chain (dirs : list string) (fs : gmap string Store.node)
  : result (gmap string Store.node) :=
  match dirs with
  | [] => Ok fs
  | d :: dirs' =>
      match fs !! d with
      | None => mkdir_chain dirs' (<[d := Store.Dir]> fs)
      | Some Store.Dir => mkdir_chain dirs' fs
      | Some _ =>
          Raise (Exn OSError
                   (if match dirs' with [] => true | _ => false end
                    then "[Errno 17] File exists: '" ++ d ++ "'"
                    else "[Errno 20] Not a directory: '" ++ d ++ "'"))
      end
  end.

Definition mkdir_parents (path : string) (fs : gmap string Store.node)
  : result (gmap string Store.node) :=
  mkdir_chain (dir_chain path) fs.

(** [with open(path, 'w') as f: json.dump(doc, f)] in a directory that
    was just made: only a directory at [path] itself is in the way. *)
Definition write_json (doc : json) (path : string)
    (fs : gmap string Store.node) : result (gmap string Store.node) :=
  match fs !! path with
  | Some Store.Dir =>
      Raise (Exn OSError ("[Errno 21] Is a directory: '" ++ path ++ "'"))
  | _ => Ok (Store.json_dump doc path fs)
  end.

(** The pattern record of the basic pipeline. *)
Module BasicPattern.
Record t := {
  name : string;
  description : string;
  frequency : nat;
  timestamp : string
}.
End BasicPattern.

(** The summary of a collection in the basic pipeline. *)
Module BasicSummary.
Record t := {
  total : nat;
  types : list (string * nat);
  source_repositories : list (string * nat);
  timestamp : string
}.
End BasicSummary.

(** ** tools/basic_utcp_processor.py *)

Module BasicProcessor.

Definition extract_concepts_basic (repo_name file_path : string)
    (content_type : content_type) (title summary : string)
    (key_terms : list string) : Clock.M (list Concept.t) :=
  title_concept <-
    (if negb (String.eqb title "")
        && negb (String.eqb title "No Title Found") then
       now <- Clock.now ;;
       Clock.ret [ {| Concept.name := title;
                      Concept.type := "title";
                      Concept.source_repo := repo_name;
                      Concept.source_file := file_path;
                      Concept.context := truncate 100 summary;
                      Concept.description := summary;
                      Concept.tags := [content_type_str content_type; "title"];
                      Concept.timestamp := now |} ]
     else Clock.ret []) ;;
  term_concepts <-
    for_each key_terms (fun term =>
      now <- Clock.now ;;
      Clock.ret [ {| Concept.name := term;
                     Concept.type := "term";
                     Concept.source_repo := repo_name;
                     Concept.source_file := file_path;
                     Concept.context := title;
                     Concept.description := summary;
                     Concept.tags := [content_type_str content_type; "term"];
                     Concept.timestamp := now |} ]) ;;
  let path_parts := PurePath.parts file_path in
  path_concepts <-
    for_each path_parts (fun part =>
      if (2 <? PyStr.len part)%nat
         && negb (endswith_any
                    [".py"; ".ts"; ".js"; ".go"; ".rs"; ".ex"; ".md";
                     ".json"; ".yaml"; ".yml"] part) then
        now <- Clock.now ;;
        Clock.ret [ {| Concept.name := part;
                       Concept.type := "path_component";
                       Concept.source_repo := repo_name;
                       Concept.source_file := file_path;
                       Concept.context := title;
                       Concept.description :=
                         "Part of file path: " ++ file_path;
                       Concept.tags := ["path"; "structure"];
                       Concept.timestamp := now |} ]
      else Clock.ret []) ;;
  Clock.ret (title_concept ++ term_concepts ++ path_concepts).

Definition extract_relationships_basic (repo_name file_path : string)
    (key_terms : list string) : Clock.M (list Relationship.t) :=
  pairs <-
    for_each (enumerate key_terms) (fun '(i, term1) =>
      for_each (drop (i + 1) key_terms) (fun term2 =>
        if negb (String.eqb term1 term2) then
          now <- Clock.now ;;
          Clock.ret [ {| Relationship.source := term1;
                         Relationship.target := term2;
                         Relationship.type := co_occurrence;
                         Relationship.strength := strength_co_occurrence;
                         Relationship.source_repo := repo_name;
                         Relationship.source_file := file_path;
                         Relationship.context :=
                           "Terms '" ++ term1 ++ "' and '" ++ term2 ++
                           "' appear in the same file: " ++ file_path;
                         Relationship.timestamp := now |} ]
        else Clock.ret [])) ;;
  of_repo <-
    for_each key_terms (fun term =>
      now <- Clock.now ;;
      Clock.ret [ {| Relationship.source := repo_name;
                     Relationship.target := term;
                     Relationship.type := contains;
                     Relationship.strength := strength_contains;
                     Relationship.source_repo := repo_name;
                     Relationship.source_file := file_path;
                     Relationship.context :=
                       "Repository " ++ repo_name ++
                       " contains term '" ++ term ++ "'";
                     Relationship.timestamp := now |} ]) ;;
  Clock.ret (pairs ++ of_repo).

Fixpoint process_extractions_basic (repo_name : string)
    (xs : list (extraction BasicFacts.t))
  : Clock.M (list Concept.t * list Relationship.t) :=
  match xs with
  | [] => Clock.ret ([], [])
  | x :: xs' =>
      if has_error x then process_extractions_basic repo_name xs'
      else
        match x with
        | ExtractionError _ => process_extractions_basic repo_name xs'
        | ExtractedFacts extraction =>
            let file_path := BasicFacts.file_path extraction in
            let content_type := BasicFacts.content_type_ extraction in
            let title := BasicFacts.title extraction in
            let summary := BasicFacts.summary extraction in
            let key_terms := BasicFacts.key_terms extraction in
            file_concepts <-
              extract_concepts_basic
                repo_name file_path content_type title summary key_terms ;;
            file_relationships <-
              extract_relationships_basic repo_name file_path key_terms ;;
            rest <- process_extractions_basic repo_name xs' ;;
            Clock.ret (file_concepts ++ fst rest,
                       file_relationships ++ snd rest)
        end
  end.

Definition process_extraction_basic (data : extraction_data BasicFacts.t)
  : Clock.M (list Concept.t * list Relationship.t) :=
  let repo_name := repository data in
  process_extractions_basic repo_name (extractions data).

Section WithLibraries.
Context `{SetOrder}.

(** [term_repo_counts[name].add(repo)] on a [defaultdict(set)], kept in
    insertion order of the keys. *)
Fixpoint add_repo (name repo : string)
    (counts : list (string * list string)) : list (string * list string) :=
  match counts with
  | [] => [(name, [repo])]
  | (k, repos) :: counts' =>
      if String.eqb k name then (k, repos ++ [repo]) :: counts'
      else (k, repos) :: add_repo name repo counts'
  end.

Definition term_repo_counts (concepts : list Concept.t)
  : list (string * list string) :=
  fold_left (fun counts concept =>
               add_repo (Concept.name concept) (Concept.source_repo concept)
                        counts)
            concepts [].

(** The first half of [extract_wisdom_basic]: the list dumped to
    [all_principles.json]. The second half builds the patterns from the
    relationship types and does not touch it. *)
Definition extract_wisdom_basic_principles (concepts : list Concept.t)
  : Clock.M (list BasicPrinciple.t) :=
  let counts := term_repo_counts concepts in
  let potential_principles :=
    List.filter (fun '(term, repos) =>
                   (1 <? length (list_of_set repos))%nat
                   && (3 <? PyStr.len term)%nat)
                counts in
  for_each potential_principles (fun '(term, added) =>
    let repos := list_of_set added in
    now <- Clock.now ;;
    Clock.ret [ {| BasicPrinciple.name := term;
                   BasicPrinciple.description :=
                     "Concept '" ++ term ++
                     "' appears in multiple repositories: " ++
                     String.concat ", " repos;
                   BasicPrinciple.source_repositories := repos;
                   BasicPrinciple.timestamp := now |} ]).

End WithLibraries.

(** The two summaries of [create_summaries], before they are written. *)
Definition concept_summary (concepts : list Concept.t) (now : string)
  : BasicSummary.t :=
  let concept_types := Counter (map Concept.type concepts) in
  let concept_sources := Counter (map Concept.source_repo concepts) in
  {| BasicSummary.total := length concepts;
     BasicSummary.types := concept_types;
     BasicSummary.source_repositories := concept_sources;
     BasicSummary.timestamp := now |}.

Definition relationship_summary (relationships : list Relationship.t)
    (now : string) : BasicSummary.t :=
  let relationship_types :=
    Counter (map (fun r => relationship_type_str (Relationship.type r))
                 relationships) in
  let relationship_sources :=
    Counter (map Relationship.source_repo relationships) in
  {| BasicSummary.total := length relationships;
     BasicSummary.types := relationship_types;
     BasicSummary.source_repositories := relationship_sources;
     BasicSummary.timestamp := now |}.

Definition summary_json (total_key types_key : string) (s : BasicSummary.t)
  : json :=
  JObj [(total_key, JInt (Z.of_nat (BasicSummary.total s)));
        (types_key, counts_json (BasicSummary.types s));
        ("source_repositories",
         counts_json (BasicSummary.source_repositories s));
        ("timestamp", JStr (BasicSummary.timestamp s))].

Definition create_summaries (concepts : list Concept.t)
    (relationships : list Relationship.t) (output_dir : string)
    (fs : gmap string Store.node)
  : Clock.M (result (gmap string Store.node)) :=
  now <- Clock.now ;;
  let concept_summary := concept_summary concepts now in
  let summary_path := path_child output_dir "concepts_summary.json" in
  match write_json
          (summary_json "total_concepts" "concept_types" concept_summary)
          summary_path fs with
  | Raise e => Clock.ret (Raise e)
  | Ok fs =>
      now <- Clock.now ;;
      let relationship_summary := relationship_summary relationships now in
      let summary_path :=
        path_child output_dir "relationships_summary.json" in
      Clock.ret
        (write_json
           (summary_json "total_relationships" "relationship_types"
              relationship_summary)
           summary_path fs)
  end.

Definition save_processed_knowledge (concepts : list Concept.t)
    (relationships : list Relationship.t) (output_dir : string)
    (fs : gmap string Store.node)
  : Clock.M (result (gmap string Store.node)) :=
  match mkdir_parents output_dir fs with
  | Raise e => Clock.ret (Raise e)
  | Ok fs =>
      let concepts_path := path_child output_dir "all_concepts.json" in
      match write_json (JArr (map concept_json concepts)) concepts_path fs
      with
      | Raise e => Clock.ret (Raise e)
      | Ok fs =>
          let relationships_path :=
            path_child output_dir "all_relationships.json" in
          match write_json (JArr (map relationship_json relationships))
                  relationships_path fs with
          | Raise e => Clock.ret (Raise e)
          | Ok fs => create_summaries concepts relationships output_dir fs
          end
      end
  end.

Definition basic_principle_json (p : BasicPrinciple.t) : json :=
  JObj [("name", JStr (BasicPrinciple.name p));
        ("description", JStr (BasicPrinciple.description p));
        ("source_repositories",
         strings_json (BasicPrinciple.source_repositories p));
        ("timestamp", JStr (BasicPrinciple.timestamp p))].

Definition basic_pattern_json (p : BasicPattern.t) : json :=
  JObj [("name", JStr (BasicPattern.name p));
        ("description", JStr (BasicPattern.description p));
        ("frequency", JInt (Z.of_nat (BasicPattern.frequency p)));
        ("timestamp", JStr (BasicPattern.timestamp p))].

(** The second half of [extract_wisdom_basic]: the list dumped to
    [all_patterns.json]. *)
Definition extract_wisdom_basic_patterns
    (relationships : list Relationship.t) : Clock.M (list BasicPattern.t) :=
  let relationship_patterns :=
    Counter (map (fun r => relationship_type_str (Relationship.type r))
                 relationships) in
  for_each (most_common 10 relationship_patterns) (fun '(pattern_type, count) =>
    now <- Clock.now ;;
    Clock.ret [ {| BasicPattern.name := pattern_type ++ "_pattern";
                   BasicPattern.description :=
                     "Relationship pattern '" ++ pattern_type ++ "' appears "
                     ++ pretty count ++ " times";
                   BasicPattern.frequency := count;
                   BasicPattern.timestamp := now |} ]).

Section Wisdom.
Context `{SetOrder}.

Definition extract_wisdom_basic (concepts : list Concept.t)
    (relationships : list Relationship.t) (output_dir : string)
    (fs : gmap string Store.node)
  : Clock.M (result (gmap string Store.node)) :=
  principles <- extract_wisdom_basic_principles concepts ;;
  let wisdom_dir :=
    path_child (path_child (path_parent output_dir) "wisdom") "principles" in
  match mkdir_parents wisdom_dir fs with
  | Raise e => Clock.ret (Raise e)
  | Ok fs =>
      let principles_path := path_child wisdom_dir "all_principles.json" in
      match write_json (JArr (map basic_principle_json principles))
              principles_path fs with
      | Raise e => Clock.ret (Raise e)
      | Ok fs =>
          patterns <- extract_wisdom_basic_patterns relationships ;;
          let patterns_dir :=
            path_child (path_child (path_parent output_dir) "wisdom")
                       "patterns" in
          match mkdir_parents patterns_dir fs with
          | Raise e => Clock.ret (Raise e)
          | Ok fs =>
              let patterns_path :=
                path_child patterns_dir "all_patterns.json" in
              Clock.ret
                (write_json (JArr (map basic_pattern_json patterns))
                   patterns_path fs)
          end
      end
  end.

End Wisdom.

End BasicProcessor.

(** ** tools/basic_utcp_ai_optimizer.py *)

Module Optimizer.

(** [index[word].append(i)] on a [defaultdict(list)] *)
Definition append_posting (index : gmap string (list nat)) (word : string)
    (i : nat) : gmap string (list nat) :=
  <[word := default [] (index !! word) ++ [i]]> index.

(** [for word in words: if len(word) > 2: index[word].append(i)] *)
Definition index_words (index : gmap string (list nat))
    (words : list string) (i : nat) : gmap string (list nat) :=
  fold_left (fun index word =>
               if (2 <? PyStr.len word)%nat then append_posting index word i
               else index)
            words index.

Definition concept_words (concept : Concept.t) : list string :=
  let name := PyStr.lower (Concept.name concept) in
  let description := PyStr.lower (Concept.description concept) in
  PyStr.split_ws (name ++ " " ++ description).

Definition relationship_words (relationship : Relationship.t)
  : list string :=
  let source := PyStr.lower (Relationship.source relationship) in
  let target := PyStr.lower (Relationship.target relationship) in
  let context := PyStr.lower (Relationship.context relationship) in
  PyStr.split_ws (source ++ " " ++ target ++ " " ++ context).

Definition build_index {A} (words_of : A -> list string) (entities : list A)
  : gmap string (list nat) :=
  fold_left (fun index '(i, entity) => index_words index (words_of entity) i)
            (enumerate entities) ∅.

(** The two dictionaries [create_search_index] dumps to
    [indexes/concept_index.json] and [indexes/relationship_index.json]. *)
Definition create_search_index (concepts : list Concept.t)
    (relationships : list Relationship.t)
  : gmap string (list nat) * gmap string (list nat) :=
  let concept_index := build_index concept_words concepts in
  let relationship_index := build_index relationship_words relationships in
  (concept_index, relationship_index).

End Optimizer.

(** ** Python built-ins used by the request handlers *)

(** The whitespace [int()] skips around an ASCII literal. *)
Definition int_space (c : ascii) : bool :=
  let n := nat_of_ascii c in
  (((9 <=? n) && (n <=? 13)) || (n =? 32))%nat.

Definition digit_value (c : ascii) : Z := Z.of_nat (nat_of_ascii c - 48).

(** Digits with single underscores between them: the value and the
    number of digits. *)
Fixpoint int_digits (expect_digit : bool) (acc : Z) (count : nat)
    (s : string) : option (Z * nat) :=
  match s with
  | EmptyString => if expect_digit then None else Some (acc, count)
  | String c s' =>
      if PyStr.isdigit c then
        int_digits false (acc * 10 + digit_value c)%Z (S count) s'
      else if Ascii.eqb c "_"%char then
        if expect_digit then None else int_digits true acc count s'
      else None
  end.

(** [sys.get_int_max_str_digits()] *)
Definition int_max_str_digits : nat := 4300.

(** [int(s)] for a [str]: [ValueError] unless [s] is an optionally signed
    decimal literal, surrounded by optional whitespace, of at most
    [int_max_str_digits] digits. *)
Definition py_int (s : string) : result Z :=
  let literal := PyStr.strip_by int_space s in
  let invalid :=
    Raise (Exn ValueError
             ("invalid literal for int() with base 10: '" ++ s ++ "'")) in
  let '(negative, digits) :=
    match literal with
    | String "-"%char rest => (true, rest)
    | String "+"%char rest => (false, rest)
    | _ => (false, literal)
    end in
  match int_digits true 0%Z 0 digits with
  | None => invalid
  | Some (value, count) =>
      if (int_max_str_digits <? count)%nat then
        Raise (Exn ValueError
                 "Exceeds the limit (4300 digits) for integer string conversion")
      else Ok (if negative then (- value)%Z else value)
  end.

Definition type_name (x : json) : string :=
  match x with
  | JNull => "NoneType"
  | JBool _ => "bool"
  | JInt _ => "int"
  | JFloat _ => "float"
  | JStr _ => "str"
  | JArr _ => "list"
  | JObj _ => "dict"
  end.

(** [len(x)] *)
Definition py_len (x : json) : result Z :=
  match x with
  | JArr items => Ok (Z.of_nat (length items))
  | JObj members => Ok (Z.of_nat (length members))
  | JStr s => Ok (Z.of_nat (PyStr.len s))
  | _ =>
      Raise (Exn TypeError
               ("object of type '" ++ type_name x ++ "' has no len()"))
  end.

(** [x[i]] for an [int] index with [0 <= i]. *)
Definition py_getitem (x : json) (i : Z) : result json :=
  match x with
  | JArr items =>
      match items !! Z.to_nat i with
      | Some item => Ok item
      | None => Raise (Exn IndexError "list index out of range")
      end
  | JStr s =>
      match String.get (Z.to_nat i) s with
      | Some c => Ok (JStr (String c EmptyString))
      | None => Raise (Exn IndexError "string index out of range")
      end
  | JObj _ => Raise (Exn KeyError (pretty i))
  | _ =>
      Raise (Exn TypeError
               ("'" ++ type_name x ++ "' object is not subscriptable"))
  end.

(** ** Exceptions by class name, and Python operations on JSON values *)

(** The outcome of code that may raise an exception of any class: the
    class is given by its name, with [str(e)]. *)
Inductive outcome (A : Type) :=
  | Return (a : A)
  | Throw (class_name message : string).
Arguments Return {A} a.
Arguments Throw {A} class_name message.

Definition obind {A B} (o : outcome A) (k : A -> outcome B) : outcome B :=
  match o with
  | Return a => k a
  | Throw cls msg => Throw cls msg
  end.

Notation "x <~~ o ;; k" := (obind o (fun x => k))
  (at level 100, o at next level, right associativity).

Definition exn_class_name (c : exn_class) : string :=
  match c with
  | OSError => "OSError"
  | IndexError => "IndexError"
  | KeyError => "KeyError"
  | TypeError => "TypeError"
  | ValueError => "ValueError"
  | JSONDecodeError => "JSONDecodeError"
  end.

Definition of_result {A} (r : result A) : outcome A :=
  match r with
  | Ok a => Return a
  | Raise e => Throw (exn_class_name (exn_type e)) (exn_str e)
  end.

(** The value of [key] in the items of a [dict]. *)
Fixpoint members_get (key : string) (members : list (string * json))
  : option json :=
  match members with
  | [] => None
  | (k, v) :: members' =>
      if String.eqb k key then Some v else members_get key members'
  end.

(** [x.get(key, default)] *)
Definition py_get (x : json) (key : string) (default : json) : outcome json :=
  match x with
  | JObj members =>
      Return (match members_get key members with
              | Some v => v
              | None => default
              end)
  | _ =>
      Throw "AttributeError"
            ("'" ++ type_name x ++ "' object has no attribute 'get'")
  end.

(** [x.lower()] *)
Definition py_lower (x : json) : outcome string :=
  match x with
  | JStr s => Return (PyStr.lower s)
  | _ =>
      Throw "AttributeError"
            ("'" ++ type_name x ++ "' object has no attribute 'lower'")
  end.

(** [x[key]] for a [str] key. *)
Definition py_getitem_str (x : json) (key : string) : outcome json :=
  match x with
  | JObj members =>
      match members_get key members with
      | Some v => Return v
      | None => Throw "KeyError" ("'" ++ key ++ "'")
      end
  | JArr _ =>
      Throw "TypeError" "list indices must be integers or slices, not str"
  | JStr _ => Throw "TypeError" "string indices must be integers, not 'str'"
  | _ =>
      Throw "TypeError" ("'" ++ type_name x ++ "' object is not subscriptable")
  end.

(** [for item in x]: the items a loop over [x] visits. *)
Definition py_iter (x : json) : outcome (list json) :=
  match x with
  | JArr items => Return items
  | JObj members => Return (map (fun kv => JStr (fst kv)) members)
  | JStr s =>
      Return (map (fun ch => JStr (String ch EmptyString))
                  (list_ascii_of_string s))
  | _ =>
      Throw "TypeError" ("'" ++ type_name x ++ "' object is not iterable")
  end.

(** [x.get(key, '').lower()] and [x[key].lower()] *)
Definition get_lower (x : json) (key : string) : outcome string :=
  v <~~ py_get x key (JStr "") ;; py_lower v.

Definition item_lower (x : json) (key : string) : outcome string :=
  v <~~ py_getitem_str x key ;; py_lower v.

(** A [for] loop that appends the items accepted by [test] to [results]
    and leaves at the first append that brings them to [limit]. *)
Fixpoint collect_until (test : json -> outcome bool) (limit : Z)
    (results : list json) (items : list json) : outcome (list json) :=
  match items with
  | [] => Return results
  | item :: items' =>
      accepted <~~ test item ;;
      if accepted then
        let results := results ++ [item] in
        if (limit <=? Z.of_nat (length results))%Z then Return results
        else collect_until test limit results items'
      else collect_until test limit results items'
  end.

(** A list comprehension [[item for item in items if test(item)]]. *)
Fixpoint comprehension (test : json -> outcome bool) (items : list json)
  : outcome (list json) :=
  match items with
  | [] => Return []
  | item :: items' =>
      accepted <~~ test item ;;
      rest <~~ comprehension test items' ;;
      Return (if accepted then item :: rest else rest)
  end.

(** ** tools/utcp_kb_api.py *)

Module Api.

Record UTCPKnowledgeBase := {
  kb_path : string;
  _concepts : json;
  _relationships : json;
  _principles : json;
  _patterns : json;
  _indexes : gmap string json
}.

Definition _load_json (kb_path : string) (fs : gmap string Store.node)
    (subpath : string) : result json :=
  let file_path := PurePath.join kb_path subpath in
  if Store.path_exists fs file_path then Store.json_load fs file_path
  else Ok (JArr []).

(** The [try] block of [_load_indexes]: the dictionary as left by the
    statements that ran, and the exception that stopped them, if any. *)
Definition _load_indexes_try (kb_path : string) (fs : gmap string Store.node)
  : gmap string json * option exn :=
  let indexes_path :=
    PurePath.join (PurePath.join kb_path "ai-optimized") "indexes" in
  if Store.path_exists fs indexes_path then
    let concept_index_path := PurePath.join indexes_path "concept_index.json" in
    let relationship_index_path :=
      PurePath.join indexes_path "relationship_index.json" in
    let step1 : gmap string json * option exn :=
      if Store.path_exists fs concept_index_path then
        match Store.json_load fs concept_index_path with
        | Ok doc => (<["concepts" := doc]> ∅, None)
        | Raise e => (∅, Some e)
        end
      else (∅, None) in
    match step1 with
    | (indexes, Some e) => (indexes, Some e)
    | (indexes, None) =>
        if Store.path_exists fs relationship_index_path then
          match Store.json_load fs relationship_index_path with
          | Ok doc => (<["relationships" := doc]> indexes, None)
          | Raise e => (indexes, Some e)
          end
        else (indexes, None)
    end
  else (∅, None).

(** [except Exception] prints a warning and goes on. *)
Definition _load_indexes (kb_path : string) (fs : gmap string Store.node)
  : gmap string json :=
  fst (_load_indexes_try kb_path fs).

(** [UTCPKnowledgeBase(kb_path)] *)
Definition __init__ (kb_path : string) (fs : gmap string Store.node)
  : UTCPKnowledgeBase :=
  {| kb_path := kb_path;
     _concepts := JNull;
     _relationships := JNull;
     _principles := JNull;
     _patterns := JNull;
     _indexes := _load_indexes kb_path fs |}.

(** A method that reads the directory, may raise, and may assign to
    attributes of [self]. *)
Definition method (A : Type) : Type :=
  gmap string Store.node -> UTCPKnowledgeBase -> result A * UTCPKnowledgeBase.

(** [if self.attr is None: self.attr = self._load_json(subpath)] then
    [return self.attr]. *)
Definition cached (attr : UTCPKnowledgeBase -> json)
    (assign : json -> UTCPKnowledgeBase -> UTCPKnowledgeBase)
    (subpath : string) : method json :=
  fun fs self =>
    if is_None (attr self) then
      match _load_json (kb_path self) fs subpath with
      | Ok loaded => let self' := assign loaded self in (Ok (attr self'), self')
      | Raise e => (Raise e, self)
      end
    else (Ok (attr self), self).

Definition get_concepts : method json :=
  cached _concepts
    (fun v self =>
       {| kb_path := kb_path self; _concepts := v;
          _relationships := _relationships self;
          _principles := _principles self; _patterns := _patterns self;
          _indexes := _indexes self |})
    "processed-knowledge/all_concepts.json".

Definition get_relationships : method json :=
  cached _relationships
    (fun v self =>
       {| kb_path := kb_path self; _concepts := _concepts self;
          _relationships := v;
          _principles := _principles self; _patterns := _patterns self;
          _indexes := _indexes self |})
    "processed-knowledge/all_relationships.json".

Definition get_principles : method json :=
  cached _principles
    (fun v self =>
       {| kb_path := kb_path self; _concepts := _concepts self;
          _relationships := _relationships self;
          _principles := v; _patterns := _patterns self;
          _indexes := _indexes self |})
    "wisdom/principles/all_principles.json".

Definition get_patterns : method json :=
  cached _patterns
    (fun v self =>
       {| kb_path := kb_path self; _concepts := _concepts self;
          _relationships := _relationships self;
          _principles := _principles self; _patterns := v;
          _indexes := _indexes self |})
    "wisdom/patterns/all_patterns.json".

(** A Flask response: [jsonify(body), status]. *)
Record response := { body : json; status : nat }.

Definition error_response (message : string) (status : nat) : response :=
  {| body := JObj [("error", JStr message)]; status := status |}.

(** The two [except] clauses of [get_concept_by_id]. *)
Definition handle (e : exn) : response :=
  if is_ValueError e then error_response "Invalid concept ID" 400
  else error_response (exn_str e) 500.

(** The [try] block of [get_concept_by_id]. *)
Definition get_concept_by_id_try (concepts : json) (concept_id : string)
  : result response :=
  concept_id <~ py_int concept_id ;;
  if (0 <=? concept_id)%Z then
    n <~ py_len concepts ;;
    if (concept_id <? n)%Z then
      concept <~ py_getitem concepts concept_id ;;
      Ok {| body := concept; status := 200 |}
    else Ok (error_response "Concept not found" 404)
  else Ok (error_response "Concept not found" 404).

(** The view function of [/concepts/<concept_id>] on the instance [kb]
    of the server. *)
Definition get_concept_by_id (concept_id : string)
    (fs : gmap string Store.node) (kb : UTCPKnowledgeBase)
  : response * UTCPKnowledgeBase :=
  match get_concepts fs kb with
  | (Ok concepts, kb') =>
      match get_concept_by_id_try concepts concept_id with
      | Ok r => (r, kb')
      | Raise e => (handle e, kb')
      end
  | (Raise e, kb') => (handle e, kb')
  end.

(** A method that may raise an exception of any class. *)
Definition raising_method (A : Type) : Type :=
  gmap string Store.node -> UTCPKnowledgeBase
  -> outcome A * UTCPKnowledgeBase.

(** The test of the loop of [search_concepts]. *)
Definition concept_matches (query_lower : string) (concept : json)
  : outcome bool :=
  name <~~ get_lower concept "name" ;;
  description <~~ get_lower concept "description" ;;
  context <~~ get_lower concept "context" ;;
  Return (PyStr.contains query_lower name
          || PyStr.contains query_lower description
          || PyStr.contains query_lower context).

Definition search_concepts (query : string) (limit : Z)
  : raising_method (list json) :=
  fun fs self =>
    let query_lower := PyStr.lower query in
    match get_concepts fs self with
    | (Ok concepts, self') =>
        (items <~~ py_iter concepts ;;
         collect_until (concept_matches query_lower) limit [] items,
         self')
    | (Raise e, self') => (of_result (Raise e), self')
    end.

(** The test of the loop of [search_relationships]. *)
Definition relationship_matches (query_lower : string) (rel : json)
  : outcome bool :=
  source <~~ get_lower rel "source" ;;
  target <~~ get_lower rel "target" ;;
  context <~~ get_lower rel "context" ;;
  Return (PyStr.contains query_lower source
          || PyStr.contains query_lower target
          || PyStr.contains query_lower context).

Definition search_relationships (query : string) (limit : Z)
  : raising_method (list json) :=
  fun fs self =>
    let query_lower := PyStr.lower query in
    match get_relationships fs self with
    | (Ok relationships, self') =>
        (items <~~ py_iter relationships ;;
         collect_until (relationship_matches query_lower) limit [] items,
         self')
    | (Raise e, self') => (of_result (Raise e), self')
    end.


(** [x == s] for a [str] [s]: only an equal [str] is equal to it. *)
Definition py_eq_str (x : json) (s : string) : bool :=
  match x with
  | JStr s' => String.eqb s' s
  | _ => false
  end.

(** [c.get(key) == value] *)
Definition field_is (key value : string) (c : json) : outcome bool :=
  v <~~ py_get c key JNull ;; Return (py_eq_str v value).

(** [c.get(key1) == value1 and c.get(key2) == value2] *)
Definition fields_are (key1 value1 key2 value2 : string) (c : json)
  : outcome bool :=
  first <~~ field_is key1 value1 c ;;
  if first then field_is key2 value2 c else Return false.

(** [[c for c in collection() if test(c)]] *)
Definition filtered (collection : method json) (test : json -> outcome bool)
  : raising_method (list json) :=
  fun fs self =>
    match collection fs self with
    | (Ok docs, self') =>
        (items <~~ py_iter docs ;; comprehension test items, self')
    | (Raise e, self') => (of_result (Raise e), self')
    end.

Definition get_concepts_by_repo (repo_name : string)
  : raising_method (list json) :=
  filtered get_concepts (field_is "source_repo" repo_name).

Definition get_concepts_by_type (concept_type : string)
  : raising_method (list json) :=
  filtered get_concepts (field_is "type" concept_type).

Definition get_relationships_by_type (rel_type : string)
  : raising_method (list json) :=
  filtered get_relationships (field_is "type" rel_type).

Definition get_concepts_by_repo_and_type (repo_name concept_type : string)
  : raising_method (list json) :=
  filtered get_concepts
    (fields_are "source_repo" repo_name "type" concept_type).

End Api.

(** ** tools/basic_utcp_api.py *)

Module BasicApi.

Inductive payload :=
  | JsonBody (data : json)
  | BytesBody (text : string).

(** What the handler sends: the status, the headers it sets itself, and
    the body. *)
Record response := {
  status : nat;
  headers : list (string * string);
  body : payload
}.

Definition kb_base : string := ".utcp-kb".

Definition load_json_file (fs : gmap string Store.node) (file_path : string)
  : outcome json :=
  let path := PurePath.join kb_base file_path in
  if Store.path_exists fs path then of_result (Store.json_load fs path)
  else Return (JArr []).

Definition send_json_response (data : json) : response :=
  {| status := 200;
     headers := [("Content-type", "application/json");
                 ("Access-Control-Allow-Origin", "*")];
     body := JsonBody data |}.

(** [values[0]] *)
Definition first_value (values : list string) : outcome string :=
  match values with
  | v :: _ => Return v
  | [] => Throw "IndexError" "list index out of range"
  end.

(** [query in c['name'].lower() or
     query in c.get('description', '').lower()] *)
Definition named_or_described (query : string) (c : json) : outcome bool :=
  name <~~ item_lower c "name" ;;
  if PyStr.contains query name then Return true
  else
    description <~~ get_lower c "description" ;;
    Return (PyStr.contains query description).

(** The test on a relationship: source, target, then context. *)
Definition relationship_has (query : string) (r : json) : outcome bool :=
  source <~~ item_lower r "source" ;;
  if PyStr.contains query source then Return true
  else
    target <~~ item_lower r "target" ;;
    if PyStr.contains query target then Return true
    else
      context <~~ get_lower r "context" ;;
      Return (PyStr.contains query context).

(** A loop that appends the accepted items of a loaded document. *)
Definition select (test : json -> outcome bool) (doc : json)
  : outcome json :=
  items <~~ py_iter doc ;;
  selected <~~ comprehension test items ;;
  Return (JArr selected).

(** [do_GET] for a request whose URL has the path [url_path] and the
    query parameters [query_params], as [urlparse] and [parse_qs] give
    them. *)
Definition do_GET (url_path : string)
    (query_params : gmap string (list string))
    (fs : gmap string Store.node) : outcome response :=
  let path_parts :=
    PyStr.split_on "/"%char (PyStr.strip_chars "/" url_path) in
  match path_parts with
  | first :: rest =>
      let endpoint :=
        match rest with second :: _ => second | [] => first end in
      if String.eqb endpoint "health" then
        Return (send_json_response
                  (JObj [("status", JStr "healthy");
                         ("service", JStr "Basic UTCP Knowledge API")]))
      else if String.eqb endpoint "concepts" then
        concepts <~~ load_json_file fs "processed-knowledge/all_concepts.json" ;;
        concepts <~~
          match query_params !! "q" with
          | Some values =>
              q <~~ first_value values ;;
              select (named_or_described (PyStr.lower q)) concepts
          | None => Return concepts
          end ;;
        Return (send_json_response concepts)
      else if String.eqb endpoint "relationships" then
        relationships <~~
          load_json_file fs "processed-knowledge/all_relationships.json" ;;
        relationships <~~
          match query_params !! "q" with
          | Some values =>
              q <~~ first_value values ;;
              select (relationship_has (PyStr.lower q)) relationships
          | None => Return relationships
          end ;;
        Return (send_json_response relationships)
      else if String.eqb endpoint "wisdom" then
        principles <~~
          load_json_file fs "wisdom/principles/all_principles.json" ;;
        patterns <~~ load_json_file fs "wisdom/patterns/all_patterns.json" ;;
        Return (send_json_response
                  (JObj [("principles", principles);
                         ("patterns", patterns)]))
      else if String.eqb endpoint "search" then
        q <~~ first_value (default [""] (query_params !! "q")) ;;
        let query := PyStr.lower q in
        concepts <~~ load_json_file fs "processed-knowledge/all_concepts.json" ;;
        found_concepts <~~ select (named_or_described query) concepts ;;
        relationships <~~
          load_json_file fs "processed-knowledge/all_relationships.json" ;;
        found_relationships <~~ select (relationship_has query) relationships ;;
        principles <~~
          load_json_file fs "wisdom/principles/all_principles.json" ;;
        found_principles <~~ select (named_or_described query) principles ;;
        patterns <~~ load_json_file fs "wisdom/patterns/all_patterns.json" ;;
        found_patterns <~~ select (named_or_described query) patterns ;;
        Return (send_json_response
                  (JObj [("concepts", found_concepts);
                         ("relationships", found_relationships);
                         ("wisdom",
                          JObj [("principles", found_principles);
                                ("patterns", found_patterns)])]))
      else if String.eqb endpoint "summary" then
        concepts <~~
          load_json_file fs "processed-knowledge/concepts_summary.json" ;;
        relationships <~~
          load_json_file fs "processed-knowledge/relationships_summary.json" ;;
        principles <~~
          load_json_file fs "wisdom/principles/all_principles.json" ;;
        patterns <~~ load_json_file fs "wisdom/patterns/all_patterns.json" ;;
        Return (send_json_response
                  (JObj [("concepts", concepts);
                         ("relationships", relationships);
                         ("wisdom",
                          JObj [("principles", principles);
                                ("patterns", patterns)])]))
      else
        Return {| status := 404; headers := [];
                  body := BytesBody "Endpoint not found" |}
  | [] =>
      Return {| status := 400; headers := [];
                body := BytesBody "Invalid request" |}
  end.

End BasicApi.

(** * Statements of the design document and fixtures *)

(** The constant the design assigns to each relationship type. *)
Definition strength_of (t : relationship_type) : float :=
  match t with
  | co_occurrence => 0.5%float
  | contains => 0x1.999999999999ap-1%float
  | same_file => 1.0%float
  end.

Definition fixed_strength (r : Relationship.t) : Prop :=
  Relationship.strength r = strength_of (Relationship.type r).

(** A relationship that is not a [contains] link joins two different
    names. *)
Definition guarded_endpoints (r : Relationship.t) : Prop :=
  Relationship.type r = contains \/
  Relationship.source r <> Relationship.target r.

Definition distinct_endpoints (r : Relationship.t) : Prop :=
  Relationship.source r <> Relationship.target r.

(** A clock stopped at one instant, for the examples. *)
Definition stopped_clock : Clock.t :=
  {| Clock.readings := fun _ => "2025-01-01T00:00:00"; Clock.taken := 0 |}.

(** The facts of a code file that declares a class and a function of
    the same name, as [class Foo] next to [def Foo(]. *)
Definition info_class_and_function_Foo : Info.t :=
  {| Info.title := "No Title Found"; Info.summary := "";
     Info.key_terms := [];
     Info.relationships := []; Info.concepts := [];
     Info.functions := Some ["Foo"]; Info.classes := Some ["Foo"];
     Info.imports := Some []; Info.comments := Some [];
     Info.sections := None; Info.examples := None;
     Info.spec_elements := None; Info.requirements := None |}.

Definition is_co_occurrence (r : Relationship.t) : bool :=
  match Relationship.type r with co_occurrence => true | _ => false end.

(** The number of [co_occurrence] relationships in a list. *)
Definition count_co_occurrence (rels : list Relationship.t) : nat :=
  length (List.filter is_co_occurrence rels).

(** The tokens of a concept in the words of the design document: the
    fields between whitespace of the lower-cased concatenation of name
    and description. *)
Definition tokens_of (concept : Concept.t) : list string :=
  PyStr.split_ws
    (PyStr.lower (Concept.name concept ++ " " ++ Concept.description concept)).

(** Position [i] is in the posting list of [token]. *)
Definition posted (index : gmap string (list nat)) (token : string)
    (i : nat) : Prop :=
  exists postings, index !! token = Some postings /\ In i postings.

Definition concept_hello_world : Concept.t :=
  {| Concept.name := "Hello World";
     Concept.type := "term";
     Concept.source_repo := "repo";
     Concept.source_file := "README.md";
     Concept.context := "";
     Concept.description := "A tour of UTCP";
     Concept.tags := ["term"];
     Concept.timestamp := "2025-01-01T00:00:00" |}.

(** A line that starts with the heading mark or with the title key,
    leading whitespace aside. *)
Definition starts_title (line : string) : bool :=
  PyStr.startswith "# " (PyStr.strip line)
  || PyStr.startswith "title:" (PyStr.strip line).

(** The title such a line carries: the prefix removed, then the
    surrounding whitespace and, after the title key, the surrounding
    quotes. *)
Definition line_title (line : string) : string :=
  if PyStr.startswith "# " (PyStr.strip line)
  then PyStr.strip (PyStr.drop 2 (PyStr.strip line))
  else PyStr.strip_chars quote_chars
         (PyStr.strip (PyStr.drop 6 (PyStr.strip line))).

(** Underscores and hyphens to spaces, then title case. *)
Definition title_from_filename (filename : string) : string :=
  PyStr.title
    (PyStr.replace_char "-"%char " "%char
       (PyStr.replace_char "_"%char " "%char filename)).

(** The title of the first title line among the first [n] lines, else
    [fallback]. *)
Definition title_among (n : nat) (fallback content : string) : string :=
  match List.find starts_title (take n (PyStr.split_on newline content)) with
  | Some line => line_title line
  | None => fallback
  end.

(** Title extraction as the design document words it. *)
Definition specified_title (content filename : string) : string :=
  title_among 10 (title_from_filename filename) content.

(** Five empty lines, then a heading on the sixth. *)
Definition heading_on_sixth_line : string :=
  String newline (String newline (String newline (String newline
    (String newline "# Late Title")))).




(** An engine that finds no match at all, and first-seen order for
    sets, for the examples. *)
Definition no_match : Regex := {| findall := fun _ _ _ => [] |}.

Definition canonical_order : SetOrder :=
  {| list_of_set := remove_dups;
     list_of_set_perm := fun l => reflexivity (remove_dups l) |}.

(** A tree with one specification file that states no requirement. *)
Definition tree_with_plain_spec : source_tree :=
  <["docs/specification.md" := Ok "An overview."]> ∅.


Definition concepts_file : string :=
  ".utcp-kb/processed-knowledge/all_concepts.json".

(** A directory whose concepts file holds the document [null], and the
    same directory after the pipeline wrote one concept name to it. *)
Definition store_with_null : gmap string Store.node :=
  <[concepts_file := Store.JsonFile JNull]> ∅.

Definition store_with_concepts : gmap string Store.node :=
  <[concepts_file := Store.JsonFile (JArr [JStr "UTCP"; JStr "API"])]> ∅.

(** The names of the two seed principles. *)
Definition seed_names : list string :=
  ["Universal Tool Calling"; "Direct Tool Access"].

(** Both seed principles are among the given names. *)
Definition seeds_among (names : list string) : Prop :=
  Forall (fun seed => In seed names) seed_names.

(** [r] is the [contains] relationship from [source] to [target]. *)
Definition contains_link (source target : string) (r : Relationship.t)
  : Prop :=
  Relationship.source r = source /\ Relationship.target r = target
  /\ Relationship.type r = contains.

(** An engine that reports the same 25 different terms for every
    pattern and text. *)
Definition twenty_five_terms : Regex :=
  {| findall := fun _ _ _ => map (fun n : nat => ("term-" ++ pretty n)%string) (seq 0 25) |}.

(** A directory whose concepts file is not a JSON document. *)
Definition store_with_broken_concepts : gmap string Store.node :=
  <[concepts_file := Store.TextFile "{ not json"]> ∅.

Definition indexes_dir : string := ".utcp-kb/ai-optimized/indexes".

(** A directory whose concept index is broken and whose relationship
    index is a proper document. *)
Definition store_with_broken_concept_index : gmap string Store.node :=
  <[indexes_dir := Store.Dir]>
    (<[".utcp-kb/ai-optimized/indexes/concept_index.json"
         := Store.TextFile "{ not json"]>
       (<[".utcp-kb/ai-optimized/indexes/relationship_index.json"
            := Store.JsonFile (JObj [("utcp", JArr [JInt 0])])]> ∅)).

(** The searchable text of a relationship, cut at whitespace. *)
Definition relationship_tokens (relationship : Relationship.t)
  : list string :=
  PyStr.split_ws
    (PyStr.lower
       (Relationship.source relationship ++ " "
        ++ Relationship.target relationship ++ " "
        ++ Relationship.context relationship)).

(** Every posting list of the index is in non-decreasing order and
    holds positions below [n] only. *)
Definition postings_ordered_below (n : nat) (index : gmap string (list nat))
  : Prop :=
  forall token postings,
    index !! token = Some postings ->
    postings <> []
    /\ StronglySorted le postings
    /\ Forall (fun i => i < n) postings.

Definition relationship_hello : Relationship.t :=
  {| Relationship.source := "Hello";
     Relationship.target := "World";
     Relationship.type := co_occurrence;
     Relationship.strength := strength_co_occurrence;
     Relationship.source_repo := "repo";
     Relationship.source_file := "README.md";
     Relationship.context := "Terms 'Hello' and 'World' appear together";
     Relationship.timestamp := "2025-01-01T00:00:00" |}.

(** What an insight says besides its timestamp, and what the insight
    made from a relationship says. *)
Definition insight_core (i : Insight.t)
  : string * string * relationship_type * float * string * string :=
  (Insight.name i, Insight.description i, Insight.type i,
   Insight.strength i, Insight.source_repo i, Insight.source_file i).

Definition insight_core_of (r : Relationship.t)
  : string * string * relationship_type * float * string * string :=
  (("Relationship: " ++ Relationship.source r ++ " -> "
    ++ Relationship.target r)%string,
   Relationship.context r, Relationship.type r, Relationship.strength r,
   Relationship.source_repo r, Relationship.source_file r).

Definition is_contains (r : Relationship.t) : bool :=
  match Relationship.type r with contains => true | _ => false end.

Definition is_same_file (r : Relationship.t) : bool :=
  match Relationship.type r with same_file => true | _ => false end.

(** The entities of the language model that become concepts. *)
Definition kept_entities (nlp : option Processor.nlp_model)
    (content : string) : list (string * string) :=
  match nlp with
  | Some model =>
      List.filter (fun ent => (2 <? PyStr.len (PyStr.strip (fst ent)))%nat)
                  (model (PyStr.take 10000 content))
  | None => []
  end.

(** The file paths of the facts records of a batch. *)
Definition facts_paths (xs : list (extraction Facts.t)) : list string :=
  flat_map (fun x => match x with
                     | ExtractedFacts f => [Facts.file_path f]
                     | ExtractionError _ => []
                     end) xs.

Definition basic_facts_paths (xs : list (extraction BasicFacts.t))
  : list string :=
  flat_map (fun x => match x with
                     | ExtractedFacts f => [BasicFacts.file_path f]
                     | ExtractionError _ => []
                     end) xs.

(** A concept, or a relationship, of repository [repo] from one of the
    files [paths]. *)
Definition concept_from (repo : string) (paths : list string)
    (c : Concept.t) : Prop :=
  Concept.source_repo c = repo /\ In (Concept.source_file c) paths.

Definition relationship_from (repo : string) (paths : list string)
    (r : Relationship.t) : Prop :=
  Relationship.source_repo r = repo /\ In (Relationship.source_file r) paths.

(** A string without a line break. *)
Definition single_line (s : string) : Prop :=
  PyStr.mem_char newline s = false.


(** The principles of the basic pipeline name a term of more than 3
    characters once, with at least two different repositories. *)
Definition shared_term (concepts : list Concept.t) (p : BasicPrinciple.t)
  : Prop :=
  3 < PyStr.len (BasicPrinciple.name p)
  /\ 1 < length (BasicPrinciple.source_repositories p)
  /\ NoDup (BasicPrinciple.source_repositories p)
  /\ Forall (fun repo =>
               Exists (fun concept =>
                         Concept.name concept = BasicPrinciple.name p
                         /\ Concept.source_repo concept = repo)
                      concepts)
            (BasicPrinciple.source_repositories p).

(** The test of a loop returns for [item], and what it returns. *)
Definition testable (test : json -> outcome bool) (item : json) : Prop :=
  exists accepted, test item = Return accepted.

Definition accepted_by (test : json -> outcome bool) (item : json) : bool :=
  match test item with
  | Return accepted => accepted
  | Throw _ _ => false
  end.

(** Three concept documents as the processors write them, cut to the
    keys the search reads. *)
Definition concept_doc (name description context : string) : json :=
  JObj [("name", JStr name); ("description", JStr description);
        ("context", JStr context)].

Definition store_with_three_concepts : gmap string Store.node :=
  <[concepts_file :=
      Store.JsonFile
        (JArr [concept_doc "UTCP" "Universal Tool Calling Protocol" "README";
               concept_doc "Manual" "A UTCP manual" "docs";
               concept_doc "Tool" "Something callable" "utcp core"])]> ∅.

(** The count kept for [key], 0 when the counter does not have it. *)
Fixpoint counter_get (key : string) (counts : list (string * nat)) : nat :=
  match counts with
  | [] => 0
  | (k, n) :: counts' =>
      if String.eqb k key then n else counter_get key counts'
  end.

(** The number of occurrences of [key] in [keys]. *)
Definition occurrences (key : string) (keys : list string) : nat :=
  length (List.filter (String.eqb key) keys).

(** The counts of a counter are those of [keys]: they add up to the
    number of keys, no key is listed twice, and each key is listed with
    its number of occurrences, which is not 0. *)
Definition counts_of (keys : list string) (counts : list (string * nat))
  : Prop :=
  list_sum (map snd counts) = length keys
  /\ NoDup (map fst counts)
  /\ Forall (fun '(k, n) => n = occurrences k keys /\ 0 < n) counts.

Definition relationships_of_type (t : relationship_type)
    (relationships : list Relationship.t) : nat :=
  length
    (List.filter
       (fun r => String.eqb (relationship_type_str t)
                   (relationship_type_str (Relationship.type r)))
       relationships).

(** The test of [search_concepts] on a concept record. *)
Definition concept_record_matches (query : string) (c : Concept.t) : bool :=
  let query_lower := PyStr.lower query in
  PyStr.contains query_lower (PyStr.lower (Concept.name c))
  || PyStr.contains query_lower (PyStr.lower (Concept.description c))
  || PyStr.contains query_lower (PyStr.lower (Concept.context c)).

(** The default directories of the scripts. *)
Definition default_kb_path : string := ".utcp-kb".
Definition default_output_dir : string := ".utcp-kb/processed-knowledge".

(** A property of the response, if there is one. *)
Definition answers (Q : BasicApi.response -> Prop)
    (o : outcome BasicApi.response) : Prop :=
  match o with
  | Return r => Q r
  | Throw _ _ => True
  end.

(** The test of the basic API on a concept record. *)
Definition concept_named_or_described (q : string) (c : Concept.t) : bool :=
  PyStr.contains (PyStr.lower q) (PyStr.lower (Concept.name c))
  || PyStr.contains (PyStr.lower q) (PyStr.lower (Concept.description c)).


(** The records a filter of the query service keeps. *)
Definition concept_in_repo (repo_name : string) (c : Concept.t) : bool :=
  String.eqb (Concept.source_repo c) repo_name.

Definition concept_of_type (concept_type : string) (c : Concept.t) : bool :=
  String.eqb (Concept.type c) concept_type.

Definition relationship_of_type (rel_type : string) (r : Relationship.t)
  : bool :=
  String.eqb (relationship_type_str (Relationship.type r)) rel_type.


(** * Properties *)

(** ** Loops in the clock monad *)

Lemma for_each_nil {A B} (body : A -> Clock.M (list B)) c :
  for_each [] body c = ([], c).
Proof. reflexivity. Qed.

Lemma for_each_cons {A B} (x : A) xs (body : A -> Clock.M (list B)) c :
  for_each (x :: xs) body c =
  (fst (body x c) ++ fst (for_each xs body (snd (body x c))),
   snd (for_each xs body (snd (body x c)))).
Proof.
  cbn [for_each]. unfold Clock.bind, Clock.ret.
  destruct (body x c) as [ys c1]. cbn [fst snd].
  destruct (for_each xs body c1) as [zs c2]. reflexivity.
Qed.

(** What every iteration guarantees of its records holds of the records
    of the loop. *)
Lemma for_each_Forall {A B} (P : B -> Prop) (xs : list A)
    (body : A -> Clock.M (list B)) :
  (forall x c, In x xs -> Forall P (fst (body x c))) ->
  forall c, Forall P (fst (for_each xs body c)).
Proof.
  induction xs as [|x xs IH]; intros Hbody c.
  - rewrite for_each_nil. constructor.
  - rewrite for_each_cons. cbn [fst]. apply Forall_app. split.
    + apply Hbody. now left.
    + apply IH. intros y c' Hy. apply Hbody. now right.
Qed.

(** A loop emits at most the sum of what its iterations may emit. *)
Lemma for_each_length {A B} (bound : A -> nat) (xs : list A)
    (body : A -> Clock.M (list B)) :
  (forall x c, In x xs -> length (fst (body x c)) <= bound x) ->
  forall c, length (fst (for_each xs body c)) <= list_sum (map bound xs).
Proof.
  induction xs as [|x xs IH]; intros Hbody c.
  - rewrite for_each_nil. cbn. lia.
  - rewrite for_each_cons. cbn [fst map list_sum fold_right].
    fold (list_sum (map bound xs)). rewrite length_app.
    pose proof (Hbody x c (or_introl eq_refl)).
    assert (length (fst (for_each xs body (snd (body x c))))
            <= list_sum (map bound xs)).
    { apply IH. intros y c' Hy. apply Hbody. now right. }
    lia.
Qed.

Lemma bind_fst {A B} (m : Clock.M A) (k : A -> Clock.M B) c :
  fst ((x <- m ;; k x) c) = fst (k (fst (m c)) (snd (m c))).
Proof. unfold Clock.bind. now destruct (m c). Qed.

(** ** Strength and endpoints of the generated relationships *)

(** The loop over the pairs [(xs[i], xs[j])], [i < j], whose body is
    guarded by [x != y]. *)
Lemma pair_loop_Forall (P : Relationship.t -> Prop) (xs : list string)
    (mk : string -> string -> string -> Relationship.t) :
  (forall x y now, x <> y -> P (mk x y now)) ->
  forall c,
    Forall P
      (fst (for_each (enumerate xs) (fun '(i, x) =>
              for_each (drop (i + 1) xs) (fun y =>
                if negb (String.eqb x y) then
                  now <- Clock.now ;; Clock.ret [mk x y now]
                else Clock.ret [])) c)).
Proof.
  intros Hmk. apply for_each_Forall. intros [i x] c _.
  apply for_each_Forall. intros y c' _.
  destruct (String.eqb_spec x y) as [->|Hne]; cbn.
  - constructor.
  - constructor; [now apply Hmk | constructor].
Qed.

Lemma cross_loop_Forall {A} (P : Relationship.t -> Prop) (xs : list A)
    (ys : list string) (mk : A -> string -> string -> Relationship.t) :
  (forall x y now, P (mk x y now)) ->
  forall c,
    Forall P
      (fst (for_each xs (fun x =>
              for_each ys (fun y =>
                now <- Clock.now ;; Clock.ret [mk x y now])) c)).
Proof.
  intros Hmk. apply for_each_Forall. intros x c _.
  apply for_each_Forall. intros y c' _. cbn.
  constructor; [apply Hmk | constructor].
Qed.

Lemma single_loop_Forall (P : Relationship.t -> Prop) (ys : list string)
    (mk : string -> string -> Relationship.t) :
  (forall y now, P (mk y now)) ->
  forall c,
    Forall P
      (fst (for_each ys (fun y =>
              now <- Clock.now ;; Clock.ret [mk y now]) c)).
Proof.
  intros Hmk. apply for_each_Forall. intros y c' _. cbn.
  constructor; [apply Hmk | constructor].
Qed.

(** Any property that holds of the three record shapes holds of every
    relationship the full processor emits for a file. *)
Lemma full_relationships_Forall (P : Relationship.t -> Prop)
    repo_name file_path content_type content extracted_info :
  (forall x y now, x <> y ->
     P {| Relationship.source := x; Relationship.target := y;
          Relationship.type := same_file;
          Relationship.strength := strength_same_file;
          Relationship.source_repo := repo_name;
          Relationship.source_file := file_path;
          Relationship.context := "Both functions appear in " ++ file_path;
          Relationship.timestamp := now |}) ->
  (forall x y now,
     P {| Relationship.source := x; Relationship.target := y;
          Relationship.type := contains;
          Relationship.strength := strength_contains;
          Relationship.source_repo := repo_name;
          Relationship.source_file := file_path;
          Relationship.context :=
            "Class " ++ x ++ " may contain or use function " ++ y;
          Relationship.timestamp := now |}) ->
  (forall x y now, x <> y ->
     P {| Relationship.source := x; Relationship.target := y;
          Relationship.type := co_occurrence;
          Relationship.strength := strength_co_occurrence;
          Relationship.source_repo := repo_name;
          Relationship.source_file := file_path;
          Relationship.context :=
            "Terms '" ++ x ++ "' and '" ++ y ++
            "' appear in the same document";
          Relationship.timestamp := now |}) ->
  forall c,
    Forall P
      (Clock.run
         (Processor.extract_relationships_from_extraction
            repo_name file_path content_type content extracted_info) c).
Proof.
  intros Hsame Hcross Hterm c.
  unfold Clock.run, Processor.extract_relationships_from_extraction.
  rewrite bind_fst, bind_fst. cbn [Clock.ret fst].
  apply Forall_app. split.
  - destruct content_type; try (cbn; constructor).
    rewrite bind_fst, bind_fst. cbn [Clock.ret fst].
    apply Forall_app. split.
    + apply (pair_loop_Forall P _ (fun x y now => _) Hsame).
    + apply (cross_loop_Forall P _ _ (fun x y now => _) Hcross).
  - apply (pair_loop_Forall P _ (fun x y now => _) Hterm).
Qed.

Lemma basic_relationships_Forall (P : Relationship.t -> Prop)
    repo_name file_path key_terms :
  (forall x y now, x <> y ->
     P {| Relationship.source := x; Relationship.target := y;
          Relationship.type := co_occurrence;
          Relationship.strength := strength_co_occurrence;
          Relationship.source_repo := repo_name;
          Relationship.source_file := file_path;
          Relationship.context :=
            "Terms '" ++ x ++ "' and '" ++ y ++
            "' appear in the same file: " ++ file_path;
          Relationship.timestamp := now |}) ->
  (forall y now,
     P {| Relationship.source := repo_name; Relationship.target := y;
          Relationship.type := contains;
          Relationship.strength := strength_contains;
          Relationship.source_repo := repo_name;
          Relationship.source_file := file_path;
          Relationship.context :=
            "Repository " ++ repo_name ++ " contains term '" ++ y ++ "'";
          Relationship.timestamp := now |}) ->
  forall c,
    Forall P
      (Clock.run
         (BasicProcessor.extract_relationships_basic
            repo_name file_path key_terms) c).
Proof.
  intros Hterm Hrepo c.
  unfold Clock.run, BasicProcessor.extract_relationships_basic.
  rewrite bind_fst, bind_fst. cbn [Clock.ret fst].
  apply Forall_app. split.
  - apply (pair_loop_Forall P _ (fun x y now => _) Hterm).
  - apply (single_loop_Forall P _ (fun y now => _) Hrepo).
Qed.

(** C2. Every relationship emitted by relationship generation, in the
    full and in the basic processor, carries the strength fixed for its
    type: 0.5 for [co_occurrence], 0.8 for [contains], 1.0 for
    [same_file]. *)
Theorem strength_is_fixed_by_type :
  (forall repo_name file_path content_type content extracted_info c,
     Forall fixed_strength
       (Clock.run
          (Processor.extract_relationships_from_extraction
             repo_name file_path content_type content extracted_info) c))
  /\
  (forall repo_name file_path key_terms c,
     Forall fixed_strength
       (Clock.run
          (BasicProcessor.extract_relationships_basic
             repo_name file_path key_terms) c)).
Proof.
  split; intros.
  - apply full_relationships_Forall; intros; reflexivity.
  - apply basic_relationships_Forall; intros; reflexivity.
Qed.

(** C1, as stated, fails: a class and a function of one name give a
    [contains] relationship from the name to itself in the full
    processor, and so does a key term equal to the repository name in
    the basic processor. *)
Lemma contains_links_a_name_to_itself :
  ~ Forall distinct_endpoints
      (Clock.run
         (Processor.extract_relationships_from_extraction
            "repo" "a.py" code "" info_class_and_function_Foo)
         stopped_clock)
  /\
  ~ Forall distinct_endpoints
      (Clock.run
         (BasicProcessor.extract_relationships_basic "API" "a.md" ["API"])
         stopped_clock).
Proof.
  split; intros HF; vm_compute in HF;
    inversion HF as [|r l Hr _]; subst; now apply Hr.
Qed.

Lemma for_each_Exists {A B} (P : B -> Prop) (xs : list A)
    (body : A -> Clock.M (list B)) (x : A) :
  In x xs ->
  (forall c, Exists P (fst (body x c))) ->
  forall c, Exists P (fst (for_each xs body c)).
Proof.
  induction xs as [|y xs IH]; intros Hin Hbody c; [contradiction|].
  rewrite for_each_cons. cbn [fst]. apply Exists_app.
  destruct Hin as [->|Hin]; [left; apply Hbody | right; now apply IH].
Qed.

(** The class-by-function loop emits a record for every pair, whether
    or not the two names differ. *)
Lemma cross_product_is_complete repo_name file_path content extracted_info c :
  Forall (fun cls =>
    Forall (fun func =>
      Exists (contains_link cls func)
        (Clock.run
           (Processor.extract_relationships_from_extraction
              repo_name file_path code content extracted_info) c))
      (get_list (Info.functions extracted_info)))
    (get_list (Info.classes extracted_info)).
Proof.
  apply Forall_forall. intros cls Hcls.
  apply Forall_forall. intros func Hfunc.
  apply list_elem_of_In in Hcls, Hfunc.
  unfold Clock.run, Processor.extract_relationships_from_extraction.
  rewrite bind_fst, bind_fst. cbn [Clock.ret fst].
  apply Exists_app. left.
  rewrite bind_fst, bind_fst. cbn [Clock.ret fst].
  apply Exists_app. right.
  apply (for_each_Exists _ _ _ cls Hcls). intros c1.
  apply (for_each_Exists _ _ _ func Hfunc). intros c2.
  cbn. left. repeat split.
Qed.

Lemma repository_links_are_complete repo_name file_path key_terms c :
  Forall (fun term =>
    Exists (contains_link repo_name term)
      (Clock.run
         (BasicProcessor.extract_relationships_basic
            repo_name file_path key_terms) c))
    key_terms.
Proof.
  apply Forall_forall. intros term Hterm. apply list_elem_of_In in Hterm.
  unfold Clock.run, BasicProcessor.extract_relationships_basic.
  rewrite bind_fst, bind_fst. cbn [Clock.ret fst].
  apply Exists_app. right.
  apply (for_each_Exists _ _ _ term Hterm). intros c1.
  cbn. left. repeat split.
Qed.

(** C1, amended. Every [same_file] and every [co_occurrence]
    relationship emitted for a file joins two different names. The
    [contains] relationships are emitted without that test: one for
    every class and function of a code file in the full processor, one
    for every key term from the repository name in the basic
    processor, equal names included. *)
Theorem paired_relationships_have_distinct_endpoints :
  (forall repo_name file_path content_type content extracted_info c,
     Forall guarded_endpoints
       (Clock.run
          (Processor.extract_relationships_from_extraction
             repo_name file_path content_type content extracted_info) c))
  /\
  (forall repo_name file_path key_terms c,
     Forall guarded_endpoints
       (Clock.run
          (BasicProcessor.extract_relationships_basic
             repo_name file_path key_terms) c))
  /\
  (forall repo_name file_path content extracted_info c,
     Forall (fun cls =>
       Forall (fun func =>
         Exists (contains_link cls func)
           (Clock.run
              (Processor.extract_relationships_from_extraction
                 repo_name file_path code content extracted_info) c))
         (get_list (Info.functions extracted_info)))
       (get_list (Info.classes extracted_info)))
  /\
  (forall repo_name file_path key_terms c,
     Forall (fun term =>
       Exists (contains_link repo_name term)
         (Clock.run
            (BasicProcessor.extract_relationships_basic
               repo_name file_path key_terms) c))
       key_terms).
Proof.
  repeat split; intros.
  - apply full_relationships_Forall; intros; unfold guarded_endpoints;
      cbn; auto.
  - apply basic_relationships_Forall; intros; unfold guarded_endpoints;
      cbn; auto.
  - apply cross_product_is_complete.
  - apply repository_links_are_complete.
Qed.

(** ** The cap on key terms and the number of pairs *)

Lemma capped_set_length `{SetOrder} (matches : list string) :
  length (take 20 (list_of_set matches)) <= 20.
Proof. rewrite length_take. lia. Qed.

Lemma capped_set_NoDup `{SetOrder} (matches : list string) :
  NoDup (take 20 (list_of_set matches)).
Proof.
  apply (sublist_NoDup _ (list_of_set matches)); [|apply sublist_take].
  rewrite list_of_set_perm. apply NoDup_remove_dups.
Qed.

(** The sum of [n - (i + 1)] over the positions [i] of a list of length
    [n] is [n (n - 1) / 2]. *)
Lemma pairs_after_each_position {A} (k : nat) (xs : list A) :
  2 * list_sum (map (fun p : nat * A => k + length xs - (fst p + 1))
                    (enumerate_from k xs))
  = length xs * (length xs - 1).
Proof.
  revert k. induction xs as [|x xs IH]; intros k; [reflexivity|].
  cbn [enumerate_from map list_sum fold_right length fst].
  fold (list_sum (map (fun p : nat * A => k + S (length xs) - (fst p + 1))
                      (enumerate_from (S k) xs))).
  replace (map (fun p : nat * A => k + S (length xs) - (fst p + 1))
               (enumerate_from (S k) xs))
    with (map (fun p : nat * A => S k + length xs - (fst p + 1))
              (enumerate_from (S k) xs)).
  - specialize (IH (S k)). nia.
  - apply map_ext. intros [i y]. cbn. lia.
Qed.

(** The guarded loop over pairs emits at most one record per pair
    [i < j]. *)
Lemma pair_loop_length (xs : list string)
    (mk : string -> string -> string -> Relationship.t) c :
  2 * length
        (fst (for_each (enumerate xs) (fun '(i, x) =>
                for_each (drop (i + 1) xs) (fun y =>
                  if negb (String.eqb x y) then
                    now <- Clock.now ;; Clock.ret [mk x y now]
                  else Clock.ret [])) c))
  <= length xs * (length xs - 1).
Proof.
  rewrite <- (pairs_after_each_position 0 xs).
  apply Nat.mul_le_mono_l. cbn [Nat.add].
  apply for_each_length. intros [i x] c' _. cbn [fst].
  etransitivity.
  - apply (for_each_length (fun _ => 1)). intros y c'' _.
    destruct (negb (String.eqb x y)); cbn; lia.
  - assert (Hsum : forall l : list string, list_sum (map (fun _ => 1) l) = length l).
    { induction l as [|? l IHl]; [reflexivity|].
      cbn [map list_sum fold_right length].
      fold (list_sum (map (fun _ : string => 1) l)). now rewrite IHl. }
    rewrite Hsum, length_drop. lia.
Qed.

Lemma count_co_occurrence_app l1 l2 :
  count_co_occurrence (l1 ++ l2)
  = count_co_occurrence l1 + count_co_occurrence l2.
Proof.
  unfold count_co_occurrence. now rewrite List.filter_app, length_app.
Qed.

Lemma count_co_occurrence_le l :
  count_co_occurrence l <= length l.
Proof. apply List.filter_length_le. Qed.

Lemma count_co_occurrence_none l :
  Forall (fun r => is_co_occurrence r = false) l ->
  count_co_occurrence l = 0.
Proof.
  unfold count_co_occurrence.
  induction 1 as [|r l Hr _ IH]; [reflexivity|].
  cbn [List.filter]. now rewrite Hr.
Qed.

(** Twice the number of [co_occurrence] relationships of a file is at
    most [n (n - 1)] for [n] key terms, in both processors. *)
Lemma co_occurrence_pairs_full repo_name file_path content_type content
    extracted_info c :
  2 * count_co_occurrence
        (Clock.run
           (Processor.extract_relationships_from_extraction
              repo_name file_path content_type content extracted_info) c)
  <= length (Info.key_terms extracted_info)
     * (length (Info.key_terms extracted_info) - 1).
Proof.
  unfold Clock.run, Processor.extract_relationships_from_extraction.
  rewrite bind_fst, bind_fst. cbn [Clock.ret fst].
  rewrite count_co_occurrence_app.
  rewrite (count_co_occurrence_none (fst _)).
  - cbn [Nat.add]. etransitivity; [|apply pair_loop_length].
    apply Nat.mul_le_mono_l. apply count_co_occurrence_le.
  - destruct content_type; try (cbn; constructor).
    rewrite bind_fst, bind_fst. cbn [Clock.ret fst].
    apply Forall_app. split.
    + apply (pair_loop_Forall _ _ (fun x y now => _)). reflexivity.
    + apply (cross_loop_Forall _ _ _ (fun x y now => _)). reflexivity.
Qed.

Lemma co_occurrence_pairs_basic repo_name file_path key_terms c :
  2 * count_co_occurrence
        (Clock.run
           (BasicProcessor.extract_relationships_basic
              repo_name file_path key_terms) c)
  <= length key_terms * (length key_terms - 1).
Proof.
  unfold Clock.run, BasicProcessor.extract_relationships_basic.
  rewrite bind_fst, bind_fst. cbn [Clock.ret fst].
  rewrite count_co_occurrence_app.
  rewrite (count_co_occurrence_none (fst (for_each key_terms _ _))).
  - rewrite Nat.add_0_r. etransitivity; [|apply pair_loop_length].
    apply Nat.mul_le_mono_l. apply count_co_occurrence_le.
  - apply (single_loop_Forall _ _ (fun y now => _)). reflexivity.
Qed.

(** The facts of the full extractor carry the key terms of
    [extract_key_terms]. *)
Lemma extracted_key_terms `{SetOrder} `{Regex} file_path content
    content_type info :
  Extractor.extract_by_content_type file_path content content_type = Ok info ->
  Info.key_terms info = Extractor.extract_key_terms content.
Proof.
  unfold Extractor.extract_by_content_type.
  destruct content_type; try (intros [= <-]; reflexivity).
  destruct (Extractor.extract_spec_elements content); cbn;
    [intros [= <-]; reflexivity | discriminate].
Qed.

(** C8. Key-term extraction returns at most 20 terms without
    duplicates, in the full and in the basic extractor, and relationship
    generation over the key terms of one file emits at most 190
    [co_occurrence] relationships, in the full and in the basic
    processor. *)
Theorem key_terms_capped_pairs_bounded `{SetOrder} `{Regex}
    (content : string) :
  (length (Extractor.extract_key_terms content) <= 20
   /\ NoDup (Extractor.extract_key_terms content))
  /\
  (length (BasicExtractor.extract_key_terms_basic content) <= 20
   /\ NoDup (BasicExtractor.extract_key_terms_basic content))
  /\
  (forall repo_name file_path content_type c,
     match Extractor.extract_by_content_type file_path content content_type
     with
     | Ok extracted_info =>
         count_co_occurrence
           (Clock.run
              (Processor.extract_relationships_from_extraction
                 repo_name file_path content_type content extracted_info) c)
         <= 190
     | Raise _ => True
     end)
  /\
  (forall repo_name file_path c,
     count_co_occurrence
       (Clock.run
          (BasicProcessor.extract_relationships_basic repo_name file_path
             (BasicExtractor.extract_key_terms_basic content)) c)
     <= 190).
Proof.
  repeat split.
  - apply capped_set_length.
  - apply capped_set_NoDup.
  - apply capped_set_length.
  - apply capped_set_NoDup.
  - intros repo_name file_path content_type c.
    destruct (Extractor.extract_by_content_type _ _ _) as [info|e] eqn:E;
      [|exact I].
    pose proof (co_occurrence_pairs_full
                  repo_name file_path content_type content info c) as Hp.
    rewrite (extracted_key_terms _ _ _ _ E) in Hp.
    pose proof (capped_set_length
      (findall
         "\b[A-Z][a-z]{2,}\b|\b\w+-(?:protocol|api|interface|function|class|method)\b"
         [IGNORECASE] content)) as Hn.
    unfold Extractor.extract_key_terms in Hp. nia.
  - intros repo_name file_path c.
    pose proof (co_occurrence_pairs_basic repo_name file_path
                  (BasicExtractor.extract_key_terms_basic content) c) as Hp.
    assert (Hn : length (BasicExtractor.extract_key_terms_basic content) <= 20)
      by apply capped_set_length.
    nia.
Qed.

(** With 25 different matches the cap keeps 20 terms, and the 20 terms
    give exactly 190 pairs. *)
Example cap_and_bound_are_reached :
  length (@BasicExtractor.extract_key_terms_basic
            canonical_order twenty_five_terms "text") = 20
  /\ count_co_occurrence
       (Clock.run
          (BasicProcessor.extract_relationships_basic "repo" "a.md"
             (@Extractor.extract_key_terms
                canonical_order twenty_five_terms "text"))
          stopped_clock)
     = 190.
Proof. split; vm_compute; reflexivity. Qed.

(** ** The inverted index *)

Lemma lower_app (a b : string) :
  PyStr.lower (a ++ b) = (PyStr.lower a ++ PyStr.lower b)%string.
Proof.
  induction a as [|ch a IH]; simpl; [reflexivity | now rewrite IH].
Qed.

Lemma tokens_of_concept_words concept :
  tokens_of concept = Optimizer.concept_words concept.
Proof.
  unfold tokens_of, Optimizer.concept_words.
  now rewrite !lower_app.
Qed.

Lemma append_posting_here index word i :
  posted (Optimizer.append_posting index word i) word i.
Proof.
  unfold posted, Optimizer.append_posting. eexists. split.
  - apply lookup_insert_eq.
  - apply in_or_app. right. now left.
Qed.

Lemma append_posting_keeps index word j token i :
  posted index token i ->
  posted (Optimizer.append_posting index word j) token i.
Proof.
  intros (postings & Hlook & Hin). unfold posted, Optimizer.append_posting.
  destruct (decide (word = token)) as [->|Hne].
  - eexists. split; [apply lookup_insert_eq|].
    rewrite Hlook. cbn. apply in_or_app. now left.
  - exists postings. split; [|assumption].
    now rewrite lookup_insert_ne.
Qed.

Lemma index_words_keeps words index j token i :
  posted index token i ->
  posted (Optimizer.index_words index words j) token i.
Proof.
  unfold Optimizer.index_words. revert index.
  induction words as [|w words IH]; intros index Hp; [exact Hp|].
  cbn [fold_left]. apply IH.
  destruct (2 <? PyStr.len w)%nat; [now apply append_posting_keeps | exact Hp].
Qed.

Lemma index_words_posts words index i token :
  In token words -> 2 < PyStr.len token ->
  posted (Optimizer.index_words index words i) token i.
Proof.
  intros Hin Hlen. revert index.
  induction words as [|w words IH]; intros index; [contradiction|].
  destruct Hin as [->|Hin].
  - unfold Optimizer.index_words. cbn [fold_left].
    apply (index_words_keeps words).
    apply Nat.ltb_lt in Hlen. rewrite Hlen. apply append_posting_here.
  - unfold Optimizer.index_words. cbn [fold_left]. now apply IH.
Qed.

Lemma index_fold_keeps {A} (words_of : A -> list string)
    (entities : list (nat * A)) index token i :
  posted index token i ->
  posted
    (fold_left (fun index '(j, entity) =>
                  Optimizer.index_words index (words_of entity) j)
               entities index)
    token i.
Proof.
  revert index. induction entities as [|[j e] entities IH]; intros index Hp;
    [exact Hp|].
  cbn [fold_left]. apply IH. now apply index_words_keeps.
Qed.

Lemma index_fold_posts {A} (words_of : A -> list string)
    (entities : list (nat * A)) index token i entity :
  In (i, entity) entities ->
  In token (words_of entity) -> 2 < PyStr.len token ->
  posted
    (fold_left (fun index '(j, entity) =>
                  Optimizer.index_words index (words_of entity) j)
               entities index)
    token i.
Proof.
  intros Hin Htok Hlen. revert index.
  induction entities as [|[j e] entities IH]; intros index; [contradiction|].
  cbn [fold_left]. destruct Hin as [[= -> ->]|Hin].
  - apply index_fold_keeps. now apply index_words_posts.
  - now apply IH.
Qed.

Lemma enumerate_from_lookup {A} (xs : list A) k i x :
  xs !! i = Some x -> In (k + i, x) (enumerate_from k xs).
Proof.
  revert k i. induction xs as [|y xs IH]; intros k i Hl; [discriminate|].
  destruct i as [|i]; cbn in Hl.
  - injection Hl as ->. left. f_equal. lia.
  - right. replace (k + S i) with (S k + i) by lia. now apply IH.
Qed.

(** C7. For every concept at position [i] of the collection, every
    whitespace-delimited token longer than 2 of the lower-cased
    concatenation of its name and description is a key of the concept
    index built by [create_search_index], with [i] in its posting
    list. *)
Theorem concept_tokens_are_indexed
    (concepts : list Concept.t) (relationships : list Relationship.t)
    (i : nat) (concept : Concept.t) (token : string) :
  concepts !! i = Some concept ->
  In token (tokens_of concept) ->
  2 < PyStr.len token ->
  exists postings,
    fst (Optimizer.create_search_index concepts relationships) !! token
    = Some postings
    /\ In i postings.
Proof.
  intros Hl Htok Hlen. rewrite tokens_of_concept_words in Htok.
  cbn [Optimizer.create_search_index fst]. unfold Optimizer.build_index.
  apply (index_fold_posts Optimizer.concept_words _ _ _ _ concept);
    [|assumption..].
  apply (enumerate_from_lookup concepts 0 i concept Hl).
Qed.

Lemma concept_tokens_are_indexed_witness :
  [concept_hello_world; concept_hello_world] !! 1 = Some concept_hello_world
  /\ In "utcp" (tokens_of concept_hello_world)
  /\ 2 < PyStr.len "utcp"
  /\ exists postings,
       fst (Optimizer.create_search_index
              [concept_hello_world; concept_hello_world] [])
         !! "utcp" = Some postings
       /\ In 1 postings.
Proof.
  assert (H1 : [concept_hello_world; concept_hello_world] !! 1
               = Some concept_hello_world) by reflexivity.
  assert (H2 : In "utcp" (tokens_of concept_hello_world))
    by (vm_compute; tauto).
  assert (H3 : 2 < PyStr.len "utcp") by (vm_compute; lia).
  repeat split; try assumption.
  exact (concept_tokens_are_indexed _ [] 1 _ "utcp" H1 H2 H3).
Defined.

(** ** Title extraction *)

Lemma title_of_line_spec line :
  title_of_line line
  = if starts_title line then Some (line_title line) else None.
Proof.
  unfold title_of_line, starts_title, line_title.
  destruct (PyStr.startswith "# " (PyStr.strip line)); [reflexivity|].
  now destruct (PyStr.startswith "title:" (PyStr.strip line)).
Qed.

Lemma first_title_find lines :
  first_title lines = option_map line_title (List.find starts_title lines).
Proof.
  induction lines as [|line lines IH]; [reflexivity|].
  cbn [first_title List.find]. rewrite title_of_line_spec.
  now destruct (starts_title line).
Qed.

(** C3, as stated, fails: without a title line the full extractor
    returns its sentinel, not a title made from the file name, and the
    basic extractor does not see a heading on the sixth line. *)
Lemma title_extraction_differs_from_document :
  Extractor.extract_title "plain text"
    <> specified_title "plain text" "release_notes.md"
  /\
  BasicExtractor.extract_title_basic heading_on_sixth_line "release_notes.md"
    <> specified_title heading_on_sixth_line "release_notes.md".
Proof. split; vm_compute; discriminate. Qed.

(** C3, amended. [extract_title] returns the title of the first title
    line among the first 10 lines and the sentinel [No Title Found]
    when there is none; [extract_title_basic] returns the title of the
    first title line among the first 5 lines and, when there is none,
    the file name with underscores and hyphens turned into spaces, in
    title case. *)
Theorem title_is_first_title_line :
  (forall content,
     Extractor.extract_title content
     = title_among 10 "No Title Found" content)
  /\
  (forall content filename,
     BasicExtractor.extract_title_basic content filename
     = title_among 5 (title_from_filename filename) content).
Proof.
  split; intros;
    unfold Extractor.extract_title, BasicExtractor.extract_title_basic,
           title_among;
    rewrite first_title_find;
    now destruct (List.find starts_title _).
Qed.

Example title_of_markdown_heading :
  Extractor.extract_title ("# My Title" ++ String newline "body") = "My Title"
  /\ BasicExtractor.extract_title_basic "body" "release_notes.md"
     = "Release Notes.Md".
Proof. split; reflexivity. Qed.

(** ** Failures of extraction *)






(** A missing file and a specification without requirement both end in
    an error marker; the batch made of the two yields nothing. *)
Example failing_files_are_marked :
  let extract :=
    @Extractor.extract_content canonical_order no_match tree_with_plain_spec in
  fst (extract "docs/specification.md" stopped_clock)
  = ExtractionError
      {| ErrorMarker.file_path := "docs/specification.md";
         ErrorMarker.error := "list index out of range";
         ErrorMarker.timestamp := "2025-01-01T00:00:00" |}
  /\
  fst (extract "gone.py" stopped_clock)
  = ExtractionError
      {| ErrorMarker.file_path := "gone.py";
         ErrorMarker.error :=
           "[Errno 2] No such file or directory: 'gone.py'";
         ErrorMarker.timestamp := "2025-01-01T00:00:00" |}
  /\
  fst (Processor.process_extraction None
         {| repository := "repo";
            extractions :=
              [fst (extract "docs/specification.md" stopped_clock);
               fst (extract "gone.py" stopped_clock)] |}
         stopped_clock)
  = ([], []).
Proof. repeat split; vm_compute; reflexivity. Qed.

(** ** The query service *)

Lemma load_json_missing kb_path fs subpath :
  fs !! PurePath.join kb_path subpath = None ->
  Api._load_json kb_path fs subpath = Ok (JArr []).
Proof.
  intros Hmiss. unfold Api._load_json, Store.path_exists. now rewrite Hmiss.
Qed.

(** C6. When the relationships file of the knowledge-base directory
    does not exist, the load of the collection gives the empty list,
    and [get_relationships] on a new instance, or on any instance that
    has not loaded the collection yet, returns the empty collection and
    does not raise. *)
Theorem missing_relationships_file_gives_empty
    (kb_path : string) (fs : gmap string Store.node) :
  fs !! PurePath.join kb_path "processed-knowledge/all_relationships.json"
    = None ->
  Api._load_json kb_path fs "processed-knowledge/all_relationships.json"
    = Ok (JArr [])
  /\ fst (Api.get_relationships fs (Api.__init__ kb_path fs)) = Ok (JArr [])
  /\ (forall kb,
        Api.kb_path kb = kb_path -> Api._relationships kb = JNull ->
        fst (Api.get_relationships fs kb) = Ok (JArr [])).
Proof.
  intros Hmiss. pose proof (load_json_missing _ _ _ Hmiss) as Hload.
  split; [exact Hload|].
  assert (Hany : forall kb,
            Api.kb_path kb = kb_path -> Api._relationships kb = JNull ->
            fst (Api.get_relationships fs kb) = Ok (JArr [])).
  { intros kb Hpath Hnone. unfold Api.get_relationships, Api.cached.
    rewrite Hnone, Hpath, Hload. reflexivity. }
  split; [|exact Hany].
  now apply Hany.
Qed.

Lemma missing_relationships_file_gives_empty_witness :
  (∅ : gmap string Store.node)
    !! PurePath.join ".utcp-kb" "processed-knowledge/all_relationships.json"
    = None
  /\ fst (Api.get_relationships ∅ (Api.__init__ ".utcp-kb" ∅)) = Ok (JArr []).
Proof.
  assert (Hmiss : (∅ : gmap string Store.node)
            !! PurePath.join ".utcp-kb"
                 "processed-knowledge/all_relationships.json" = None)
    by reflexivity.
  split; [exact Hmiss|].
  exact (proj1 (proj2
           (missing_relationships_file_gives_empty ".utcp-kb" ∅ Hmiss))).
Defined.






(** The concepts file is broken at the first call and repaired before
    the second: the first call raises and leaves the instance without a
    collection, the second returns the repaired one. *)
Example failed_load_is_read_again :
  let kb := Api.__init__ ".utcp-kb" store_with_broken_concepts in
  Api.get_concepts store_with_broken_concepts kb
  = (Raise (Exn JSONDecodeError "Expecting value: line 1 column 1 (char 0)"),
     kb)
  /\ fst (Api.get_concepts store_with_concepts
            (snd (Api.get_concepts store_with_broken_concepts kb)))
     = Ok (JArr [JStr "UTCP"; JStr "API"]).
Proof. split; reflexivity. Qed.

Lemma py_int_raises_ValueError s e :
  py_int s = Raise e -> is_ValueError e = true.
Proof.
  unfold py_int.
  destruct (match PyStr.strip_by int_space s with
            | String "-"%char rest => (true, rest)
            | String "+"%char rest => (false, rest)
            | _ => (false, PyStr.strip_by int_space s)
            end) as [negative digits].
  destruct (int_digits true 0 0 digits) as [[value count]|].
  - destruct (int_max_str_digits <? count)%nat; [|discriminate].
    now intros [= <-].
  - now intros [= <-].
Qed.

(** C10. With the concept collection loaded as a list: an id that
    [int] accepts as [i] with [0 <= i < len(concepts)] is answered with
    the concept at position [i] and status 200, any other integer with
    the 404 error [Concept not found], and an id that [int] rejects
    with the 400 error [Invalid concept ID]; the instance is left as
    the load of the collection left it, with the same collection. *)
Theorem concept_lookup_by_id
    (concept_id : string) (fs : gmap string Store.node)
    (kb kb' : Api.UTCPKnowledgeBase) (concepts : list json) :
  Api.get_concepts fs kb = (Ok (JArr concepts), kb') ->
  snd (Api.get_concept_by_id concept_id fs kb) = kb'
  /\ Api._concepts kb' = JArr concepts
  /\ match py_int concept_id with
     | Ok i =>
         if ((0 <=? i) && (i <? Z.of_nat (length concepts)))%Z then
           exists concept,
             concepts !! Z.to_nat i = Some concept
             /\ fst (Api.get_concept_by_id concept_id fs kb)
                = {| Api.body := concept; Api.status := 200 |}
         else
           fst (Api.get_concept_by_id concept_id fs kb)
           = Api.error_response "Concept not found" 404
     | Raise _ =>
         fst (Api.get_concept_by_id concept_id fs kb)
         = Api.error_response "Invalid concept ID" 400
     end.
Proof.
  intros Hload. unfold Api.get_concept_by_id. rewrite Hload.
  split; [|split].
  - now destruct (Api.get_concept_by_id_try _ _).
  - revert Hload. unfold Api.get_concepts, Api.cached.
    destruct (is_None (Api._concepts kb)).
    + destruct (Api._load_json _ _ _); [|discriminate].
      now intros [= <- <-].
    + now intros [= <- <-].
  - unfold Api.get_concept_by_id_try.
    destruct (py_int concept_id) as [i|e] eqn:Hint; cbn [rbind].
    + destruct (0 <=? i)%Z eqn:Hlo; cbn [andb]; [|reflexivity].
      cbn [py_len rbind].
      destruct (i <? Z.of_nat (length concepts))%Z eqn:Hhi; [|reflexivity].
      apply Z.leb_le in Hlo. apply Z.ltb_lt in Hhi.
      destruct (concepts !! Z.to_nat i) as [concept|] eqn:Hget.
      * exists concept. split; [reflexivity|].
        cbn [py_getitem]. now rewrite Hget.
      * apply lookup_ge_None in Hget. lia.
    + unfold Api.handle. now rewrite (py_int_raises_ValueError _ _ Hint).
Qed.

Lemma concept_lookup_by_id_witness :
  Api.get_concepts store_with_concepts
    (Api.__init__ ".utcp-kb" store_with_concepts)
  = (Ok (JArr [JStr "UTCP"; JStr "API"]),
     snd (Api.get_concepts store_with_concepts
            (Api.__init__ ".utcp-kb" store_with_concepts)))
  /\ fst (Api.get_concept_by_id " 1 " store_with_concepts
            (Api.__init__ ".utcp-kb" store_with_concepts))
     = {| Api.body := JStr "API"; Api.status := 200 |}.
Proof.
  assert (Hload :
    Api.get_concepts store_with_concepts
      (Api.__init__ ".utcp-kb" store_with_concepts)
    = (Ok (JArr [JStr "UTCP"; JStr "API"]),
       snd (Api.get_concepts store_with_concepts
              (Api.__init__ ".utcp-kb" store_with_concepts))))
    by reflexivity.
  split; [exact Hload|].
  pose proof (proj2 (proj2 (concept_lookup_by_id " 1 " _ _ _ _ Hload)))
    as Hcase.
  cbn in Hcase. destruct Hcase as (concept & Hget & Hresp).
  injection Hget as <-. exact Hresp.
Defined.

Example concept_lookup_answers :
  map (fun concept_id =>
         Api.status
           (fst (Api.get_concept_by_id concept_id store_with_concepts
                   (Api.__init__ ".utcp-kb" store_with_concepts))))
      ["0"; "1"; "2"; "-1"; "+1"; "1_0"; "one"; ""; "1.0"]
  = [200; 200; 404; 404; 200; 404; 400; 400; 400].
Proof. reflexivity. Qed.

(** ** The seed principles *)

Lemma extract_principles_appends_seeds concepts relationships c :
  exists derived t1 t2,
    Clock.run (Processor.extract_principles concepts relationships) c
    = derived ++ Processor.utcp_principles t1 t2.
Proof.
  unfold Clock.run, Processor.extract_principles.
  rewrite bind_fst. cbn. eauto.
Qed.

Lemma saved_principles_are_read_back principles patterns best_practices
    insights fs c :
  let fs' :=
    Clock.run
      (Processor.save_wisdom principles patterns best_practices insights fs)
      c in
  fst (Api.get_principles fs' (Api.__init__ ".utcp-kb" fs'))
  = Ok (JArr (map Processor.principle_json principles)).
Proof.
  cbn zeta. unfold Clock.run, Processor.save_wisdom.
  rewrite bind_fst. cbn [Clock.ret fst].
  unfold Api.get_principles, Api.cached.
  cbn [Api.__init__ Api._principles Api.kb_path is_None].
  unfold Api._load_json, Store.path_exists, Store.json_dump.
  change (PurePath.join ".utcp-kb" "wisdom/principles/all_principles.json")
    with ".utcp-kb/wisdom/principles/all_principles.json".
  rewrite !lookup_insert_ne by discriminate.
  rewrite lookup_insert_eq. unfold Store.json_load.
  rewrite !lookup_insert_ne by discriminate.
  rewrite lookup_insert_eq. reflexivity.
Qed.

(** C4, as stated, fails for the principle extraction of the basic
    pipeline, which has no seed list: from the empty concept collection
    it derives no principle at all. *)
Lemma basic_pipeline_has_no_seed_principles :
  ~ seeds_among
      (map BasicPrinciple.name
         (Clock.run
            (@BasicProcessor.extract_wisdom_basic_principles
               canonical_order [])
            stopped_clock)).
Proof.
  intros Hseeds. vm_compute in Hseeds.
  inversion Hseeds as [|seed seeds Hin _]. exact Hin.
Qed.

(** C4, amended. [extract_principles] of the full processor ends its
    output with the two seed principles for every concept collection,
    and returns just the two for the empty one; after [extract_wisdom]
    a new knowledge base on the directory returns that list from
    [get_principles]. The basic pipeline derives its principles from
    the concepts alone. *)
Theorem seed_principles_always_appended :
  (forall concepts relationships c,
     (exists derived t1 t2,
        Clock.run (Processor.extract_principles concepts relationships) c
        = derived ++ Processor.utcp_principles t1 t2)
     /\ seeds_among
          (map Principle.name
             (Clock.run
                (Processor.extract_principles concepts relationships) c)))
  /\
  (forall relationships c,
     exists t1 t2,
       Clock.run (Processor.extract_principles [] relationships) c
       = Processor.utcp_principles t1 t2)
  /\
  (forall concepts relationships fs c,
     let fs' :=
       Clock.run (Processor.extract_wisdom concepts relationships fs) c in
     fst (Api.get_principles fs' (Api.__init__ ".utcp-kb" fs'))
     = Ok (JArr (map Processor.principle_json
                   (Clock.run
                      (Processor.extract_principles concepts relationships)
                      c)))).
Proof.
  split; [|split].
  - intros concepts relationships c.
    destruct (extract_principles_appends_seeds concepts relationships c)
      as (derived & t1 & t2 & Heq).
    split; [eauto|]. rewrite Heq, map_app.
    repeat constructor; apply in_or_app; right; cbn; auto.
  - intros relationships c. cbn. eauto.
  - intros concepts relationships fs c. cbn zeta.
    unfold Clock.run at 1 2, Processor.extract_wisdom.
    rewrite !bind_fst.
    apply (saved_principles_are_read_back _ _ _ _ fs).
Qed.

(** ** The scenarios of the design document *)

Example scenario_code_file :
  map (fun r => (Relationship.source r, Relationship.target r,
                 Relationship.type r, Relationship.strength r))
      (Clock.run
         (Processor.extract_relationships_from_extraction
            "repo" "lib/a.py" code ""
            {| Info.title := "No Title Found"; Info.summary := "";
               Info.key_terms := [];
               Info.relationships := []; Info.concepts := [];
               Info.functions := Some ["foo"; "bar"];
               Info.classes := Some ["Baz"];
               Info.imports := Some []; Info.comments := Some [];
               Info.sections := None; Info.examples := None;
               Info.spec_elements := None; Info.requirements := None |})
         stopped_clock)
  = [("foo", "bar", same_file, strength_of same_file);
     ("Baz", "foo", contains, strength_of contains);
     ("Baz", "bar", contains, strength_of contains)].
Proof. reflexivity. Qed.

Example scenario_key_terms :
  map (fun c => (Concept.name c, Concept.type c))
      (Clock.run
         (BasicProcessor.extract_concepts_basic
            "repo" "README.md" documentation "My Title" "" ["UTCP"; "API"])
         stopped_clock)
  = [("My Title", "title"); ("UTCP", "term"); ("API", "term")]
  /\
  map (fun r => (Relationship.source r, Relationship.target r,
                 Relationship.type r, Relationship.strength r))
      (Clock.run
         (BasicProcessor.extract_relationships_basic
            "repo" "README.md" ["UTCP"; "API"])
         stopped_clock)
  = [("UTCP", "API", co_occurrence, strength_of co_occurrence);
     ("repo", "UTCP", contains, strength_of contains);
     ("repo", "API", contains, strength_of contains)].
Proof. split; reflexivity. Qed.

(** * Further properties of the sources *)

(** ** Edge cases of the concept lookup and of the index load *)

(** X1. A concepts file that is not valid JSON makes the lookup answer
    400 [Invalid concept ID] for every id, valid integers included: the
    decoding error raised by the load is a [ValueError], and the first
    [except] clause takes it. The instance is left without a cached
    collection. *)
Theorem broken_concepts_file_answers_invalid_id
    (concept_id : string) (fs : gmap string Store.node)
    (kb : Api.UTCPKnowledgeBase) (raw : string) :
  Api._concepts kb = JNull ->
  fs !! PurePath.join (Api.kb_path kb) "processed-knowledge/all_concepts.json"
    = Some (Store.TextFile raw) ->
  Api.get_concept_by_id concept_id fs kb
  = (Api.error_response "Invalid concept ID" 400, kb).
Proof.
  intros Hnone Hfile.
  unfold Api.get_concept_by_id, Api.get_concepts, Api.cached.
  rewrite Hnone. cbn [is_None].
  unfold Api._load_json, Store.path_exists, Store.json_load.
  rewrite Hfile. reflexivity.
Qed.

Lemma broken_concepts_file_answers_invalid_id_witness :
  Api._concepts (Api.__init__ ".utcp-kb" store_with_broken_concepts) = JNull
  /\ store_with_broken_concepts
       !! PurePath.join ".utcp-kb" "processed-knowledge/all_concepts.json"
     = Some (Store.TextFile "{ not json")
  /\ Api.get_concept_by_id "0" store_with_broken_concepts
       (Api.__init__ ".utcp-kb" store_with_broken_concepts)
     = (Api.error_response "Invalid concept ID" 400,
        Api.__init__ ".utcp-kb" store_with_broken_concepts).
Proof.
  assert (H1 : Api._concepts
                 (Api.__init__ ".utcp-kb" store_with_broken_concepts)
               = JNull) by reflexivity.
  assert (H2 : store_with_broken_concepts
                 !! PurePath.join ".utcp-kb"
                      "processed-knowledge/all_concepts.json"
               = Some (Store.TextFile "{ not json")) by reflexivity.
  split; [exact H1|]. split; [exact H2|].
  exact (broken_concepts_file_answers_invalid_id "0" _ _ _ H1 H2).
Defined.

(** X2. The range test of the lookup is evaluated from the left: a
    negative id is answered 404 whatever document the concepts file
    holds, while an id that is not negative is answered 500 with the
    text of the [TypeError] when the document is [null], a boolean or a
    number, which have no length. *)
Theorem lookup_on_a_document_without_length
    (concept_id : string) (fs : gmap string Store.node)
    (kb kb' : Api.UTCPKnowledgeBase) (doc : json) (i : Z) :
  Api.get_concepts fs kb = (Ok doc, kb') ->
  py_int concept_id = Ok i ->
  ((i < 0)%Z ->
   Api.get_concept_by_id concept_id fs kb
   = (Api.error_response "Concept not found" 404, kb'))
  /\
  ((0 <= i)%Z ->
   match doc with
   | JNull | JBool _ | JInt _ | JFloat _ =>
       Api.get_concept_by_id concept_id fs kb
       = (Api.error_response
            ("object of type '" ++ type_name doc ++ "' has no len()") 500,
          kb')
   | _ => True
   end).
Proof.
  intros Hload Hint. unfold Api.get_concept_by_id, Api.get_concept_by_id_try.
  rewrite Hload, Hint. cbn [rbind]. split; intros Hi.
  - apply Z.leb_gt in Hi. now rewrite Hi.
  - apply Z.leb_le in Hi. rewrite Hi. now destruct doc.
Qed.

Lemma lookup_on_a_document_without_length_witness :
  Api.get_concepts store_with_null (Api.__init__ ".utcp-kb" store_with_null)
  = (Ok JNull, Api.__init__ ".utcp-kb" store_with_null)
  /\ py_int "-1" = Ok (-1)%Z
  /\ (-1 < 0)%Z
  /\ Api.get_concept_by_id "-1" store_with_null
       (Api.__init__ ".utcp-kb" store_with_null)
     = (Api.error_response "Concept not found" 404,
        Api.__init__ ".utcp-kb" store_with_null).
Proof.
  assert (H1 : Api.get_concepts store_with_null
                 (Api.__init__ ".utcp-kb" store_with_null)
               = (Ok JNull, Api.__init__ ".utcp-kb" store_with_null))
    by reflexivity.
  assert (H2 : py_int "-1" = Ok (-1)%Z) by reflexivity.
  assert (H3 : (-1 < 0)%Z) by lia.
  split; [exact H1|]. split; [exact H2|]. split; [exact H3|].
  exact (proj1 (lookup_on_a_document_without_length "-1" _ _ _ _ _ H1 H2) H3).
Defined.

(** X3. The constructor never fails on the indexes, and it loads them in
    order inside one [try]: without the indexes directory nothing is
    loaded; when the concept index exists but does not load, the
    relationship index is not loaded either; when both load, both are
    kept under their keys. *)
Theorem index_load_stops_at_the_first_failure
    (kb_path : string) (fs : gmap string Store.node) :
  let dir := PurePath.join (PurePath.join kb_path "ai-optimized") "indexes" in
  let concept_index := PurePath.join dir "concept_index.json" in
  let relationship_index := PurePath.join dir "relationship_index.json" in
  (fs !! dir = None -> Api._indexes (Api.__init__ kb_path fs) = ∅)
  /\
  (forall e,
     is_Some (fs !! dir) -> is_Some (fs !! concept_index) ->
     Store.json_load fs concept_index = Raise e ->
     Api._indexes (Api.__init__ kb_path fs) = ∅)
  /\
  (forall concepts relationships,
     is_Some (fs !! dir) ->
     fs !! concept_index = Some (Store.JsonFile concepts) ->
     fs !! relationship_index = Some (Store.JsonFile relationships) ->
     Api._indexes (Api.__init__ kb_path fs)
     = <["relationships" := relationships]> (<["concepts" := concepts]> ∅)).
Proof.
  cbn zeta. cbn [Api.__init__ Api._indexes].
  unfold Api._load_indexes, Api._load_indexes_try, Store.path_exists.
  split; [|split].
  - intros ->. reflexivity.
  - intros e [d ->] [n Hn] Hraise. rewrite Hn, Hraise. reflexivity.
  - intros concepts relationships [d ->] Hc Hr.
    unfold Store.json_load. rewrite Hc, Hr. reflexivity.
Qed.

Lemma index_load_stops_at_the_first_failure_witness :
  is_Some (store_with_broken_concept_index !! indexes_dir)
  /\ is_Some (store_with_broken_concept_index
                !! ".utcp-kb/ai-optimized/indexes/concept_index.json")
  /\ Store.json_load store_with_broken_concept_index
       ".utcp-kb/ai-optimized/indexes/concept_index.json"
     = Raise (Exn JSONDecodeError "Expecting value: line 1 column 1 (char 0)")
  /\ Api._indexes (Api.__init__ ".utcp-kb" store_with_broken_concept_index)
     = ∅.
Proof.
  assert (H1 : is_Some (store_with_broken_concept_index !! indexes_dir))
    by (eexists; reflexivity).
  assert (H2 : is_Some (store_with_broken_concept_index
                 !! ".utcp-kb/ai-optimized/indexes/concept_index.json"))
    by (eexists; reflexivity).
  assert (H3 : Store.json_load store_with_broken_concept_index
                 ".utcp-kb/ai-optimized/indexes/concept_index.json"
               = Raise (Exn JSONDecodeError
                          "Expecting value: line 1 column 1 (char 0)"))
    by reflexivity.
  split; [exact H1|]. split; [exact H2|]. split; [exact H3|].
  exact (proj1 (proj2 (index_load_stops_at_the_first_failure
                         ".utcp-kb" store_with_broken_concept_index))
           _ H1 H2 H3).
Defined.

(** ** More on the inverted index *)

Lemma relationship_tokens_words relationship :
  relationship_tokens relationship = Optimizer.relationship_words relationship.
Proof.
  unfold relationship_tokens, Optimizer.relationship_words.
  now rewrite !lower_app.
Qed.

(** X4. Every relationship is indexed like a concept: each token longer
    than 2 of the lower-cased text made of its source, target and
    context is a key of the relationship index, with the position of the
    relationship in its posting list. *)
Theorem relationship_tokens_are_indexed
    (concepts : list Concept.t) (relationships : list Relationship.t)
    (i : nat) (relationship : Relationship.t) (token : string) :
  relationships !! i = Some relationship ->
  In token (relationship_tokens relationship) ->
  2 < PyStr.len token ->
  exists postings,
    snd (Optimizer.create_search_index concepts relationships) !! token
    = Some postings
    /\ In i postings.
Proof.
  intros Hl Htok Hlen. rewrite relationship_tokens_words in Htok.
  cbn [Optimizer.create_search_index snd]. unfold Optimizer.build_index.
  apply (index_fold_posts Optimizer.relationship_words _ _ _ _ relationship);
    [|assumption..].
  apply (enumerate_from_lookup relationships 0 i relationship Hl).
Qed.

Lemma relationship_tokens_are_indexed_witness :
  [relationship_hello] !! 0 = Some relationship_hello
  /\ In "world" (relationship_tokens relationship_hello)
  /\ 2 < PyStr.len "world"
  /\ exists postings,
       snd (Optimizer.create_search_index [] [relationship_hello])
         !! "world" = Some postings
       /\ In 0 postings.
Proof.
  assert (H1 : [relationship_hello] !! 0 = Some relationship_hello)
    by reflexivity.
  assert (H2 : In "world" (relationship_tokens relationship_hello))
    by (vm_compute; tauto).
  assert (H3 : 2 < PyStr.len "world") by (vm_compute; lia).
  split; [exact H1|]. split; [exact H2|]. split; [exact H3|].
  exact (relationship_tokens_are_indexed [] _ 0 _ "world" H1 H2 H3).
Defined.

(** An invariant of the postings is kept by the indexing of one entity
    and by the whole loop. *)
Lemma index_words_invariant (Q : string -> nat -> Prop) words index i :
  (forall token postings j,
     index !! token = Some postings -> In j postings -> Q token j) ->
  (forall word, In word words -> 2 < PyStr.len word -> Q word i) ->
  forall token postings j,
    Optimizer.index_words index words i !! token = Some postings ->
    In j postings -> Q token j.
Proof.
  unfold Optimizer.index_words. revert index.
  induction words as [|w words IH]; intros index Hindex Hwords;
    [exact Hindex|].
  cbn [fold_left]. apply IH.
  - destruct (2 <? PyStr.len w)%nat eqn:Hlen; [|exact Hindex].
    intros token postings j Hlook Hin.
    unfold Optimizer.append_posting in Hlook.
    destruct (decide (w = token)) as [->|Hne].
    + rewrite lookup_insert_eq in Hlook. injection Hlook as <-.
      apply in_app_or in Hin. destruct Hin as [Hin|[<-|[]]].
      * destruct (index !! token) as [old|] eqn:Hold; [|contradiction].
        now apply (Hindex token old).
      * apply Hwords; [now left | now apply Nat.ltb_lt].
    + rewrite lookup_insert_ne in Hlook by assumption.
      now apply (Hindex token postings).
  - intros word Hin. apply Hwords. now right.
Qed.

Lemma index_fold_invariant {A} (Q : string -> nat -> Prop)
    (words_of : A -> list string) (entities : list (nat * A)) index :
  (forall token postings j,
     index !! token = Some postings -> In j postings -> Q token j) ->
  (forall i entity word,
     In (i, entity) entities -> In word (words_of entity) ->
     2 < PyStr.len word -> Q word i) ->
  forall token postings j,
    fold_left (fun index '(i, entity) =>
                 Optimizer.index_words index (words_of entity) i)
              entities index
      !! token = Some postings ->
    In j postings -> Q token j.
Proof.
  revert index. induction entities as [|[i e] entities IH];
    intros index Hindex Hents; [exact Hindex|].
  cbn [fold_left]. apply IH.
  - apply index_words_invariant; [exact Hindex|].
    intros word Hin Hlen. apply (Hents i e); [now left | assumption..].
  - intros i' e' word Hin. apply Hents. now right.
Qed.

Lemma enumerate_from_In {A} (xs : list A) k i x :
  In (i, x) (enumerate_from k xs) -> k <= i /\ xs !! (i - k) = Some x.
Proof.
  revert k. induction xs as [|y xs IH]; intros k Hin; [contradiction|].
  destruct Hin as [[= <- <-]|Hin].
  - split; [lia|]. now rewrite Nat.sub_diag.
  - apply IH in Hin as [Hle Hl]. split; [lia|].
    replace (i - k) with (S (i - S k)) by lia. exact Hl.
Qed.

(** X5. The concept index holds nothing else: a position listed under a
    token is the position of a concept of the collection, the token is
    longer than 2 and is one of the tokens of that concept. *)
Theorem concept_postings_are_sound
    (concepts : list Concept.t) (relationships : list Relationship.t)
    (token : string) (postings : list nat) (i : nat) :
  fst (Optimizer.create_search_index concepts relationships) !! token
    = Some postings ->
  In i postings ->
  2 < PyStr.len token
  /\ exists concept,
       concepts !! i = Some concept /\ In token (tokens_of concept).
Proof.
  cbn [Optimizer.create_search_index fst]. unfold Optimizer.build_index.
  apply (index_fold_invariant
           (fun token i =>
              2 < PyStr.len token
              /\ exists concept,
                   concepts !! i = Some concept
                   /\ In token (tokens_of concept))
           Optimizer.concept_words).
  - intros t p j Hlook. now rewrite lookup_empty in Hlook.
  - intros j concept word Hin Hword Hlen. split; [exact Hlen|].
    exists concept. apply enumerate_from_In in Hin as [_ Hl].
    rewrite Nat.sub_0_r in Hl. split; [exact Hl|].
    now rewrite tokens_of_concept_words.
Qed.

Lemma concept_postings_are_sound_witness :
  fst (Optimizer.create_search_index [concept_hello_world] []) !! "tour"
    = Some [0]
  /\ In 0 [0]
  /\ 2 < PyStr.len "tour"
  /\ exists concept,
       [concept_hello_world] !! 0 = Some concept
       /\ In "tour" (tokens_of concept).
Proof.
  assert (H1 : fst (Optimizer.create_search_index [concept_hello_world] [])
                 !! "tour" = Some [0]) by reflexivity.
  assert (H2 : In 0 [0]) by now left.
  split; [exact H1|]. split; [exact H2|].
  exact (concept_postings_are_sound [concept_hello_world] [] "tour" [0] 0
           H1 H2).
Defined.

Lemma StronglySorted_snoc (postings : list nat) (i : nat) :
  StronglySorted le postings -> Forall (fun j => j <= i) postings ->
  StronglySorted le (postings ++ [i]).
Proof.
  induction 1 as [|j postings Hs IH Hj]; intros Hall; cbn.
  - repeat constructor.
  - apply Forall_cons_1 in Hall as [Hji Hall]. constructor; [now apply IH|].
    apply Forall_app. split; [exact Hj | now repeat constructor].
Qed.

Lemma append_posting_ordered n index word i :
  i < n -> postings_ordered_below (S i) index -> S i <= n ->
  postings_ordered_below (S i) (Optimizer.append_posting index word i).
Proof.
  intros _ Hinv _ token postings Hlook.
  unfold Optimizer.append_posting in Hlook.
  destruct (decide (word = token)) as [->|Hne].
  - rewrite lookup_insert_eq in Hlook. injection Hlook as <-.
    destruct (index !! token) as [old|] eqn:Hold; cbn.
    + destruct (Hinv token old Hold) as (_ & Hsorted & Hbelow).
      split; [destruct old; discriminate|]. split.
      * apply StronglySorted_snoc; [exact Hsorted|].
        eapply Forall_impl; [exact Hbelow|]. cbn. intros; lia.
      * apply Forall_app. split; [exact Hbelow|]. repeat constructor.
    + split; [discriminate|]. split; repeat constructor.
  - rewrite lookup_insert_ne in Hlook by assumption.
    exact (Hinv token postings Hlook).
Qed.

Lemma index_words_ordered words index i :
  postings_ordered_below (S i) index ->
  postings_ordered_below (S i) (Optimizer.index_words index words i).
Proof.
  unfold Optimizer.index_words. revert index.
  induction words as [|w words IH]; intros index Hinv; [exact Hinv|].
  cbn [fold_left]. apply IH.
  destruct (2 <? PyStr.len w)%nat; [|exact Hinv].
  apply (append_posting_ordered (S i)); [lia | exact Hinv | lia].
Qed.

Lemma postings_ordered_below_mono n m index :
  n <= m -> postings_ordered_below n index -> postings_ordered_below m index.
Proof.
  intros Hle Hinv token postings Hlook.
  destruct (Hinv token postings Hlook) as (Hne & Hsorted & Hbelow).
  repeat split; [exact Hne | exact Hsorted |].
  eapply Forall_impl; [exact Hbelow|]. cbn. intros; lia.
Qed.

Lemma index_fold_ordered {A} (words_of : A -> list string) (xs : list A)
    k index :
  postings_ordered_below k index ->
  postings_ordered_below (k + length xs)
    (fold_left (fun index '(i, entity) =>
                  Optimizer.index_words index (words_of entity) i)
               (enumerate_from k xs) index).
Proof.
  revert k index. induction xs as [|x xs IH]; intros k index Hinv.
  - cbn. now rewrite Nat.add_0_r.
  - cbn [enumerate_from fold_left length].
    replace (k + S (length xs)) with (S k + length xs) by lia.
    apply IH. apply index_words_ordered.
    apply (postings_ordered_below_mono k); [lia | exact Hinv].
Qed.

(** X6. In both indexes every posting list is non-empty, in
    non-decreasing order, and holds only positions of the collection
    that was indexed. *)
Theorem postings_are_ordered_positions
    (concepts : list Concept.t) (relationships : list Relationship.t) :
  postings_ordered_below (length concepts)
    (fst (Optimizer.create_search_index concepts relationships))
  /\
  postings_ordered_below (length relationships)
    (snd (Optimizer.create_search_index concepts relationships)).
Proof.
  cbn [Optimizer.create_search_index fst snd]. unfold Optimizer.build_index.
  split.
  - apply (index_fold_ordered Optimizer.concept_words concepts 0).
    intros token postings Hlook. now rewrite lookup_empty in Hlook.
  - apply (index_fold_ordered Optimizer.relationship_words relationships 0).
    intros token postings Hlook. now rewrite lookup_empty in Hlook.
Qed.

(** A word that occurs twice in the text of a concept is posted
    twice. *)
Example repeated_word_is_posted_twice :
  fst (Optimizer.create_search_index
         [concept_hello_world; concept_hello_world] [])
    !! "hello" = Some [0; 1]
  /\
  fst (Optimizer.create_search_index
         [{| Concept.name := "retry";
             Concept.type := "term";
             Concept.source_repo := "repo";
             Concept.source_file := "a.md";
             Concept.context := "";
             Concept.description := "retry and retry again";
             Concept.tags := ["term"];
             Concept.timestamp := "" |}] [])
    !! "retry" = Some [0; 0; 0].
Proof. split; reflexivity. Qed.

(** ** Insights, counts and provenance in the processors *)

Lemma insight_threshold_by_type (t : relationship_type) :
  PrimFloat.ltb insight_threshold (strength_of t)
  = match t with co_occurrence => false | _ => true end.
Proof. destruct t; reflexivity. Qed.

(** X7. Of relationships that carry the strength of their type, the
    insights are exactly the [same_file] and [contains] ones, one
    insight each and in the same order, and never a [co_occurrence]
    one. *)
Theorem insights_are_the_strong_relationships
    (concepts : list Concept.t) (relationships : list Relationship.t)
    (c : Clock.t) :
  Forall fixed_strength relationships ->
  map insight_core
      (Clock.run (Processor.extract_insights concepts relationships) c)
  = map insight_core_of
        (List.filter (fun r => negb (is_co_occurrence r)) relationships).
Proof.
  intros Hfixed. unfold Clock.run, Processor.extract_insights. revert c.
  induction Hfixed as [|r relationships Hr _ IH]; intros c; [reflexivity|].
  rewrite for_each_cons. cbn [fst]. rewrite map_app, IH.
  assert (Hlt : PrimFloat.ltb insight_threshold (Relationship.strength r)
                = negb (is_co_occurrence r)).
  { rewrite Hr, insight_threshold_by_type. unfold is_co_occurrence.
    now destruct (Relationship.type r). }
  cbn [List.filter]. rewrite Hlt.
  now destruct (negb (is_co_occurrence r)).
Qed.

Lemma insights_are_the_strong_relationships_witness :
  let contains_hello :=
    {| Relationship.source := "Greeter";
       Relationship.target := "hello";
       Relationship.type := contains;
       Relationship.strength := strength_contains;
       Relationship.source_repo := "repo";
       Relationship.source_file := "a.py";
       Relationship.context := "Class Greeter may contain or use function hello";
       Relationship.timestamp := "2025-01-01T00:00:00" |} in
  Forall fixed_strength [relationship_hello; contains_hello]
  /\ map insight_core
       (Clock.run
          (Processor.extract_insights [] [relationship_hello; contains_hello])
          stopped_clock)
     = [insight_core_of contains_hello].
Proof.
  cbn zeta.
  match goal with |- Forall _ ?l /\ _ =>
    assert (H : Forall fixed_strength l)
      by (repeat constructor)
  end.
  split; [exact H|].
  exact (insights_are_the_strong_relationships [] _ stopped_clock H).
Defined.

Lemma for_each_length_exact {A B} (size : A -> nat) (xs : list A)
    (body : A -> Clock.M (list B)) :
  (forall x c, length (fst (body x c)) = size x) ->
  forall c, length (fst (for_each xs body c)) = list_sum (map size xs).
Proof.
  intros Hbody. induction xs as [|x xs IH]; intros c; [reflexivity|].
  rewrite for_each_cons. cbn [fst map list_sum fold_right].
  fold (list_sum (map size xs)). now rewrite length_app, Hbody, IH.
Qed.

Lemma list_sum_constant {A} (n : nat) (xs : list A) :
  list_sum (map (fun _ => n) xs) = length xs * n.
Proof.
  induction xs as [|x xs IH]; [reflexivity|].
  cbn [map list_sum fold_right length].
  fold (list_sum (map (fun _ : A => n) xs)). rewrite IH. lia.
Qed.

Lemma filter_all {A} (p : A -> bool) (l : list A) :
  Forall (fun x => p x = true) l -> List.filter p l = l.
Proof.
  induction 1 as [|x l Hx _ IH]; [reflexivity|].
  cbn. now rewrite Hx, IH.
Qed.

Lemma filter_none {A} (p : A -> bool) (l : list A) :
  Forall (fun x => p x = false) l -> List.filter p l = [].
Proof.
  induction 1 as [|x l Hx _ IH]; [reflexivity|].
  cbn. now rewrite Hx.
Qed.

(** X8. The class-by-function product is not capped: a code file with
    [m] classes and [n] functions yields exactly [m * n] [contains]
    relationships in the full processor, and a file of any other
    content type none; the basic processor yields one per key term. *)
Theorem contains_relationships_are_counted :
  (forall repo_name file_path content_type content extracted_info c,
     length
       (List.filter is_contains
          (Clock.run
             (Processor.extract_relationships_from_extraction
                repo_name file_path content_type content extracted_info) c))
     = match content_type with
       | code =>
           length (get_list (Info.classes extracted_info))
           * length (get_list (Info.functions extracted_info))
       | _ => 0
       end)
  /\
  (forall repo_name file_path key_terms c,
     length
       (List.filter is_contains
          (Clock.run
             (BasicProcessor.extract_relationships_basic
                repo_name file_path key_terms) c))
     = length key_terms).
Proof.
  split.
  - intros repo_name file_path ct content extracted_info c.
    unfold Clock.run, Processor.extract_relationships_from_extraction.
    rewrite bind_fst, bind_fst. cbn [Clock.ret fst].
    rewrite List.filter_app, length_app.
    rewrite (filter_none is_contains (fst (for_each (enumerate _) _ _)))
      by (apply (pair_loop_Forall _ _ (fun x y now => _)); reflexivity).
    rewrite Nat.add_0_r.
    destruct ct; try reflexivity.
    rewrite bind_fst, bind_fst. cbn [Clock.ret fst].
    rewrite List.filter_app, length_app.
    rewrite (filter_none is_contains (fst (for_each (enumerate _) _ _)))
      by (apply (pair_loop_Forall _ _ (fun x y now => _)); reflexivity).
    rewrite filter_all
      by (apply (cross_loop_Forall _ _ _ (fun x y now => _)); reflexivity).
    cbn [length Nat.add].
    rewrite (for_each_length_exact
               (fun _ => length (get_list (Info.functions extracted_info)))).
    + apply list_sum_constant.
    + intros cls c1.
      rewrite (for_each_length_exact (fun _ => 1)) by reflexivity.
      rewrite list_sum_constant. lia.
  - intros. unfold Clock.run, BasicProcessor.extract_relationships_basic.
    rewrite bind_fst, bind_fst. cbn [Clock.ret fst].
    rewrite List.filter_app, length_app.
    rewrite (filter_none is_contains (fst (for_each (enumerate _) _ _)))
      by (apply (pair_loop_Forall _ _ (fun x y now => _)); reflexivity).
    rewrite filter_all
      by (apply (single_loop_Forall _ _ (fun y now => _)); reflexivity).
    cbn [length Nat.add].
    rewrite (for_each_length_exact (fun _ => 1)) by reflexivity.
    rewrite list_sum_constant. lia.
Qed.

Lemma list_sum_indicator {A} (p : A -> bool) (xs : list A) :
  list_sum (map (fun x => if p x then 1 else 0) xs)
  = length (List.filter p xs).
Proof.
  induction xs as [|x xs IH]; [reflexivity|].
  cbn [map list_sum fold_right List.filter].
  fold (list_sum (map (fun x => if p x then 1 else 0) xs)).
  rewrite IH. now destruct (p x).
Qed.

(** X9. Concepts are not deduplicated: the full processor emits one
    concept per function and per class of a code file, or one per
    section of a documentation or specification file, then one per key
    term, then one per entity of the language model whose stripped text
    is longer than 2 characters. *)
Theorem concepts_are_counted (nlp : option Processor.nlp_model)
    (repo_name file_path : string) (ct : content_type) (content : string)
    (extracted_info : Info.t) (c : Clock.t) :
  length
    (Clock.run
       (Processor.extract_concepts_from_extraction nlp
          repo_name file_path ct content extracted_info) c)
  = match ct with
    | code =>
        length (get_list (Info.functions extracted_info))
        + length (get_list (Info.classes extracted_info))
    | documentation | specification =>
        length (get_list (Info.sections extracted_info))
    | _ => 0
    end
    + length (Info.key_terms extracted_info)
    + length (kept_entities nlp content).
Proof.
  unfold Clock.run, Processor.extract_concepts_from_extraction.
  rewrite !bind_fst. cbn [Clock.ret fst]. rewrite !length_app.
  rewrite Nat.add_assoc. f_equal; [f_equal|].
  - destruct ct; try reflexivity.
    + rewrite !bind_fst. cbn [Clock.ret fst]. rewrite length_app.
      rewrite !(for_each_length_exact (fun _ => 1)) by reflexivity.
      rewrite !list_sum_constant. lia.
    + rewrite (for_each_length_exact (fun _ => 1)) by reflexivity.
      rewrite list_sum_constant. lia.
    + rewrite (for_each_length_exact (fun _ => 1)) by reflexivity.
      rewrite list_sum_constant. lia.
  - rewrite (for_each_length_exact (fun _ => 1)) by reflexivity.
    rewrite list_sum_constant. lia.
  - destruct nlp as [model|]; [|reflexivity]. cbn [kept_entities].
    rewrite <- list_sum_indicator.
    apply for_each_length_exact. intros [text label_] c1. cbn [fst].
    now destruct (2 <? PyStr.len (PyStr.strip text))%nat.
Qed.

(** Every concept and relationship of a file carries the repository
    name and the path it was extracted with. *)
Lemma full_concepts_Forall nlp repo_name file_path ct content
    extracted_info c :
  Forall (fun k => Concept.source_repo k = repo_name
                   /\ Concept.source_file k = file_path)
    (fst (Processor.extract_concepts_from_extraction nlp
            repo_name file_path ct content extracted_info c)).
Proof.
  unfold Processor.extract_concepts_from_extraction.
  rewrite !bind_fst. cbn [Clock.ret fst].
  repeat (apply Forall_app; split).
  - destruct ct; try constructor.
    + rewrite !bind_fst. cbn [Clock.ret fst].
      apply Forall_app; split; apply for_each_Forall; intros; cbn;
        repeat constructor.
    + apply for_each_Forall; intros; cbn; repeat constructor.
    + apply for_each_Forall; intros; cbn; repeat constructor.
  - apply for_each_Forall; intros; cbn; repeat constructor.
  - destruct nlp as [model|]; [|constructor].
    apply for_each_Forall. intros [text label_] c1 _.
    destruct (2 <? PyStr.len (PyStr.strip text))%nat; cbn;
      repeat constructor.
Qed.

Lemma basic_concepts_Forall repo_name file_path ct title summary
    key_terms c :
  Forall (fun k => Concept.source_repo k = repo_name
                   /\ Concept.source_file k = file_path)
    (fst (BasicProcessor.extract_concepts_basic
            repo_name file_path ct title summary key_terms c)).
Proof.
  unfold BasicProcessor.extract_concepts_basic.
  rewrite !bind_fst. cbn [Clock.ret fst].
  repeat (apply Forall_app; split).
  - destruct (negb (title =? "")%string
              && negb (title =? "No Title Found")%string); cbn;
      repeat constructor.
  - apply for_each_Forall; intros; cbn; repeat constructor.
  - apply for_each_Forall. intros part c1 _.
    destruct (_ && _); cbn; repeat constructor.
Qed.

Lemma process_extractions_provenance nlp repo_name xs c :
  Forall (concept_from repo_name (facts_paths xs))
    (fst (fst (Processor.process_extractions nlp repo_name xs c)))
  /\ Forall (relationship_from repo_name (facts_paths xs))
       (snd (fst (Processor.process_extractions nlp repo_name xs c))).
Proof.
  revert c. induction xs as [|x xs IH]; intros c;
    [split; constructor|].
  destruct x as [facts|marker]; cbn [Processor.process_extractions has_error].
  - rewrite !bind_fst. cbn [Clock.ret fst snd].
    match goal with |- context [Processor.process_extractions _ _ xs ?c1] =>
      destruct (IH c1) as [IHc IHr] end.
    split; apply Forall_app; split.
    + eapply Forall_impl; [apply full_concepts_Forall|].
      intros k [Hrepo Hfile]. split; [exact Hrepo|].
      rewrite Hfile. now left.
    + eapply Forall_impl; [exact IHc|].
      intros k [Hrepo Hfile]. split; [exact Hrepo | now right].
    + eapply Forall_impl;
        [apply (full_relationships_Forall
                  (fun r => Relationship.source_repo r = repo_name
                            /\ Relationship.source_file r
                               = Facts.file_path facts));
         intros; split; reflexivity|].
      intros r [Hrepo Hfile]. split; [exact Hrepo|].
      rewrite Hfile. now left.
    + eapply Forall_impl; [exact IHr|].
      intros r [Hrepo Hfile]. split; [exact Hrepo | now right].
  - apply IH.
Qed.

Lemma process_extractions_basic_provenance repo_name xs c :
  Forall (concept_from repo_name (basic_facts_paths xs))
    (fst (fst (BasicProcessor.process_extractions_basic repo_name xs c)))
  /\ Forall (relationship_from repo_name (basic_facts_paths xs))
       (snd (fst (BasicProcessor.process_extractions_basic repo_name xs c))).
Proof.
  revert c. induction xs as [|x xs IH]; intros c;
    [split; constructor|].
  destruct x as [facts|marker];
    cbn [BasicProcessor.process_extractions_basic has_error].
  - rewrite !bind_fst. cbn [Clock.ret fst snd].
    match goal with
    | |- context [BasicProcessor.process_extractions_basic _ xs ?c1] =>
        destruct (IH c1) as [IHc IHr]
    end.
    split; apply Forall_app; split.
    + eapply Forall_impl; [apply basic_concepts_Forall|].
      intros k [Hrepo Hfile]. split; [exact Hrepo|].
      rewrite Hfile. now left.
    + eapply Forall_impl; [exact IHc|].
      intros k [Hrepo Hfile]. split; [exact Hrepo | now right].
    + eapply Forall_impl;
        [apply (basic_relationships_Forall
                  (fun r => Relationship.source_repo r = repo_name
                            /\ Relationship.source_file r
                               = BasicFacts.file_path facts));
         intros; split; reflexivity|].
      intros r [Hrepo Hfile]. split; [exact Hrepo|].
      rewrite Hfile. now left.
    + eapply Forall_impl; [exact IHr|].
      intros r [Hrepo Hfile]. split; [exact Hrepo | now right].
  - apply IH.
Qed.

(** X10. Every concept and every relationship that [process_extraction]
    or [process_extraction_basic] returns for a batch names the
    repository of the batch as its [source_repo], and as its
    [source_file] the path of a facts record of the batch, never that
    of an error marker. *)
Theorem processed_records_name_their_source :
  (forall nlp data c,
     Forall (concept_from (repository data)
               (facts_paths (extractions data)))
       (fst (Clock.run (Processor.process_extraction nlp data) c))
     /\ Forall (relationship_from (repository data)
                  (facts_paths (extractions data)))
          (snd (Clock.run (Processor.process_extraction nlp data) c)))
  /\
  (forall data c,
     Forall (concept_from (repository data)
               (basic_facts_paths (extractions data)))
       (fst (Clock.run (BasicProcessor.process_extraction_basic data) c))
     /\ Forall (relationship_from (repository data)
                  (basic_facts_paths (extractions data)))
          (snd (Clock.run (BasicProcessor.process_extraction_basic data) c))).
Proof.
  split; intros.
  - apply process_extractions_provenance.
  - apply process_extractions_basic_provenance.
Qed.

(** ** Summaries *)

Lemma length_take_le (n : nat) (s : string) : PyStr.len (PyStr.take n s) <= n.
Proof.
  revert s. induction n as [|n IH]; intros [|ch s]; cbn; try lia.
  specialize (IH s). unfold PyStr.len in IH. lia.
Qed.

Lemma len_app (a b : string) :
  PyStr.len (a ++ b) = PyStr.len a + PyStr.len b.
Proof.
  unfold PyStr.len. induction a as [|ch a IH]; simpl; [reflexivity|].
  now rewrite IH.
Qed.

Lemma truncate_length (n : nat) (s : string) :
  PyStr.len (truncate n s) <= n + 3.
Proof.
  unfold truncate. destruct (n <? PyStr.len s)%nat eqn:Hlen.
  - rewrite len_app. pose proof (length_take_le n s) as Hle.
    change (PyStr.len "...") with 3. lia.
  - apply Nat.ltb_ge in Hlen. lia.
Qed.

Lemma mem_char_app c (a b : string) :
  PyStr.mem_char c (a ++ b) = PyStr.mem_char c a || PyStr.mem_char c b.
Proof.
  induction a as [|d a IH]; [reflexivity|].
  simpl. rewrite IH. now rewrite orb_assoc.
Qed.

Lemma split_on_without_separator sep s :
  Forall (fun field => PyStr.mem_char sep field = false)
         (PyStr.split_on sep s).
Proof.
  induction s as [|ch s IH]; cbn [PyStr.split_on]; [repeat constructor|].
  destruct (Ascii.eqb ch sep) eqn:Hch.
  - constructor; [reflexivity | exact IH].
  - destruct (PyStr.split_on sep s) as [|w ws]; [repeat constructor|].
    + cbn. rewrite Ascii.eqb_sym, Hch. reflexivity.
    + apply Forall_cons_1 in IH as [Hw Hws]. constructor; [|exact Hws].
      cbn. rewrite Ascii.eqb_sym, Hch. exact Hw.
Qed.

Lemma lstrip_by_without c p s :
  PyStr.mem_char c s = false -> PyStr.mem_char c (PyStr.lstrip_by p s) = false.
Proof.
  induction s as [|ch s IH]; [reflexivity|]. intros Hs. cbn [PyStr.lstrip_by].
  destruct (p ch); [|exact Hs].
  apply IH. cbn in Hs. now apply orb_false_elim in Hs.
Qed.

Lemma rstrip_by_without c p s :
  PyStr.mem_char c s = false -> PyStr.mem_char c (PyStr.rstrip_by p s) = false.
Proof.
  induction s as [|ch s IH]; [reflexivity|]. intros Hs.
  cbn in Hs. apply orb_false_elim in Hs as [Hch Hs]. specialize (IH Hs).
  cbn [PyStr.rstrip_by]. destruct (PyStr.rstrip_by p s) as [|d r].
  - destruct (p ch); [reflexivity|]. cbn. now rewrite Hch.
  - cbn [PyStr.mem_char]. rewrite Hch. exact IH.
Qed.

Lemma strip_without c s :
  PyStr.mem_char c s = false -> PyStr.mem_char c (PyStr.strip s) = false.
Proof.
  intros Hs. unfold PyStr.strip, PyStr.strip_by.
  now apply rstrip_by_without, lstrip_by_without.
Qed.

Lemma take_without c n s :
  PyStr.mem_char c s = false -> PyStr.mem_char c (PyStr.take n s) = false.
Proof.
  revert s. induction n as [|n IH]; intros [|ch s] Hs; try reflexivity.
  cbn in Hs. apply orb_false_elim in Hs as [Hch Hs].
  cbn. rewrite Hch. now apply IH.
Qed.

Lemma concat_without c sep (l : list string) :
  PyStr.mem_char c sep = false ->
  Forall (fun s => PyStr.mem_char c s = false) l ->
  PyStr.mem_char c (String.concat sep l) = false.
Proof.
  intros Hsep. induction 1 as [|s l Hs Hl IH]; [reflexivity|].
  cbn [String.concat]. destruct l as [|s' l]; [exact Hs|].
  rewrite !mem_char_app, Hs, Hsep. exact IH.
Qed.

Lemma summary_lines_Forall (P : string -> Prop) keep limit collected lines :
  Forall P collected -> Forall P lines ->
  Forall P (summary_lines keep limit collected lines).
Proof.
  intros Hc Hl. revert collected Hc.
  induction Hl as [|line lines Hline _ IH]; intros collected Hc; [exact Hc|].
  cbn [summary_lines]. destruct (keep line); [|now apply IH].
  assert (Forall P (collected ++ [line]))
    by (apply Forall_app; split; [exact Hc | now repeat constructor]).
  destruct (limit <=? length (collected ++ [line]))%nat;
    [assumption | now apply IH].
Qed.

Lemma summary_lines_length keep limit collected lines :
  0 < limit -> length collected < limit ->
  length (summary_lines keep limit collected lines) <= limit.
Proof.
  intros Hpos. revert collected.
  induction lines as [|line lines IH]; intros collected Hc; cbn; [lia|].
  destruct (keep line); [|now apply IH].
  destruct (limit <=? length (collected ++ [line]))%nat eqn:Hfull.
  - rewrite length_app in *. cbn in *. lia.
  - apply IH. now apply Nat.leb_gt in Hfull.
Qed.

Lemma stripped_lines_single content :
  Forall single_line (stripped_lines content).
Proof.
  unfold stripped_lines. apply Forall_map.
  pose proof (split_on_without_separator newline content) as Hsplit.
  induction Hsplit as [|line lines Hline _ IH]; [constructor|].
  cbn [List.filter]. destruct (negb _); [|exact IH].
  constructor; [now apply strip_without | exact IH].
Qed.

Lemma truncate_single n s : single_line s -> single_line (truncate n s).
Proof.
  unfold single_line, truncate. intros Hs.
  destruct (n <? PyStr.len s)%nat; [|exact Hs].
  rewrite mem_char_app, (take_without _ _ _ Hs). reflexivity.
Qed.

(** X11. The summary of a file, in the full and in the basic extractor,
    is one line of at most 203 characters: up to 200 of the joined
    lines and the three dots that mark the cut. *)
Theorem summary_is_one_short_line (content : string) :
  (PyStr.len (Extractor.extract_summary content) <= 203
   /\ single_line (Extractor.extract_summary content))
  /\
  (PyStr.len (BasicExtractor.extract_summary_basic content) <= 203
   /\ single_line (BasicExtractor.extract_summary_basic content)).
Proof.
  unfold Extractor.extract_summary, BasicExtractor.extract_summary_basic.
  repeat split; try apply (truncate_length 200);
    apply truncate_single, concat_without; try reflexivity;
    (apply summary_lines_Forall; [constructor | apply stripped_lines_single]).
Qed.

Example summary_of_a_readme :
  Extractor.extract_summary
    ("# Title" ++ String newline "First line." ++ String newline ""
     ++ String newline "  Second line.  " ++ String newline "```"
     ++ String newline "Third." ++ String newline "Fourth.")
  = "First line. Second line. Third."
  /\
  BasicExtractor.extract_summary_basic
    ("# Title" ++ String newline "Too short" ++ String newline
     "A line that is long enough." ++ String newline
     "Another line that is long enough." ++ String newline "And a third one.")
  = "A line that is long enough. Another line that is long enough.".
Proof. split; reflexivity. Qed.

(** ** Deduplicated names and exact numbers of pairs *)

(** Over a list without duplicates the guard of the pair loop always
    passes. *)
Lemma pair_loop_length_distinct (pre suf : list string)
    (mk : string -> string -> string -> Relationship.t) c :
  NoDup (pre ++ suf) ->
  2 * length
        (fst (for_each (enumerate_from (length pre) suf) (fun '(i, x) =>
                for_each (drop (i + 1) (pre ++ suf)) (fun y =>
                  if negb (String.eqb x y) then
                    now <- Clock.now ;; Clock.ret [mk x y now]
                  else Clock.ret [])) c))
  = length suf * (length suf - 1).
Proof.
  revert pre c. induction suf as [|x suf IH]; intros pre c Hnd; [reflexivity|].
  cbn [enumerate_from]. rewrite for_each_cons. cbn [fst]. rewrite length_app.
  assert (Hdrop : drop (length pre + 1) (pre ++ x :: suf) = suf).
  { replace (length pre + 1) with (length pre + 1 + 0) by lia.
    rewrite <- Nat.add_assoc, drop_app_add'; reflexivity. }
  rewrite Hdrop.
  assert (Hx : ~ In x suf).
  { apply NoDup_app in Hnd as (_ & _ & Hsuf).
    apply NoDup_cons in Hsuf as [Hx _]. now rewrite <- list_elem_of_In. }
  assert (Hinner :
    forall c1,
      length
        (fst (for_each suf (fun y =>
                if negb (String.eqb x y) then
                  now <- Clock.now ;; Clock.ret [mk x y now]
                else Clock.ret []) c1))
      = length suf).
  { clear -Hx. induction suf as [|y suf IHs]; intros c1; [reflexivity|].
    rewrite for_each_cons. cbn [fst]. rewrite length_app, IHs.
    - destruct (String.eqb_spec x y) as [->|_]; [|reflexivity].
      exfalso. apply Hx. now left.
    - intros Hin. apply Hx. now right. }
  rewrite Hinner.
  specialize (IH (pre ++ [x])).
  rewrite <- app_assoc in IH. cbn [app] in IH.
  rewrite length_app in IH. cbn [length] in IH.
  replace (length pre + 1) with (S (length pre)) in IH by lia.
  specialize (IH (snd (for_each suf (fun y : string =>
                          if negb (x =? y)%string
                          then now <- Clock.now;; Clock.ret [mk x y now]
                          else Clock.ret []) c)) Hnd).
  cbn [length]. nia.
Qed.

Lemma count_same_file_none l :
  Forall (fun r => is_same_file r = false) l ->
  length (List.filter is_same_file l) = 0.
Proof. intros H. now rewrite filter_none. Qed.

(** X12. Because the full extractor returns key terms and function names
    without duplicates, the guard of the pair loops never skips a pair
    of its facts: [k] key terms give exactly [k (k - 1) / 2]
    [co_occurrence] relationships, and the [n] functions of a code file
    exactly [n (n - 1) / 2] [same_file] relationships. *)
Theorem deduplicated_facts_give_all_pairs `{SetOrder} `{Regex}
    (file_path content : string) (ct : content_type) :
  match Extractor.extract_by_content_type file_path content ct with
  | Ok extracted_info =>
      forall repo_name c,
        let relationships :=
          Clock.run
            (Processor.extract_relationships_from_extraction
               repo_name file_path ct content extracted_info) c in
        let k := length (Info.key_terms extracted_info) in
        let n := length (get_list (Info.functions extracted_info)) in
        2 * count_co_occurrence relationships = k * (k - 1)
        /\ 2 * length (List.filter is_same_file relationships)
           = n * (n - 1)
  | Raise _ => True
  end.
Proof.
  destruct (Extractor.extract_by_content_type file_path content ct)
    as [info|e] eqn:Hinfo; [|exact I].
  intros repo_name c. cbn zeta.
  assert (Hterms : NoDup (Info.key_terms info)).
  { rewrite (extracted_key_terms _ _ _ _ Hinfo). apply capped_set_NoDup. }
  assert (Hfuncs : NoDup (get_list (Info.functions info))).
  { revert Hinfo. unfold Extractor.extract_by_content_type.
    destruct ct; try (intros [= <-]; cbn; try constructor).
    - unfold Extractor.extract_functions.
      rewrite list_of_set_perm. apply NoDup_remove_dups.
    - destruct (Extractor.extract_spec_elements content); cbn;
        [intros [= <-]; constructor | discriminate]. }
  unfold Clock.run, Processor.extract_relationships_from_extraction.
  rewrite bind_fst, bind_fst. cbn [Clock.ret fst].
  unfold count_co_occurrence. rewrite !List.filter_app, !length_app.
  rewrite (filter_all is_co_occurrence (fst (for_each (enumerate _) _ _)))
    by (apply (pair_loop_Forall _ _ (fun x y now => _)); reflexivity).
  rewrite (filter_none is_same_file (fst (for_each (enumerate _) _ _)))
    by (apply (pair_loop_Forall _ _ (fun x y now => _)); reflexivity).
  pose proof (pair_loop_length_distinct [] (Info.key_terms info)) as Hpairs.
  cbn [app length] in Hpairs.
  split.
  - rewrite (filter_none is_co_occurrence).
    + cbn [length Nat.add]. apply Hpairs. exact Hterms.
    + destruct ct; try constructor.
      rewrite bind_fst, bind_fst. cbn [Clock.ret fst].
      apply Forall_app. split.
      * apply (pair_loop_Forall _ _ (fun x y now => _)). reflexivity.
      * apply (cross_loop_Forall _ _ _ (fun x y now => _)). reflexivity.
  - cbn [length]. rewrite Nat.add_0_r.
    destruct ct.
    + rewrite bind_fst, bind_fst. cbn [Clock.ret fst].
      rewrite List.filter_app, length_app.
      rewrite (filter_all is_same_file (fst (for_each (enumerate _) _ _)))
        by (apply (pair_loop_Forall _ _ (fun x y now => _)); reflexivity).
      rewrite (filter_none is_same_file)
        by (apply (cross_loop_Forall _ _ _ (fun x y now => _)); reflexivity).
      cbn [length]. rewrite Nat.add_0_r.
      pose proof (pair_loop_length_distinct []
                    (get_list (Info.functions info))) as Hf.
      cbn [app length] in Hf. apply Hf. exact Hfuncs.
    + revert Hinfo. unfold Extractor.extract_by_content_type.
      intros [= <-]. reflexivity.
    + revert Hinfo. unfold Extractor.extract_by_content_type.
      destruct (Extractor.extract_spec_elements content); cbn;
        [intros [= <-]; reflexivity | discriminate].
    + revert Hinfo. unfold Extractor.extract_by_content_type.
      intros [= <-]. reflexivity.
    + revert Hinfo. unfold Extractor.extract_by_content_type.
      intros [= <-]. reflexivity.
    + revert Hinfo. unfold Extractor.extract_by_content_type.
      intros [= <-]. reflexivity.
Qed.

(** ** Classification by content *)



(** ** The principles of the basic pipeline *)

Lemma add_repo_keys name repo counts :
  map fst (BasicProcessor.add_repo name repo counts)
  = if in_list name (map fst counts) then map fst counts
    else map fst counts ++ [name].
Proof.
  induction counts as [|[k repos] counts IH]; [reflexivity|].
  cbn [BasicProcessor.add_repo map fst in_list existsb].
  rewrite (String.eqb_sym name k).
  destruct (String.eqb k name); [reflexivity|].
  cbn [map fst orb]. rewrite IH. unfold in_list.
  now destruct (existsb (String.eqb name) (map fst counts)).
Qed.

Lemma in_list_In x l : in_list x l = true <-> In x l.
Proof.
  unfold in_list. rewrite existsb_exists. split.
  - intros (y & Hy & Heq). apply String.eqb_eq in Heq. now subst.
  - intros Hin. exists x. split; [exact Hin | apply String.eqb_refl].
Qed.

Lemma add_repo_NoDup name repo counts :
  NoDup (map fst counts) ->
  NoDup (map fst (BasicProcessor.add_repo name repo counts)).
Proof.
  intros Hnd. rewrite add_repo_keys.
  destruct (in_list name (map fst counts)) eqn:Hin; [exact Hnd|].
  apply NoDup_app. split; [exact Hnd|]. split; [|apply NoDup_singleton].
  intros k Hk Hk'. apply list_elem_of_singleton in Hk'. subst k.
  apply list_elem_of_In, in_list_In in Hk. congruence.
Qed.

Lemma add_repo_In name repo counts k repos :
  In (k, repos) (BasicProcessor.add_repo name repo counts) ->
  In (k, repos) counts
  \/ (k = name /\ exists old, repos = old ++ [repo]
                              /\ (old = [] \/ In (k, old) counts)).
Proof.
  induction counts as [|[k' repos'] counts IH]; cbn [BasicProcessor.add_repo].
  - intros [[= <- <-]|[]]. right. split; [reflexivity|].
    exists []. split; [reflexivity | now left].
  - destruct (String.eqb_spec k' name) as [->|Hne].
    + intros [[= <- <-]|Hin].
      * right. split; [reflexivity|]. exists repos'.
        split; [reflexivity|]. right. now left.
      * left. now right.
    + intros [[= <- <-]|Hin]; [left; now left|].
      destruct (IH Hin) as [Hold|(-> & old & -> & [->|Hold])].
      * left. now right.
      * right. split; [reflexivity|]. exists [].
        split; [reflexivity | now left].
      * right. split; [reflexivity|]. exists old.
        split; [reflexivity|]. right. now right.
Qed.

(** The table of repositories per term: its keys are distinct and every
    repository listed under a term comes from a concept of that name. *)
Lemma term_repo_counts_invariant (rest seen : list Concept.t) acc :
  NoDup (map fst acc) ->
  (forall k repos repo,
     In (k, repos) acc -> In repo repos ->
     Exists (fun concept => Concept.name concept = k
                            /\ Concept.source_repo concept = repo) seen) ->
  let counts :=
    fold_left (fun counts concept =>
                 BasicProcessor.add_repo (Concept.name concept)
                   (Concept.source_repo concept) counts)
              rest acc in
  NoDup (map fst counts)
  /\ forall k repos repo,
       In (k, repos) counts -> In repo repos ->
       Exists (fun concept => Concept.name concept = k
                              /\ Concept.source_repo concept = repo)
              (seen ++ rest).
Proof.
  revert seen acc. induction rest as [|concept rest IH];
    intros seen acc Hnd Hsrc; cbn zeta.
  - rewrite app_nil_r. now split.
  - cbn [fold_left].
    replace (seen ++ concept :: rest) with ((seen ++ [concept]) ++ rest)
      by now rewrite <- app_assoc.
    apply IH; [now apply add_repo_NoDup|].
    intros k repos repo Hin Hrepo.
    apply Exists_app.
    apply add_repo_In in Hin as [Hold|(-> & old & -> & Hold)].
    + left. now apply (Hsrc k repos).
    + apply in_app_or in Hrepo as [Hrepo|[<-|[]]].
      * left. destruct Hold as [->|Hold]; [contradiction|].
        now apply (Hsrc _ old).
      * right. now left.
Qed.

Lemma for_each_map {A B C} (g : B -> C) (h : A -> C) (xs : list A)
    (body : A -> Clock.M (list B)) :
  (forall x c, map g (fst (body x c)) = [h x]) ->
  forall c, map g (fst (for_each xs body c)) = map h xs.
Proof.
  intros Hbody. induction xs as [|x xs IH]; intros c; [reflexivity|].
  rewrite for_each_cons. cbn [fst map]. now rewrite map_app, Hbody, IH.
Qed.

Lemma NoDup_map_fst_filter {A B} (p : A * B -> bool) (l : list (A * B)) :
  NoDup (map fst l) -> NoDup (map fst (List.filter p l)).
Proof.
  induction l as [|x l IH]; [intros; constructor|].
  cbn [map List.filter]. intros Hnd.
  apply NoDup_cons in Hnd as [Hx Hnd].
  destruct (p x); [|now apply IH].
  cbn [map]. apply NoDup_cons. split; [|now apply IH].
  intros Hin. apply Hx.
  apply list_elem_of_In in Hin. apply list_elem_of_In.
  apply in_map_iff in Hin as (y & Hy & Hin).
  apply List.filter_In in Hin as [Hin _].
  apply in_map_iff. now exists y.
Qed.

(** X14. The principles of the basic pipeline name each term once; the
    name is longer than 3 characters, and the repositories listed with
    it are at least two, all different, each the repository of a
    concept of that name. *)
Theorem basic_principles_are_shared_terms `{SetOrder}
    (concepts : list Concept.t) (c : Clock.t) :
  let principles :=
    Clock.run (BasicProcessor.extract_wisdom_basic_principles concepts) c in
  NoDup (map BasicPrinciple.name principles)
  /\ Forall (shared_term concepts) principles.
Proof.
  cbn zeta. unfold Clock.run, BasicProcessor.extract_wisdom_basic_principles.
  destruct (term_repo_counts_invariant concepts [] [])
    as [Hkeys Hsrc]; [constructor | intros ? ? ? []|].
  cbn [app] in Hsrc. fold (BasicProcessor.term_repo_counts concepts) in *.
  split.
  - rewrite (for_each_map BasicPrinciple.name fst).
    + now apply NoDup_map_fst_filter.
    + now intros [term added] c1.
  - apply for_each_Forall. intros [term added] c1 Hin.
    apply List.filter_In in Hin as [Hin Hcond].
    apply andb_prop in Hcond as [Hrepos Hlen].
    apply Nat.ltb_lt in Hrepos, Hlen.
    cbn. constructor; [|constructor].
    unfold shared_term. cbn. repeat split; try assumption.
    + rewrite list_of_set_perm. apply NoDup_remove_dups.
    + apply Forall_forall. intros repo Hrepo.
      apply (Hsrc term added).
      * exact Hin.
      * apply list_elem_of_In. rewrite list_of_set_perm in Hrepo.
        exact (proj1 (elem_of_remove_dups added repo) Hrepo).
Qed.

Example principles_of_two_repositories :
  map (fun p => (BasicPrinciple.name p, BasicPrinciple.source_repositories p))
      (Clock.run
         (@BasicProcessor.extract_wisdom_basic_principles canonical_order
            (map (fun '(name, repo) =>
                    {| Concept.name := name; Concept.type := "term";
                       Concept.source_repo := repo;
                       Concept.source_file := "README.md";
                       Concept.context := ""; Concept.description := "";
                       Concept.tags := ["term"]; Concept.timestamp := "" |})
                 [("UTCP", "python-utcp"); ("API", "python-utcp");
                  ("UTCP", "go-utcp"); ("API", "go-utcp");
                  ("UTCP", "python-utcp"); ("Tool", "go-utcp")]))
         stopped_clock)
  = [("UTCP", ["go-utcp"; "python-utcp"])].
Proof. reflexivity. Qed.

(** ** Search in the query service *)

Lemma collect_until_take (test : json -> outcome bool) (limit : Z)
    (items results : list json) :
  Forall (testable test) items ->
  results = [] \/ (Z.of_nat (length results) < limit)%Z ->
  collect_until test limit results items
  = Return (results
            ++ take (Z.to_nat (Z.max 1 limit) - length results)
                    (List.filter (accepted_by test) items)).
Proof.
  intros Hitems. revert results.
  induction Hitems as [|item items [accepted Htest] _ IH];
    intros results Hres.
  - cbn. now rewrite take_nil, app_nil_r.
  - cbn [collect_until List.filter]. unfold accepted_by at 1.
    rewrite Htest. cbn [obind]. destruct accepted; [|now apply IH].
    assert (Hroom : length results < Z.to_nat (Z.max 1 limit)).
    { destruct Hres as [->|Hlt]; [cbn [length]|]; lia. }
    destruct (Z.to_nat (Z.max 1 limit) - length results) as [|room] eqn:Hr;
      [lia|].
    cbn [take]. rewrite length_app. cbn [length].
    destruct (limit <=? Z.of_nat (length results + 1))%Z eqn:Hfull.
    + apply Z.leb_le in Hfull. replace room with 0 by lia.
      now rewrite take_0.
    + apply Z.leb_gt in Hfull. rewrite IH.
      * rewrite length_app. cbn [length]. rewrite <- app_assoc. cbn [app].
        replace (Z.to_nat (Z.max 1 limit) - (length results + 1)) with room
          by lia.
        reflexivity.
      * right. rewrite length_app. cbn [length]. lia.
Qed.

(** X15. When the collection loads as a list and the fields of every
    document lower-case, [search_concepts] and [search_relationships]
    return the first matching documents in the order of the collection:
    [limit] of them at most, and one at most when [limit] is 0 or
    negative, because the limit is tested after the append. *)
Theorem search_returns_the_first_matches
    (query : string) (limit : Z) (fs : gmap string Store.node)
    (kb kb' : Api.UTCPKnowledgeBase) (docs : list json) :
  (Api.get_concepts fs kb = (Ok (JArr docs), kb') ->
   Forall (testable (Api.concept_matches (PyStr.lower query))) docs ->
   Api.search_concepts query limit fs kb
   = (Return
        (take (Z.to_nat (Z.max 1 limit))
           (List.filter
              (accepted_by (Api.concept_matches (PyStr.lower query))) docs)),
      kb'))
  /\
  (Api.get_relationships fs kb = (Ok (JArr docs), kb') ->
   Forall (testable (Api.relationship_matches (PyStr.lower query))) docs ->
   Api.search_relationships query limit fs kb
   = (Return
        (take (Z.to_nat (Z.max 1 limit))
           (List.filter
              (accepted_by (Api.relationship_matches (PyStr.lower query)))
              docs)),
      kb')).
Proof.
  split; intros Hload Hdocs.
  - unfold Api.search_concepts. rewrite Hload. cbn [py_iter obind].
    rewrite collect_until_take; [|exact Hdocs | now left].
    cbn [app length]. now rewrite Nat.sub_0_r.
  - unfold Api.search_relationships. rewrite Hload. cbn [py_iter obind].
    rewrite collect_until_take; [|exact Hdocs | now left].
    cbn [app length]. now rewrite Nat.sub_0_r.
Qed.

Lemma search_returns_the_first_matches_witness :
  let kb := Api.__init__ ".utcp-kb" store_with_three_concepts in
  let docs :=
    [concept_doc "UTCP" "Universal Tool Calling Protocol" "README";
     concept_doc "Manual" "A UTCP manual" "docs";
     concept_doc "Tool" "Something callable" "utcp core"] in
  Api.get_concepts store_with_three_concepts kb
  = (Ok (JArr docs), snd (Api.get_concepts store_with_three_concepts kb))
  /\ Forall (testable (Api.concept_matches (PyStr.lower "UTCP"))) docs
  /\ fst (Api.search_concepts "UTCP" 0 store_with_three_concepts kb)
     = Return [concept_doc "UTCP" "Universal Tool Calling Protocol" "README"].
Proof.
  cbn zeta.
  set (kb := Api.__init__ ".utcp-kb" store_with_three_concepts).
  set (docs := [concept_doc "UTCP" "Universal Tool Calling Protocol" "README";
                concept_doc "Manual" "A UTCP manual" "docs";
                concept_doc "Tool" "Something callable" "utcp core"]).
  assert (H1 : Api.get_concepts store_with_three_concepts kb
               = (Ok (JArr docs),
                  snd (Api.get_concepts store_with_three_concepts kb)))
    by reflexivity.
  assert (H2 : Forall (testable (Api.concept_matches (PyStr.lower "UTCP")))
                 docs)
    by (repeat constructor; eexists; reflexivity).
  split; [exact H1|]. split; [exact H2|].
  pose proof (proj1 (search_returns_the_first_matches
                       "UTCP" 0 store_with_three_concepts kb _ docs) H1 H2)
    as Hsearch.
  rewrite Hsearch. reflexivity.
Defined.

Example search_limits :
  let kb := Api.__init__ ".utcp-kb" store_with_three_concepts in
  map (fun limit =>
         match fst (Api.search_concepts "utcp" limit
                      store_with_three_concepts kb) with
         | Return results => length results
         | Throw _ _ => 0
         end)
      [(-5)%Z; 0%Z; 1%Z; 2%Z; 3%Z; 50%Z]
  = [1; 1; 1; 2; 3; 3].
Proof. reflexivity. Qed.

(** ** Counters, summaries and patterns *)

Lemma counter_add_sum key counts :
  list_sum (map snd (counter_add key counts)) = S (list_sum (map snd counts)).
Proof.
  induction counts as [|[k n] counts IH]; [reflexivity|].
  cbn [counter_add]. destruct (String.eqb k key).
  - cbn [map snd list_sum fold_right]. lia.
  - cbn [map snd list_sum fold_right] in *.
    fold (list_sum (map snd (counter_add key counts))).
    fold (list_sum (map snd counts)). lia.
Qed.

Lemma counter_add_keys key counts :
  map fst (counter_add key counts)
  = if in_list key (map fst counts) then map fst counts
    else map fst counts ++ [key].
Proof.
  induction counts as [|[k n] counts IH]; [reflexivity|].
  cbn [counter_add map fst in_list existsb].
  rewrite (String.eqb_sym key k).
  destruct (String.eqb k key); [reflexivity|].
  cbn [map fst orb]. rewrite IH. unfold in_list.
  now destruct (existsb (String.eqb key) (map fst counts)).
Qed.

Lemma counter_add_NoDup key counts :
  NoDup (map fst counts) -> NoDup (map fst (counter_add key counts)).
Proof.
  intros Hnd. rewrite counter_add_keys.
  destruct (in_list key (map fst counts)) eqn:Hin; [exact Hnd|].
  apply NoDup_app. split; [exact Hnd|]. split; [|apply NoDup_singleton].
  intros k Hk Hk'. apply list_elem_of_singleton in Hk'. subst k.
  apply list_elem_of_In, in_list_In in Hk. congruence.
Qed.

Lemma counter_add_get key counts k :
  counter_get k (counter_add key counts)
  = counter_get k counts + (if String.eqb key k then 1 else 0).
Proof.
  induction counts as [|[k' n] counts IH]; cbn [counter_add counter_get].
  - now destruct (String.eqb key k).
  - destruct (String.eqb_spec k' key) as [->|Hne]; cbn [counter_get].
    + destruct (String.eqb_spec key k) as [->|Hne']; lia.
    + destruct (String.eqb_spec k' k) as [->|Hne'].
      * destruct (String.eqb_spec key k) as [->|_]; [contradiction | lia].
      * exact IH.
Qed.

Lemma counter_get_In k n counts :
  NoDup (map fst counts) -> In (k, n) counts -> counter_get k counts = n.
Proof.
  induction counts as [|[k' n'] counts IH]; [contradiction|].
  cbn [map fst counter_get]. intros Hnd Hin.
  apply NoDup_cons in Hnd as [Hk' Hnd].
  destruct Hin as [[= -> ->]|Hin]; [now rewrite String.eqb_refl|].
  destruct (String.eqb_spec k' k) as [->|_]; [|now apply IH].
  exfalso. apply Hk'. apply list_elem_of_In, in_map_iff. now exists (k, n).
Qed.

Lemma counter_add_positive key counts :
  Forall (fun '(_, n) => 0 < n) counts ->
  Forall (fun '(_, n) => 0 < n) (counter_add key counts).
Proof.
  induction 1 as [|[k n] counts Hn Hrest IH]; cbn [counter_add].
  - repeat constructor.
  - destruct (String.eqb k key).
    + constructor; [lia | exact Hrest].
    + constructor; [exact Hn | exact IH].
Qed.

Lemma Counter_fold keys acc seen :
  list_sum (map snd acc) = length seen ->
  NoDup (map fst acc) ->
  Forall (fun '(_, n) => 0 < n) acc ->
  (forall k, counter_get k acc = occurrences k seen) ->
  let counts := fold_left (fun counts key => counter_add key counts) keys acc in
  list_sum (map snd counts) = length (seen ++ keys)
  /\ NoDup (map fst counts)
  /\ Forall (fun '(_, n) => 0 < n) counts
  /\ forall k, counter_get k counts = occurrences k (seen ++ keys).
Proof.
  revert acc seen. induction keys as [|key keys IH];
    intros acc seen Hsum Hnd Hpos Hget; cbn zeta.
  - now rewrite app_nil_r.
  - cbn [fold_left].
    replace (seen ++ key :: keys) with ((seen ++ [key]) ++ keys)
      by now rewrite <- app_assoc.
    apply IH.
    + rewrite counter_add_sum, Hsum, length_app. cbn. lia.
    + now apply counter_add_NoDup.
    + now apply counter_add_positive.
    + intros k. rewrite counter_add_get, Hget. unfold occurrences.
      rewrite List.filter_app, length_app. cbn [List.filter].
      rewrite (String.eqb_sym k key).
      now destruct (String.eqb key k).
Qed.

Lemma Counter_counts keys : counts_of keys (Counter keys).
Proof.
  destruct (Counter_fold keys [] []) as (Hsum & Hnd & Hpos & Hget);
    try solve [reflexivity | constructor].
  cbn [app] in *. fold (Counter keys) in *.
  split; [exact Hsum|]. split; [exact Hnd|].
  apply Forall_forall. intros [k n] Hin. apply list_elem_of_In in Hin.
  split.
  - rewrite <- Hget. symmetry. now apply counter_get_In.
  - rewrite Forall_forall in Hpos.
    apply (Hpos (k, n)). now apply list_elem_of_In.
Qed.

(** X16. In the summaries of the basic pipeline the counts by type and
    the counts by repository each add up to the total of the
    collection; a type or repository is listed once, with the number of
    records that carry it. *)
Theorem summary_counts_add_up
    (concepts : list Concept.t) (relationships : list Relationship.t)
    (now : string) :
  let cs := BasicProcessor.concept_summary concepts now in
  let rs := BasicProcessor.relationship_summary relationships now in
  (BasicSummary.total cs = length concepts
   /\ counts_of (map Concept.type concepts) (BasicSummary.types cs)
   /\ counts_of (map Concept.source_repo concepts)
        (BasicSummary.source_repositories cs)
   /\ list_sum (map snd (BasicSummary.types cs)) = BasicSummary.total cs
   /\ list_sum (map snd (BasicSummary.source_repositories cs))
      = BasicSummary.total cs)
  /\
  (BasicSummary.total rs = length relationships
   /\ counts_of
        (map (fun r => relationship_type_str (Relationship.type r))
             relationships)
        (BasicSummary.types rs)
   /\ counts_of (map Relationship.source_repo relationships)
        (BasicSummary.source_repositories rs)
   /\ list_sum (map snd (BasicSummary.types rs)) = BasicSummary.total rs
   /\ list_sum (map snd (BasicSummary.source_repositories rs))
      = BasicSummary.total rs).
Proof.
  cbn zeta. cbn [BasicProcessor.concept_summary
                 BasicProcessor.relationship_summary BasicSummary.total
                 BasicSummary.types BasicSummary.source_repositories].
  repeat split; try apply Counter_counts;
    match goal with
    | |- list_sum (map snd (Counter ?keys)) = _ =>
        rewrite (proj1 (Counter_counts keys)); apply length_map
    end.
Qed.

Lemma insert_by_count_In x item sorted :
  In x (insert_by_count item sorted) <-> x = item \/ In x sorted.
Proof.
  induction sorted as [|first sorted IH]; cbn [insert_by_count].
  - cbn. intuition.
  - destruct (snd first <? snd item)%nat; cbn [In]; [intuition|].
    rewrite IH. intuition.
Qed.

Lemma sorted_by_count_In x items :
  In x (sorted_by_count items) <-> In x items.
Proof.
  unfold sorted_by_count.
  assert (Hgen : forall acc,
            In x (fold_left (fun sorted item => insert_by_count item sorted)
                            items acc)
            <-> In x acc \/ In x items).
  { induction items as [|item items IH]; intros acc; cbn [fold_left].
    - cbn. intuition.
    - rewrite IH, insert_by_count_In. cbn [In]. intuition. }
  rewrite Hgen. cbn. intuition.
Qed.

Lemma insert_by_count_sorted item sorted :
  StronglySorted (fun a b : string * nat => snd b <= snd a) sorted ->
  StronglySorted (fun a b : string * nat => snd b <= snd a)
                 (insert_by_count item sorted).
Proof.
  induction 1 as [|first sorted Hs IH Hfirst]; cbn [insert_by_count].
  - repeat constructor.
  - destruct (snd first <? snd item)%nat eqn:Hlt.
    + apply Nat.ltb_lt in Hlt. constructor; [now constructor|].
      constructor; [lia|].
      eapply Forall_impl; [exact Hfirst|]. cbn. intros; lia.
    + apply Nat.ltb_ge in Hlt. constructor; [exact IH|].
      apply Forall_forall. intros x Hx.
      apply list_elem_of_In, insert_by_count_In in Hx as [->|Hx]; [exact Hlt|].
      rewrite Forall_forall in Hfirst.
      apply Hfirst. now apply list_elem_of_In.
Qed.

Lemma sorted_by_count_sorted items :
  StronglySorted (fun a b : string * nat => snd b <= snd a)
                 (sorted_by_count items).
Proof.
  unfold sorted_by_count.
  assert (Hgen : forall acc,
            StronglySorted (fun a b : string * nat => snd b <= snd a) acc ->
            StronglySorted (fun a b : string * nat => snd b <= snd a)
              (fold_left (fun sorted item => insert_by_count item sorted)
                         items acc)).
  { induction items as [|item items IH]; intros acc Hacc; [exact Hacc|].
    cbn [fold_left]. now apply IH, insert_by_count_sorted. }
  apply Hgen. constructor.
Qed.

Lemma In_take {A} (x : A) (l : list A) n : In x (take n l) -> In x l.
Proof.
  revert n. induction l as [|y l IH]; intros [|n]; cbn; try tauto.
  intros [->|Hin]; [now left | right; now apply (IH n)].
Qed.

Lemma StronglySorted_take {A} (R : A -> A -> Prop) n (l : list A) :
  StronglySorted R l -> StronglySorted R (take n l).
Proof.
  intros Hs. revert n. induction Hs as [|x l Hs IH Hx]; intros [|n];
    cbn [take]; try constructor.
  - apply IH.
  - apply Forall_forall. intros y Hy. rewrite Forall_forall in Hx.
    apply Hx. apply list_elem_of_In. apply list_elem_of_In in Hy.
    now apply (In_take _ _ n).
Qed.

Lemma StronglySorted_map {A B} (R : B -> B -> Prop) (f : A -> B)
    (l : list A) :
  StronglySorted R (map f l) ->
  StronglySorted (fun a b => R (f a) (f b)) l.
Proof.
  induction l as [|x l IH]; cbn [map]; intros Hs; [constructor|].
  apply StronglySorted_inv in Hs as [Hs Hx]. constructor; [now apply IH|].
  apply Forall_forall. intros y Hy. rewrite Forall_forall in Hx.
  apply Hx. apply list_elem_of_In, in_map, list_elem_of_In. exact Hy.
Qed.

Lemma StronglySorted_of_map {A B} (R : B -> B -> Prop) (f : A -> B)
    (l : list A) :
  StronglySorted (fun a b => R (f a) (f b)) l ->
  StronglySorted R (map f l).
Proof.
  induction 1 as [|x l Hs IH Hx]; cbn [map]; constructor; [exact IH|].
  apply Forall_map. exact Hx.
Qed.

Lemma occurrences_of_type t relationships :
  occurrences (relationship_type_str t)
    (map (fun r => relationship_type_str (Relationship.type r)) relationships)
  = relationships_of_type t relationships.
Proof.
  unfold occurrences, relationships_of_type.
  induction relationships as [|r relationships IH]; [reflexivity|].
  cbn [map List.filter].
  destruct (String.eqb _ _); cbn [length]; now rewrite IH.
Qed.

Lemma occurrences_positive key keys : 0 < occurrences key keys -> In key keys.
Proof.
  unfold occurrences. induction keys as [|k keys IH]; cbn; [lia|].
  destruct (String.eqb_spec key k) as [->|_]; [now left|].
  intros Hpos. right. now apply IH.
Qed.

(** X17. The patterns of the basic pipeline are at most 10, listed by
    falling frequency; each is named after a relationship type that
    occurs, and its frequency is the number of relationships of that
    type. *)
Theorem patterns_count_relationship_types
    (relationships : list Relationship.t) (c : Clock.t) :
  let patterns :=
    Clock.run (BasicProcessor.extract_wisdom_basic_patterns relationships) c in
  length patterns <= 10
  /\ StronglySorted
       (fun p q => BasicPattern.frequency q <= BasicPattern.frequency p)
       patterns
  /\ Forall (fun p =>
               exists t,
                 BasicPattern.name p
                 = (relationship_type_str t ++ "_pattern")%string
                 /\ BasicPattern.frequency p
                    = relationships_of_type t relationships
                 /\ 0 < BasicPattern.frequency p)
            patterns.
Proof.
  cbn zeta. unfold Clock.run, BasicProcessor.extract_wisdom_basic_patterns.
  set (keys := map (fun r => relationship_type_str (Relationship.type r))
                   relationships).
  destruct (Counter_counts keys) as (_ & _ & Hcounts).
  split; [|split].
  - rewrite (for_each_length_exact (fun _ => 1))
      by (intros [t n] c1; reflexivity).
    rewrite list_sum_constant. unfold most_common. rewrite length_take. lia.
  - apply (StronglySorted_map (fun a b => b <= a) BasicPattern.frequency).
    rewrite (for_each_map BasicPattern.frequency snd)
      by (intros [t n] c1; reflexivity).
    apply StronglySorted_of_map, StronglySorted_take,
      sorted_by_count_sorted.
  - apply for_each_Forall. intros [k n] c1 Hin.
    apply In_take in Hin. apply (proj1 (sorted_by_count_In _ _)) in Hin.
    rewrite Forall_forall in Hcounts.
    destruct (Hcounts (k, n)) as [Hn Hpos]; [now apply list_elem_of_In|].
    assert (Hk : In k keys) by (apply occurrences_positive; lia).
    apply in_map_iff in Hk as (r & <- & _).
    cbn. constructor; [|constructor].
    exists (Relationship.type r). cbn.
    split; [reflexivity|]. split; [|exact Hpos].
    rewrite Hn. apply occurrences_of_type.
Qed.

Example patterns_of_a_batch :
  map (fun p => (BasicPattern.name p, BasicPattern.frequency p))
      (Clock.run
         (BasicProcessor.extract_wisdom_basic_patterns
            (Clock.run
               (BasicProcessor.extract_relationships_basic
                  "repo" "README.md" ["UTCP"; "API"; "Tool"])
               stopped_clock))
         stopped_clock)
  = [("co_occurrence_pattern", 3); ("contains_pattern", 3)].
Proof. reflexivity. Qed.

(** ** From the basic processor to the query service *)

Lemma write_json_Ok doc path fs fs' :
  write_json doc path fs = Ok fs' -> fs' = <[path := Store.JsonFile doc]> fs.
Proof.
  unfold write_json, Store.json_dump.
  destruct (fs !! path) as [[]|]; try discriminate; now intros [= <-].
Qed.

(** The store a successful [save_processed_knowledge] of the basic
    pipeline leaves in the default output directory. *)
Lemma basic_save_shape concepts relationships fs c fs' :
  fst (BasicProcessor.save_processed_knowledge concepts relationships
         default_output_dir fs c) = Ok fs' ->
  exists fs0 s1 s2,
    fs' = <[".utcp-kb/processed-knowledge/relationships_summary.json"
              := Store.JsonFile s2]>
            (<[".utcp-kb/processed-knowledge/concepts_summary.json"
                 := Store.JsonFile s1]>
               (<[".utcp-kb/processed-knowledge/all_relationships.json"
                    := Store.JsonFile
                         (JArr (map relationship_json relationships))]>
                  (<[".utcp-kb/processed-knowledge/all_concepts.json"
                       := Store.JsonFile (JArr (map concept_json concepts))]>
                     fs0))).
Proof.
  unfold BasicProcessor.save_processed_knowledge.
  destruct (mkdir_parents default_output_dir fs) as [fs0|e];
    [|discriminate].
  destruct (write_json _ _ fs0) as [fs1|e] eqn:H1; [|discriminate].
  destruct (write_json _ _ fs1) as [fs2|e] eqn:H2; [|discriminate].
  unfold BasicProcessor.create_summaries. rewrite bind_fst.
  cbn [Clock.now fst snd].
  destruct (write_json _ _ fs2) as [fs3|e] eqn:H3; [|discriminate].
  rewrite bind_fst. cbn [Clock.now Clock.ret fst snd]. intros H4.
  apply write_json_Ok in H1, H2, H3, H4. subst.
  eexists _, _, _. reflexivity.
Qed.

(** X18. With the default directories, what the basic processor saves is
    what a new knowledge base returns: [get_concepts] and
    [get_relationships] give the documents of the saved concepts and
    relationships, in order. *)
Theorem basic_save_is_read_back
    (concepts : list Concept.t) (relationships : list Relationship.t)
    (fs fs' : gmap string Store.node) (c : Clock.t) :
  fst (BasicProcessor.save_processed_knowledge concepts relationships
         default_output_dir fs c) = Ok fs' ->
  fst (Api.get_concepts fs' (Api.__init__ default_kb_path fs'))
    = Ok (JArr (map concept_json concepts))
  /\ fst (Api.get_relationships fs' (Api.__init__ default_kb_path fs'))
     = Ok (JArr (map relationship_json relationships)).
Proof.
  intros Hsave.
  destruct (basic_save_shape _ _ _ _ _ Hsave) as (fs0 & s1 & s2 & ->).
  unfold Api.get_concepts, Api.get_relationships, Api.cached.
  cbn [Api.__init__ Api._concepts Api._relationships Api.kb_path is_None].
  unfold Api._load_json, Store.path_exists, Store.json_load.
  change (PurePath.join default_kb_path
            "processed-knowledge/all_concepts.json")
    with ".utcp-kb/processed-knowledge/all_concepts.json".
  change (PurePath.join default_kb_path
            "processed-knowledge/all_relationships.json")
    with ".utcp-kb/processed-knowledge/all_relationships.json".
  split.
  - rewrite !lookup_insert_ne by discriminate.
    rewrite !lookup_insert_eq. reflexivity.
  - rewrite !lookup_insert_ne by discriminate.
    rewrite !lookup_insert_eq. reflexivity.
Qed.

Lemma basic_save_is_read_back_witness :
  let saved :=
    fst (BasicProcessor.save_processed_knowledge
           [concept_hello_world] [relationship_hello]
           default_output_dir ∅ stopped_clock) in
  match saved with
  | Ok fs' =>
      saved = Ok fs'
      /\ fst (Api.get_concepts fs' (Api.__init__ default_kb_path fs'))
         = Ok (JArr [concept_json concept_hello_world])
  | Raise _ => False
  end.
Proof.
  cbn zeta.
  destruct (fst (BasicProcessor.save_processed_knowledge
                   [concept_hello_world] [relationship_hello]
                   default_output_dir ∅ stopped_clock))
    as [fs'|e] eqn:Hsave.
  - split; [reflexivity|].
    exact (proj1 (basic_save_is_read_back _ _ _ _ _ Hsave)).
  - vm_compute in Hsave. discriminate.
Defined.

Lemma concept_json_matches query c :
  Api.concept_matches (PyStr.lower query) (concept_json c)
  = Return (concept_record_matches query c).
Proof. reflexivity. Qed.

Lemma filter_concept_docs query concepts :
  List.filter (accepted_by (Api.concept_matches (PyStr.lower query)))
              (map concept_json concepts)
  = map concept_json
        (List.filter (concept_record_matches query) concepts).
Proof.
  induction concepts as [|c concepts IH]; [reflexivity|].
  cbn [map List.filter]. unfold accepted_by at 1.
  rewrite concept_json_matches.
  destruct (concept_record_matches query c); cbn [map]; now rewrite IH.
Qed.

(** X19. A search on a new knowledge base over what the basic processor
    saved returns the documents of the first concepts whose name,
    description or context contains the query, case ignored: [limit] of
    them, or one when [limit] is not positive. It does not raise. *)
Theorem search_over_saved_concepts
    (query : string) (limit : Z)
    (concepts : list Concept.t) (relationships : list Relationship.t)
    (fs fs' : gmap string Store.node) (c : Clock.t) :
  fst (BasicProcessor.save_processed_knowledge concepts relationships
         default_output_dir fs c) = Ok fs' ->
  fst (Api.search_concepts query limit fs' (Api.__init__ default_kb_path fs'))
  = Return
      (map concept_json
         (take (Z.to_nat (Z.max 1 limit))
            (List.filter (concept_record_matches query) concepts))).
Proof.
  intros Hsave.
  destruct (basic_save_shape _ _ _ _ _ Hsave) as (fs0 & s1 & s2 & ->).
  unfold Api.search_concepts, Api.get_concepts, Api.cached.
  cbn [Api.__init__ Api._concepts Api.kb_path is_None].
  unfold Api._load_json, Store.path_exists, Store.json_load.
  change (PurePath.join default_kb_path
            "processed-knowledge/all_concepts.json")
    with ".utcp-kb/processed-knowledge/all_concepts.json".
  rewrite !lookup_insert_ne by discriminate.
  rewrite !lookup_insert_eq. cbn [fst Api._concepts py_iter obind].
  rewrite collect_until_take.
  - cbn [app length]. rewrite Nat.sub_0_r, filter_concept_docs.
    now rewrite firstn_map.
  - apply Forall_forall. intros doc Hdoc.
    apply list_elem_of_In, in_map_iff in Hdoc as (k & <- & _).
    eexists. apply concept_json_matches.
  - now left.
Qed.

Lemma search_over_saved_concepts_witness :
  let saved :=
    fst (BasicProcessor.save_processed_knowledge
           [concept_hello_world] [relationship_hello]
           default_output_dir ∅ stopped_clock) in
  match saved with
  | Ok fs' =>
      saved = Ok fs'
      /\ fst (Api.search_concepts "TOUR" 5 fs'
                (Api.__init__ default_kb_path fs'))
         = Return [concept_json concept_hello_world]
  | Raise _ => False
  end.
Proof.
  cbn zeta.
  destruct (fst (BasicProcessor.save_processed_knowledge
                   [concept_hello_world] [relationship_hello]
                   default_output_dir ∅ stopped_clock))
    as [fs'|e] eqn:Hsave.
  - split; [reflexivity|].
    exact (search_over_saved_concepts "TOUR" 5 _ _ _ _ _ Hsave).
  - vm_compute in Hsave. discriminate.
Defined.

(** X20. With the default directories, the wisdom of the basic pipeline
    is what a new knowledge base returns: [get_principles] gives the
    documents of the principles derived from the concepts, and
    [get_patterns] those of the patterns counted from the
    relationships; from empty collections both are empty. *)
Theorem basic_wisdom_is_read_back `{SetOrder}
    (concepts : list Concept.t) (relationships : list Relationship.t)
    (fs fs' : gmap string Store.node) (c : Clock.t) :
  fst (BasicProcessor.extract_wisdom_basic concepts relationships
         default_output_dir fs c) = Ok fs' ->
  let principles :=
    BasicProcessor.extract_wisdom_basic_principles concepts c in
  let patterns :=
    BasicProcessor.extract_wisdom_basic_patterns relationships
      (snd principles) in
  fst (Api.get_principles fs' (Api.__init__ default_kb_path fs'))
    = Ok (JArr (map BasicProcessor.basic_principle_json (fst principles)))
  /\ fst (Api.get_patterns fs' (Api.__init__ default_kb_path fs'))
     = Ok (JArr (map BasicProcessor.basic_pattern_json (fst patterns)))
  /\ (concepts = [] -> relationships = [] ->
      fst (Api.get_principles fs' (Api.__init__ default_kb_path fs'))
        = Ok (JArr [])
      /\ fst (Api.get_patterns fs' (Api.__init__ default_kb_path fs'))
         = Ok (JArr [])).
Proof.
  intros Hsave. cbn zeta.
  assert (Hread :
    fst (Api.get_principles fs' (Api.__init__ default_kb_path fs'))
      = Ok (JArr (map BasicProcessor.basic_principle_json
                    (fst (BasicProcessor.extract_wisdom_basic_principles
                            concepts c))))
    /\ fst (Api.get_patterns fs' (Api.__init__ default_kb_path fs'))
       = Ok (JArr (map BasicProcessor.basic_pattern_json
                     (fst (BasicProcessor.extract_wisdom_basic_patterns
                             relationships
                             (snd (BasicProcessor.extract_wisdom_basic_principles
                                     concepts c))))))).
  { revert Hsave. unfold BasicProcessor.extract_wisdom_basic.
    rewrite bind_fst.
    change (path_child (path_child (path_parent default_output_dir) "wisdom")
              "principles")
      with ".utcp-kb/wisdom/principles".
    change (path_child (path_child (path_parent default_output_dir) "wisdom")
              "patterns")
      with ".utcp-kb/wisdom/patterns".
    change (path_child ".utcp-kb/wisdom/principles" "all_principles.json")
      with ".utcp-kb/wisdom/principles/all_principles.json".
    change (path_child ".utcp-kb/wisdom/patterns" "all_patterns.json")
      with ".utcp-kb/wisdom/patterns/all_patterns.json".
    destruct (mkdir_parents ".utcp-kb/wisdom/principles" fs) as [fs0|e];
      [|discriminate].
    destruct (write_json _ _ fs0) as [fs1|e] eqn:H1; [|discriminate].
    rewrite bind_fst.
    destruct (mkdir_parents ".utcp-kb/wisdom/patterns" fs1) as [fs2|e] eqn:H2;
      [|discriminate].
    cbn [Clock.ret fst]. intros H3.
    apply write_json_Ok in H1, H3. subst fs1 fs'.
    assert (Hkept : fs2 !! ".utcp-kb/wisdom/principles/all_principles.json"
                    = Some (Store.JsonFile
                              (JArr (map BasicProcessor.basic_principle_json
                                       (fst (BasicProcessor.extract_wisdom_basic_principles
                                               concepts c)))))).
    { revert H2. unfold mkdir_parents.
      change (dir_chain ".utcp-kb/wisdom/patterns")
        with [".utcp-kb"; ".utcp-kb/wisdom"; ".utcp-kb/wisdom/patterns"].
      cbn [mkdir_chain].
      rewrite !lookup_insert_ne by discriminate.
      repeat match goal with
             | |- context [match ?m !! ?k with _ => _ end] =>
                 destruct (m !! k) as [[]|] eqn:?; try discriminate;
                 rewrite ?lookup_insert_ne by discriminate
             end;
        intros [= <-];
        rewrite ?lookup_insert_ne by discriminate;
        apply lookup_insert_eq. }
    unfold Api.get_principles, Api.get_patterns, Api.cached.
    cbn [Api.__init__ Api._principles Api._patterns Api.kb_path is_None].
    unfold Api._load_json, Store.path_exists, Store.json_load.
    change (PurePath.join default_kb_path
              "wisdom/principles/all_principles.json")
      with ".utcp-kb/wisdom/principles/all_principles.json".
    change (PurePath.join default_kb_path "wisdom/patterns/all_patterns.json")
      with ".utcp-kb/wisdom/patterns/all_patterns.json".
    split.
    - rewrite !lookup_insert_ne by discriminate. rewrite Hkept. reflexivity.
    - rewrite !lookup_insert_eq. reflexivity. }
  destruct Hread as [Hprinciples Hpatterns].
  split; [exact Hprinciples|]. split; [exact Hpatterns|].
  intros -> ->. rewrite Hprinciples, Hpatterns. split; reflexivity.
Qed.

Lemma basic_wisdom_is_read_back_witness :
  let saved :=
    fst (@BasicProcessor.extract_wisdom_basic canonical_order [] []
           default_output_dir ∅ stopped_clock) in
  match saved with
  | Ok fs' =>
      saved = Ok fs'
      /\ fst (Api.get_principles fs' (Api.__init__ default_kb_path fs'))
         = Ok (JArr [])
  | Raise _ => False
  end.
Proof.
  cbn zeta.
  destruct (fst (@BasicProcessor.extract_wisdom_basic canonical_order [] []
                   default_output_dir ∅ stopped_clock))
    as [fs'|e] eqn:Hsave.
  - split; [reflexivity|].
    exact (proj1 (proj2 (proj2 (@basic_wisdom_is_read_back canonical_order
                                  _ _ _ _ _ Hsave))
                    eq_refl eq_refl)).
  - vm_compute in Hsave. discriminate.
Defined.

(** ** The full processor and the query service *)

Lemma dump_elsewhere doc path fs other :
  path <> other -> Store.json_dump doc path fs !! other = fs !! other.
Proof. intros Hne. unfold Store.json_dump. now rewrite lookup_insert_ne. Qed.

Lemma full_save_keeps fs concepts relationships repositories evolution
    `{SetOrder} c other :
  ~ PyStr.startswith ".utcp-kb/processed-knowledge/concepts/" other = true ->
  ~ PyStr.startswith ".utcp-kb/processed-knowledge/relationships/" other
    = true ->
  ~ PyStr.startswith ".utcp-kb/processed-knowledge/repositories/" other
    = true ->
  ~ PyStr.startswith ".utcp-kb/processed-knowledge/evolution/" other = true ->
  fst (Processor.save_processed_knowledge concepts relationships
         repositories evolution fs c) !! other
  = fs !! other.
Proof.
  intros H1 H2 H3 H4.
  unfold Processor.save_processed_knowledge, Processor.create_summaries.
  rewrite !bind_fst. cbn [Clock.ret fst].
  rewrite !dump_elsewhere; try reflexivity;
    intros <-; (apply H1 + apply H2 + apply H3 + apply H4); reflexivity.
Qed.

Lemma save_wisdom_keeps principles patterns best_practices insights fs c
    other :
  ~ PyStr.startswith ".utcp-kb/wisdom/" other = true ->
  fst (Processor.save_wisdom principles patterns best_practices insights
         fs c) !! other
  = fs !! other.
Proof.
  intros Hw. unfold Processor.save_wisdom.
  rewrite bind_fst. cbn [Clock.ret fst].
  rewrite !dump_elsewhere; try reflexivity; intros <-; apply Hw; reflexivity.
Qed.

Lemma save_wisdom_principles principles patterns best_practices insights
    fs c :
  fst (Processor.save_wisdom principles patterns best_practices insights
         fs c) !! ".utcp-kb/wisdom/principles/all_principles.json"
  = Some (Store.JsonFile (JArr (map Processor.principle_json principles))).
Proof.
  unfold Processor.save_wisdom. rewrite bind_fst. cbn [Clock.ret fst].
  rewrite !dump_elsewhere by discriminate.
  apply lookup_insert_eq.
Qed.

(** X21. The full processor writes its concepts and relationships under
    [concepts/] and [relationships/], where the query service does not
    look: after [process_raw_extractions] a new knowledge base returns
    the same concepts and relationships as before the run, while its
    principles are the new ones, ending with the two seed
    principles. *)
Theorem full_processor_feeds_principles_only `{SetOrder}
    (nlp : option Processor.nlp_model) (raw : list RawExtraction.t)
    (fs : gmap string Store.node) (c : Clock.t) :
  let fs' := Clock.run (Processor.process_raw_extractions nlp raw fs) c in
  fst (Api.get_concepts fs' (Api.__init__ default_kb_path fs'))
    = fst (Api.get_concepts fs (Api.__init__ default_kb_path fs))
  /\ fst (Api.get_relationships fs' (Api.__init__ default_kb_path fs'))
     = fst (Api.get_relationships fs (Api.__init__ default_kb_path fs))
  /\ exists derived t1 t2,
       fst (Api.get_principles fs' (Api.__init__ default_kb_path fs'))
       = Ok (JArr (map Processor.principle_json
                     (derived ++ Processor.utcp_principles t1 t2))).
Proof.
  cbn zeta. unfold Clock.run, Processor.process_raw_extractions.
  rewrite !bind_fst. unfold Processor.extract_wisdom. rewrite !bind_fst.
  unfold Api.get_concepts, Api.get_relationships, Api.get_principles,
         Api.cached.
  cbn [Api.__init__ Api._concepts Api._relationships Api._principles
       Api.kb_path is_None].
  unfold Api._load_json, Store.path_exists, Store.json_load.
  change (PurePath.join default_kb_path
            "processed-knowledge/all_concepts.json")
    with ".utcp-kb/processed-knowledge/all_concepts.json".
  change (PurePath.join default_kb_path
            "processed-knowledge/all_relationships.json")
    with ".utcp-kb/processed-knowledge/all_relationships.json".
  change (PurePath.join default_kb_path
            "wisdom/principles/all_principles.json")
    with ".utcp-kb/wisdom/principles/all_principles.json".
  rewrite !save_wisdom_keeps by (cbn; discriminate).
  rewrite !full_save_keeps by (cbn; discriminate).
  rewrite save_wisdom_principles.
  split; [|split].
  - now destruct (fs !! _) as [[]|].
  - now destruct (fs !! _) as [[]|].
  - match goal with
    | |- context [Processor.extract_principles ?cs ?rs ?c1] =>
        destruct (extract_principles_appends_seeds cs rs c1)
          as (derived & t1 & t2 & Heq)
    end.
    unfold Clock.run in Heq. exists derived, t1, t2.
    cbn [fst Api._principles]. now rewrite Heq.
Qed.

(** ** The handler of the basic API *)

Lemma split_on_nonempty sep s : PyStr.split_on sep s <> [].
Proof.
  destruct s as [|ch s]; cbn [PyStr.split_on]; [discriminate|].
  destruct (Ascii.eqb ch sep); [discriminate|].
  destruct (PyStr.split_on sep s); discriminate.
Qed.

Lemma answers_bind {A} (Q : BasicApi.response -> Prop) (o : outcome A)
    (k : A -> outcome BasicApi.response) :
  (forall a, answers Q (k a)) -> answers Q (obind o k).
Proof. intros Hk. destruct o; cbn; [apply Hk | exact I]. Qed.

(** X22. [do_GET] never answers 400: the path of a request always splits
    into at least one part, so the [Invalid request] branch is not
    reached. It answers 200, or 404 with [Endpoint not found], unless
    the load of a collection raises. *)
Theorem basic_api_never_answers_invalid_request
    (url_path : string) (query_params : gmap string (list string))
    (fs : gmap string Store.node) :
  answers
    (fun r =>
       BasicApi.status r <> 400
       /\ (BasicApi.status r = 200
           \/ (BasicApi.status r = 404
               /\ BasicApi.body r = BasicApi.BytesBody "Endpoint not found")))
    (BasicApi.do_GET url_path query_params fs).
Proof.
  unfold BasicApi.do_GET.
  destruct (PyStr.split_on "/" (PyStr.strip_chars "/" url_path))
    as [|first rest] eqn:Hparts;
    [now apply split_on_nonempty in Hparts|].
  repeat match goal with
         | |- context [if String.eqb ?a ?b then _ else _] =>
             destruct (String.eqb a b)
         end;
    repeat (apply answers_bind; intros);
    cbn; split; auto; discriminate.
Qed.

Lemma comprehension_filter (test : json -> outcome bool) (items : list json) :
  Forall (testable test) items ->
  comprehension test items = Return (List.filter (accepted_by test) items).
Proof.
  induction 1 as [|item items [accepted Htest] _ IH]; [reflexivity|].
  cbn [comprehension List.filter]. unfold accepted_by at 1.
  rewrite Htest, IH. cbn [obind]. reflexivity.
Qed.

Lemma concept_json_named_or_described q c :
  BasicApi.named_or_described (PyStr.lower q) (concept_json c)
  = Return (concept_named_or_described q c).
Proof.
  unfold BasicApi.named_or_described, concept_named_or_described.
  cbn. now destruct (PyStr.contains (PyStr.lower q)
                       (PyStr.lower (Concept.name c))).
Qed.

Lemma select_concept_docs q concepts :
  BasicApi.select (BasicApi.named_or_described (PyStr.lower q))
    (JArr (map concept_json concepts))
  = Return
      (JArr (map concept_json
               (List.filter (concept_named_or_described q) concepts))).
Proof.
  unfold BasicApi.select. cbn [py_iter obind].
  rewrite comprehension_filter.
  - cbn [obind]. do 2 f_equal.
    induction concepts as [|c concepts IH]; [reflexivity|].
    cbn [map List.filter]. unfold accepted_by at 1.
    rewrite concept_json_named_or_described.
    destruct (concept_named_or_described q c); cbn [map]; now rewrite IH.
  - apply Forall_forall. intros doc Hdoc.
    apply list_elem_of_In, in_map_iff in Hdoc as (k & <- & _).
    eexists. apply concept_json_named_or_described.
Qed.

(** X23. After the basic processor saved to the default directory, the
    basic API answers [/concepts] with status 200 and the documents of
    all saved concepts, and [/concepts?q=...] with those whose name or
    description contains the first value of [q], case ignored, all of
    them and in order; the context is not searched. *)
Theorem basic_api_serves_saved_concepts
    (concepts : list Concept.t) (relationships : list Relationship.t)
    (fs fs' : gmap string Store.node) (c : Clock.t)
    (query_params : gmap string (list string)) :
  fst (BasicProcessor.save_processed_knowledge concepts relationships
         default_output_dir fs c) = Ok fs' ->
  BasicApi.do_GET "/concepts" query_params fs'
  = match query_params !! "q" with
    | None =>
        Return (BasicApi.send_json_response (JArr (map concept_json concepts)))
    | Some [] => Throw "IndexError" "list index out of range"
    | Some (q :: _) =>
        Return
          (BasicApi.send_json_response
             (JArr (map concept_json
                      (List.filter (concept_named_or_described q)
                                   concepts))))
    end.
Proof.
  intros Hsave.
  destruct (basic_save_shape _ _ _ _ _ Hsave) as (fs0 & s1 & s2 & ->).
  unfold BasicApi.do_GET.
  change (PyStr.split_on "/" (PyStr.strip_chars "/" "/concepts"))
    with ["concepts"].
  cbn [String.eqb Ascii.eqb Bool.eqb].
  unfold BasicApi.load_json_file, Store.path_exists, Store.json_load.
  change (PurePath.join BasicApi.kb_base
            "processed-knowledge/all_concepts.json")
    with ".utcp-kb/processed-knowledge/all_concepts.json".
  rewrite !lookup_insert_ne by discriminate.
  rewrite !lookup_insert_eq. cbn [of_result obind].
  destruct (query_params !! "q") as [[|q more]|]; try reflexivity.
  cbn [BasicApi.first_value obind].
  now rewrite select_concept_docs.
Qed.

Lemma basic_api_serves_saved_concepts_witness :
  let saved :=
    fst (BasicProcessor.save_processed_knowledge
           [concept_hello_world] [relationship_hello]
           default_output_dir ∅ stopped_clock) in
  match saved with
  | Ok fs' =>
      saved = Ok fs'
      /\ BasicApi.do_GET "/concepts" (<["q" := ["UTCP"; "x"]]> ∅) fs'
         = Return (BasicApi.send_json_response
                     (JArr [concept_json concept_hello_world]))
  | Raise _ => False
  end.
Proof.
  cbn zeta.
  destruct (fst (BasicProcessor.save_processed_knowledge
                   [concept_hello_world] [relationship_hello]
                   default_output_dir ∅ stopped_clock))
    as [fs'|e] eqn:Hsave.
  - split; [reflexivity|].
    exact (basic_api_serves_saved_concepts _ _ _ _ _
             (<["q" := ["UTCP"; "x"]]> ∅) Hsave).
  - vm_compute in Hsave. discriminate.
Defined.

Example basic_api_routes :
  map (fun url_path =>
         match BasicApi.do_GET url_path ∅ ∅ with
         | Return r => BasicApi.status r
         | Throw _ _ => 0
         end)
      ["/health"; "/api/health"; "/health/concepts"; "/"; ""; "/nothing";
       "/concepts/"; "//wisdom"; "/a/b/health"]
  = [200; 200; 200; 404; 404; 404; 200; 200; 404].
Proof. reflexivity. Qed.





(** ** The filters of the query service *)

Lemma obind_Return {A} (o : outcome A) : obind o Return = o.
Proof. now destruct o. Qed.

Lemma comprehension_fields_are key1 value1 key2 value2 items :
  comprehension (Api.fields_are key1 value1 key2 value2) items
  = obind (comprehension (Api.field_is key1 value1) items)
          (comprehension (Api.field_is key2 value2))
  /\ comprehension (Api.fields_are key1 value1 key2 value2) items
     = obind (comprehension (Api.field_is key2 value2) items)
             (comprehension (Api.field_is key1 value1)).
Proof.
  induction items as [|item items [IH1 IH2]]; [now split|].
  cbn [comprehension].
  destruct item as [| | | | | |members];
    try (split; reflexivity).
  destruct (Api.field_is key1 value1 (JObj members)) as [b1|] eqn:E1;
    [|discriminate].
  destruct (Api.field_is key2 value2 (JObj members)) as [b2|] eqn:E2;
    [|discriminate].
  assert (E : Api.fields_are key1 value1 key2 value2 (JObj members)
              = Return (b1 && b2)).
  { unfold Api.fields_are. rewrite E1. cbn [obind].
    destruct b1; [exact E2 | reflexivity]. }
  rewrite E. cbn [obind]. split.
  - rewrite IH1.
    destruct (comprehension (Api.field_is key1 value1) items)
      as [rest|cls msg]; cbn [obind]; [|reflexivity].
    destruct b1; cbn [andb comprehension].
    + now rewrite E2.
    + apply obind_Return.
  - rewrite IH2.
    destruct (comprehension (Api.field_is key2 value2) items)
      as [rest|cls msg]; cbn [obind]; [|reflexivity].
    destruct b2; cbn [comprehension].
    + rewrite E1. cbn [obind]. now rewrite andb_true_r.
    + rewrite andb_false_r. apply obind_Return.
Qed.

(** X25. [get_concepts_by_repo_and_type] is the composition of the two
    single filters, in either order: it returns what filtering the
    result of [get_concepts_by_repo] by type returns, and what filtering
    the result of [get_concepts_by_type] by repository returns, with the
    same exception when one of them raises and the same instance
    afterwards. *)
Theorem repo_and_type_filter_composes
    (repo_name concept_type : string) (fs : gmap string Store.node)
    (kb : Api.UTCPKnowledgeBase) :
  Api.get_concepts_by_repo_and_type repo_name concept_type fs kb
  = (obind (fst (Api.get_concepts_by_repo repo_name fs kb))
           (comprehension (Api.field_is "type" concept_type)),
     snd (Api.get_concepts_by_repo repo_name fs kb))
  /\
  Api.get_concepts_by_repo_and_type repo_name concept_type fs kb
  = (obind (fst (Api.get_concepts_by_type concept_type fs kb))
           (comprehension (Api.field_is "source_repo" repo_name)),
     snd (Api.get_concepts_by_type concept_type fs kb)).
Proof.
  unfold Api.get_concepts_by_repo_and_type, Api.get_concepts_by_repo,
    Api.get_concepts_by_type, Api.filtered.
  destruct (Api.get_concepts fs kb) as [[docs|e] kb']; cbn [fst snd];
    [|now split].
  destruct (py_iter docs) as [items|cls msg]; cbn [obind]; [|now split].
  destruct (comprehension_fields_are
              "source_repo" repo_name "type" concept_type items)
    as [H1 H2].
  split; f_equal; assumption.
Qed.

Lemma comprehension_map {A} (doc : A -> json) (test : json -> outcome bool)
    (keep : A -> bool) (records : list A) :
  (forall a, test (doc a) = Return (keep a)) ->
  comprehension test (map doc records)
  = Return (map doc (List.filter keep records)).
Proof.
  intros Htest.
  induction records as [|a records IH]; [reflexivity|].
  cbn [map comprehension List.filter]. rewrite Htest, IH. cbn [obind].
  now destruct (keep a).
Qed.

(** X26. Over what the basic processor saved to the default directory,
    the filters of a new knowledge base return the documents of exactly
    the records that carry the value asked for, in order: the concepts
    of a repository, the concepts of a type, the concepts of both, and
    the relationships of a type. None raises. *)
Theorem filters_over_saved_knowledge
    (repo_name type_name : string)
    (concepts : list Concept.t) (relationships : list Relationship.t)
    (fs fs' : gmap string Store.node) (c : Clock.t) :
  fst (BasicProcessor.save_processed_knowledge concepts relationships
         default_output_dir fs c) = Ok fs' ->
  let kb := Api.__init__ default_kb_path fs' in
  fst (Api.get_concepts_by_repo repo_name fs' kb)
    = Return (map concept_json
                (List.filter (concept_in_repo repo_name) concepts))
  /\ fst (Api.get_concepts_by_type type_name fs' kb)
     = Return (map concept_json
                 (List.filter (concept_of_type type_name) concepts))
  /\ fst (Api.get_concepts_by_repo_and_type repo_name type_name fs' kb)
     = Return (map concept_json
                 (List.filter
                    (fun k => concept_in_repo repo_name k
                              && concept_of_type type_name k)
                    concepts))
  /\ fst (Api.get_relationships_by_type type_name fs' kb)
     = Return (map relationship_json
                 (List.filter (relationship_of_type type_name)
                              relationships)).
Proof.
  intros Hsave kb. subst kb.
  destruct (basic_save_shape _ _ _ _ _ Hsave) as (fs0 & s1 & s2 & ->).
  unfold Api.get_concepts_by_repo, Api.get_concepts_by_type,
    Api.get_concepts_by_repo_and_type, Api.get_relationships_by_type,
    Api.filtered, Api.get_concepts, Api.get_relationships, Api.cached.
  cbn [Api.__init__ Api._concepts Api._relationships Api.kb_path is_None].
  unfold Api._load_json, Store.path_exists, Store.json_load.
  change (PurePath.join default_kb_path
            "processed-knowledge/all_concepts.json")
    with ".utcp-kb/processed-knowledge/all_concepts.json".
  change (PurePath.join default_kb_path
            "processed-knowledge/all_relationships.json")
    with ".utcp-kb/processed-knowledge/all_relationships.json".
  repeat split;
    rewrite !lookup_insert_ne by discriminate;
    rewrite !lookup_insert_eq;
    cbn [fst Api._concepts Api._relationships py_iter obind];
    apply comprehension_map; intros a;
    unfold Api.fields_are, Api.field_is, concept_in_repo, concept_of_type,
      relationship_of_type;
    cbn [concept_json relationship_json py_get members_get String.eqb
         Ascii.eqb Bool.eqb obind Api.py_eq_str];
    try destruct (String.eqb (Concept.source_repo a) repo_name);
    reflexivity.
Qed.

Lemma filters_over_saved_knowledge_witness :
  let saved :=
    fst (BasicProcessor.save_processed_knowledge
           [concept_hello_world] [relationship_hello]
           default_output_dir ∅ stopped_clock) in
  match saved with
  | Ok fs' =>
      saved = Ok fs'
      /\ fst (Api.get_concepts_by_repo "elsewhere" fs'
                (Api.__init__ default_kb_path fs'))
         = Return []
  | Raise _ => False
  end.
Proof.
  cbn zeta.
  destruct (fst (BasicProcessor.save_processed_knowledge
                   [concept_hello_world] [relationship_hello]
                   default_output_dir ∅ stopped_clock))
    as [fs'|e] eqn:Hsave.
  - split; [reflexivity|].
    exact (proj1 (filters_over_saved_knowledge "elsewhere" "term"
                    _ _ _ _ _ Hsave)).
  - vm_compute in Hsave. discriminate.
Defined.
